(** * Enrollment, promotion and re-admission engine of the school backend

    A shallow embedding of [StudentsService] (students service), of the
    roll-number generator of [common/utils/id-generator] and of the
    Mongoose schemas they rely on, followed by the properties of the
    academic-year scoped enrollment engine.

    Conventions of the embedding.
    - A collection is the list of its documents in insertion order; a
      query without [sort] returns documents in that order.
    - A JavaScript [string | undefined] is an [option string]; a value is
      "truthy" when it is [Some] of a non-empty string.
    - Text is ASCII: [toUpperCase], [toLowerCase], [trim] and the regular
      expressions are given on the 7-bit range.
    - A [Date] is its millisecond time stamp, a [number] holding an
      [order] or a counter is an integer.
    - Profile fields that never influence control flow (password hash,
      guardian data, uploaded documents) are left out of [Student.t]. *)

From stdpp Require Import gmap strings list fin_maps.
From Stdlib Require Import ZArith NArith Ascii String DecimalString DecimalN Lia.

Open Scope string_scope.
Open Scope list_scope.

(* ===================================================================== *)
(** ** JavaScript string primitives used by the service *)
(* ===================================================================== *)

Module JS.

Definition isSpace (c : ascii) : bool :=
  let n := N_of_ascii c in
  (((9 <=? n) && (n <=? 13)) || (n =? 32))%N.

Definition isDigit (c : ascii) : bool :=
  let n := N_of_ascii c in ((48 <=? n) && (n <=? 57))%N.

Definition upperChar (c : ascii) : ascii :=
  let n := N_of_ascii c in
  if ((97 <=? n) && (n <=? 122))%N then ascii_of_N (n - 32) else c.

Definition lowerChar (c : ascii) : ascii :=
  let n := N_of_ascii c in
  if ((65 <=? n) && (n <=? 90))%N then ascii_of_N (n + 32) else c.

Fixpoint mapChars (f : ascii -> ascii) (s : string) : string :=
  match s with
  | EmptyString => EmptyString
  | String c s' => String (f c) (mapChars f s')
  end.

(** [s.toUpperCase()] and [s.toLowerCase()] *)
Definition toUpperCase : string -> string := mapChars upperChar.
Definition toLowerCase : string -> string := mapChars lowerChar.

Fixpoint trimStart (s : string) : string :=
  match s with
  | EmptyString => EmptyString
  | String c s' => if isSpace c then trimStart s' else s
  end.

Fixpoint trimEnd (s : string) : string :=
  match s with
  | EmptyString => EmptyString
  | String c s' =>
      match trimEnd s' with
      | EmptyString => if isSpace c then EmptyString else String c EmptyString
      | t => String c t
      end
  end.

(** [s.trim()] *)
Definition trim (s : string) : string := trimEnd (trimStart s).

Fixpoint allDigits (s : string) : bool :=
  match s with
  | EmptyString => true
  | String c s' => isDigit c && allDigits s'
  end.

(** The capture of [s.match(/(\d+)$/)]: the longest run of digits that
    ends the string, [None] when the string does not end in a digit. *)
Fixpoint trailingDigits (s : string) : string :=
  match s with
  | EmptyString => EmptyString
  | String c s' => if allDigits s then s else trailingDigits s'
  end.

Definition matchTrailingDigits (s : string) : option string :=
  match trailingDigits s with
  | EmptyString => None
  | d => Some d
  end.

Fixpoint parseDigits (acc : N) (s : string) : N :=
  match s with
  | EmptyString => acc
  | String c s' => parseDigits (10 * acc + (N_of_ascii c - 48))%N s'
  end.

(** [parseInt(d, 10)] on a string of decimal digits *)
Definition parseInt (d : string) : N := parseDigits 0%N d.

(** [String(n)] for a non-negative integer *)
Definition ofNumber (n : N) : string := NilZero.string_of_uint (N.to_uint n).

Fixpoint repeatChar (n : nat) (c : ascii) : string :=
  match n with
  | O => EmptyString
  | S n' => String c (repeatChar n' c)
  end.

(** [s.padStart(len, c)] *)
Definition padStart (len : nat) (c : ascii) (s : string) : string :=
  repeatChar (len - String.length s) c +:+ s.

(** [String(x)] for an optional string: [undefined] prints as such. *)
Definition String_ (x : option string) : string :=
  match x with Some s => s | None => "undefined" end.

(** Truthiness of an optional string. *)
Definition truthy (x : option string) : bool :=
  match x with
  | Some EmptyString | None => false
  | Some _ => true
  end.

(** [a || b] on optional strings *)
Definition orElse (a b : option string) : option string :=
  if truthy a then a else b.

(** [a ?? b] on optional strings *)
Definition nullish (a b : option string) : option string :=
  match a with Some _ => a | None => b end.

End JS.

(* ===================================================================== *)
(** ** Documents (Mongoose schemas) *)
(* ===================================================================== *)

(** academic-year.schema: [name] is the unique display name ("2025-26").
    [label] and [order] belong to no schema of the repository; the
    students service reads them from the lean document through its own
    [AcademicYearLike] shape, so a stored document may or may not carry
    them. *)
Module AcademicYear.
Record t := mk {
  _id : string;
  name : string;
  label : option string;
  order : option Z;
  startDate : option Z;
  endDate : option Z;
  isActive : bool;
  isCurrent : bool;
}.
End AcademicYear.

Module Class.
Record t := mk {
  _id : string;
  name : string;
  order : option Z;
}.
End Class.

Module Section.
Record t := mk {
  _id : string;
  name : string;
  classId : string;
}.
End Section.

(** student.schema: account fields and the current-placement snapshot. *)
Module Student.
Record t := mk {
  _id : string;
  name : string;
  email : string;
  uniqueId : option string;
  rollNumber : string;
  classId : option string;
  sectionId : option string;
  academicYearId : option string;
}.
End Student.

(** enrollment.schema: the ledger; every field is [required]. *)
Module Enrollment.
Record t := mk {
  studentId : string;
  academicYearId : string;
  classId : string;
  sectionId : string;
  rollNumber : string;
}.
End Enrollment.

#[global] Instance AcademicYear_eq_dec : EqDecision AcademicYear.t.
Proof. solve_decision. Defined.
#[global] Instance Class_eq_dec : EqDecision Class.t.
Proof. solve_decision. Defined.
#[global] Instance Section_eq_dec : EqDecision Section.t.
Proof. solve_decision. Defined.
#[global] Instance Student_eq_dec : EqDecision Student.t.
Proof. solve_decision. Defined.
#[global] Instance Enrollment_eq_dec : EqDecision Enrollment.t.
Proof. solve_decision. Defined.

(** The database: one list per collection. *)
Record Store := mkStore {
  years : list AcademicYear.t;
  classes : list Class.t;
  sections : list Section.t;
  students : list Student.t;
  enrollments : list Enrollment.t;
}.

#[global] Instance Store_eq_dec : EqDecision Store.
Proof. solve_decision. Defined.

(* ===================================================================== *)
(** ** Exceptions and results *)
(* ===================================================================== *)

(** The exceptions that can leave the service: the three NestJS HTTP
    exceptions that the repository throws (the students service throws
    the first two, the academic-year service also the third), the
    driver's duplicate-key error (code 11000, with the key pattern of
    the violated unique index) and Mongoose's validation error for a
    missing [required] path. *)
Inductive Exception :=
| BadRequestException (message : string)
| NotFoundException (message : string)
| ConflictException (message : string)
| MongoServerError (code : Z) (keyPattern : list string)
| MongooseValidationError (path : string).

#[global] Instance Exception_eq_dec : EqDecision Exception.
Proof. solve_decision. Defined.

(** [err.message] *)
Definition message (e : Exception) : string :=
  match e with
  | BadRequestException m | NotFoundException m | ConflictException m => m
  | MongoServerError _ _ => "E11000 duplicate key error"
  | MongooseValidationError p => "Path `" +:+ p +:+ "` is required."
  end.

(** The error taxonomy of the specification, by HTTP status: 400 is a
    validation error, 404 not found, 409 a conflict, anything that is not
    an HTTP exception surfaces as an internal failure. *)
Inductive ErrorClass := ValidationError | NotFoundError | ConflictError | InternalError.

#[global] Instance ErrorClass_eq_dec : EqDecision ErrorClass.
Proof. solve_decision. Defined.

Definition errorClass (e : Exception) : ErrorClass :=
  match e with
  | BadRequestException _ => ValidationError
  | NotFoundException _ => NotFoundError
  | ConflictException _ => ConflictError
  | MongoServerError _ _ | MongooseValidationError _ => InternalError
  end.

Inductive Result (A : Type) :=
| Ok (a : A)
| Err (e : Exception).
Arguments Ok {A} a.
Arguments Err {A} e.

#[global] Instance Result_ret : MRet Result := fun _ a => Ok a.
#[global] Instance Result_bind : MBind Result := fun _ _ f m =>
  match m with Ok a => f a | Err e => Err e end.

(** [throw] and a guard that throws when its condition holds. *)
Definition throw {A} (e : Exception) : Result A := Err e.
Definition throwIf (b : bool) (e : Exception) : Result unit :=
  if b then Err e else Ok tt.

(** [session.withTransaction(body)]: the writes of [body] are kept when it
    returns and discarded when it throws. *)
Definition withTransaction {A} (body : Store -> Result (A * Store)) (st : Store)
  : Result A * Store :=
  match body st with
  | Ok (a, st') => (Ok a, st')
  | Err e => (Err e, st)
  end.

(* ===================================================================== *)
(** ** Collection primitives *)
(* ===================================================================== *)

Definition eqs (a b : string) : bool := bool_decide (a = b).
Definition eqo (a b : option string) : bool := bool_decide (a = b).

(** [array.find(pred)] and [Model.findOne(filter)] *)
Definition findOne {A} (p : A -> bool) (l : list A) : option A := List.find p l.

Fixpoint updateFirst {A} (p : A -> bool) (f : A -> A) (l : list A) : list A :=
  match l with
  | [] => []
  | x :: l' => if p x then f x :: l' else x :: updateFirst p f l'
  end.

Fixpoint removeFirst {A} (p : A -> bool) (l : list A) : list A :=
  match l with
  | [] => []
  | x :: l' => if p x then l' else x :: removeFirst p l'
  end.

(** A [required] string path: [undefined] and the empty string fail. *)
Definition required (path : string) (v : option string) : Result string :=
  match v with
  | Some (String c s) => Ok (String c s)
  | _ => Err (MongooseValidationError path)
  end.

(** [enrollmentModel.findOne({ studentId, academicYearId })] *)
Definition findEnrollment (studentId academicYearId : string) (l : list Enrollment.t)
  : option Enrollment.t :=
  findOne (fun e => eqs (Enrollment.studentId e) studentId
                    && eqs (Enrollment.academicYearId e) academicYearId) l.

(** [enrollmentModel.create([doc])]: the schema's setter ([trim] on
    [rollNumber]) and [required] validators run first, then the two
    unique indexes [(studentId, academicYearId)] and
    [(academicYearId, rollNumber)] are enforced; the document is
    appended. *)
Definition Enrollment_create
    (studentId academicYearId classId sectionId rollNumber : option string)
    (l : list Enrollment.t) : Result (Enrollment.t * list Enrollment.t) :=
  sid ← required "studentId" studentId;
  ay ← required "academicYearId" academicYearId;
  cid ← required "classId" classId;
  sec ← required "sectionId" sectionId;
  roll ← required "rollNumber" (JS.trim <$> rollNumber);
  _ ← throwIf (bool_decide (is_Some (findEnrollment sid ay l)))
        (MongoServerError 11000 ["studentId"; "academicYearId"]);
  _ ← throwIf (existsb (fun e => eqs (Enrollment.academicYearId e) ay
                                 && eqs (Enrollment.rollNumber e) roll) l)
        (MongoServerError 11000 ["academicYearId"; "rollNumber"]);
  let e := Enrollment.mk sid ay cid sec roll in
  mret (e, l ++ [e]).

(** [enrollmentModel.insertMany(docs, { ordered: false })] inside
    [try { ... } catch { }]: every document that passes validation and
    the unique indexes is inserted, the others are skipped and the error
    raised at the end is swallowed by the caller. *)
Definition EnrollmentInput : Type :=
  option string * option string * option string * option string * option string.

Fixpoint Enrollment_insertMany_unordered (docs : list EnrollmentInput)
    (l : list Enrollment.t) : list Enrollment.t :=
  match docs with
  | [] => l
  | (sid, ay, cid, sec, roll) :: docs' =>
      match Enrollment_create sid ay cid sec roll l with
      | Ok (_, l') => Enrollment_insertMany_unordered docs' l'
      | Err _ => Enrollment_insertMany_unordered docs' l
      end
  end.

Definition hasId (id : string) (s : Student.t) : bool := eqs (Student._id s) id.

(** [studentModel.findById(id)] *)
Definition findStudent (id : string) (l : list Student.t) : option Student.t :=
  findOne (hasId id) l.

(** The unique indexes of the student collection that a changed document
    is checked against: [email] and [(academicYearId, rollNumber)]; an
    index is consulted only when its key changed. *)
Definition Student_checkUnique (old new : Student.t) (l : list Student.t) : Result unit :=
  _ ← throwIf (negb (eqs (Student.email old) (Student.email new))
               && existsb (fun o => negb (hasId (Student._id new) o)
                                    && eqs (Student.email o) (Student.email new)) l)
        (MongoServerError 11000 ["email"]);
  throwIf (negb (eqo (Student.academicYearId old) (Student.academicYearId new)
                 && eqs (Student.rollNumber old) (Student.rollNumber new))
           && existsb (fun o => negb (hasId (Student._id new) o)
                                && eqo (Student.academicYearId o) (Student.academicYearId new)
                                && eqs (Student.rollNumber o) (Student.rollNumber new)) l)
    (MongoServerError 11000 ["academicYearId"; "rollNumber"]).

(** [doc.save()], [findByIdAndUpdate(id, { $set })] and one [updateOne] of
    a [bulkWrite]: the first document with that [_id] is replaced by
    [f] of it; [None] when there is no such document. *)
Definition Student_update (id : string) (f : Student.t -> Student.t)
    (l : list Student.t) : Result (option Student.t * list Student.t) :=
  match findStudent id l with
  | None => mret (None, l)
  | Some s =>
      let s' := f s in
      _ ← Student_checkUnique s s' l;
      mret (Some s', updateFirst (hasId id) (fun _ => s') l)
  end.

(** [studentModel.create([doc])]: unique indexes [_id], [uniqueId],
    [email] and [(academicYearId, rollNumber)]. *)
Definition Student_create (s : Student.t) (l : list Student.t) : Result (list Student.t) :=
  _ ← throwIf (existsb (hasId (Student._id s)) l) (MongoServerError 11000 ["_id"]);
  _ ← throwIf (existsb (fun o => bool_decide (Student.uniqueId o = Student.uniqueId s)) l)
        (MongoServerError 11000 ["uniqueId"]);
  _ ← throwIf (existsb (fun o => eqs (Student.email o) (Student.email s)) l)
        (MongoServerError 11000 ["email"]);
  _ ← throwIf (existsb (fun o => eqo (Student.academicYearId o) (Student.academicYearId s)
                                 && eqs (Student.rollNumber o) (Student.rollNumber s)) l)
        (MongoServerError 11000 ["academicYearId"; "rollNumber"]);
  mret (l ++ [s]).

(* ===================================================================== *)
(** ** common/utils/id-generator *)
(* ===================================================================== *)

(** [.sort({ key: -1 })] followed by [findOne]: the document whose key is
    greatest in the byte order of strings. *)
Definition greatestBy {A} (key : A -> string) (l : list A) : option A :=
  fold_left (fun best x =>
               match best with
               | None => Some x
               | Some b => if String.ltb (key b) (key x) then Some x else Some b
               end) l None.

(** The number that follows the digits ending [latest], 1 when there is
    no latest value or it does not end in a digit. *)
Definition nextNumberAfter (latest : option string) : N :=
  match latest with
  | Some (String c s) =>
      match JS.matchTrailingDigits (String c s) with
      | Some d => (JS.parseInt d + 1)%N
      | None => 1%N
      end
  | _ => 1%N
  end.

(** [generateRollNumber(enrollmentModel, className, sectionName,
    academicYearId)]. The [$regex] is the escaped prefix anchored at the
    start, that is a prefix test. *)
Definition generateRollNumber (enrollmentModel : list Enrollment.t)
    (className sectionName academicYearId : string) : string :=
  let normalizedClass := JS.trim (JS.toUpperCase className) in
  let normalizedSection := JS.trim (JS.toUpperCase sectionName) in
  let rollPrefix := normalizedClass +:+ "-" +:+ normalizedSection +:+ "-" in
  let latestEnrollment :=
    greatestBy Enrollment.rollNumber
      (List.filter (fun e => eqs (Enrollment.academicYearId e) academicYearId
                             && String.prefix rollPrefix (Enrollment.rollNumber e))
         enrollmentModel) in
  let nextNumber := nextNumberAfter (Enrollment.rollNumber <$> latestEnrollment) in
  rollPrefix +:+ JS.padStart 3 "0" (JS.ofNumber nextNumber).

(** [generateUniqueId(model, prefix)]; [currentYear] is
    [new Date().getFullYear()]. *)
Definition generateUniqueId (model : list Student.t) (prefix : string) (currentYear : N)
  : string :=
  let yearPattern := prefix +:+ "-" +:+ JS.ofNumber currentYear +:+ "-" in
  let latestUser :=
    greatestBy id
      (omap (fun s => match Student.uniqueId s with
                      | Some u => if String.prefix yearPattern u then Some u else None
                      | None => None
                      end) model) in
  let nextNumber := nextNumberAfter latestUser in
  yearPattern +:+ JS.padStart 4 "0" (JS.ofNumber nextNumber).

Definition generateStudentId (studentModel : list Student.t) (currentYear : N) : string :=
  generateUniqueId studentModel "STU" currentYear.

(* ===================================================================== *)
(** ** Request and response shapes *)
(* ===================================================================== *)

(** [PromoteBulkDto] is the class of [promote-bulk.dto], with its
    optional fields. The declarations of [create-student.dto] and
    [update-student.dto] are not among the sources: these two records
    are modelled from the spec and have the fields their service method
    reads, a field being optional where the method tests it for
    presence. *)
Module CreateStudentDto.
Record t := mk {
  name : string;
  email : string;
  classId : option string;
  sectionId : option string;
  academicYearId : string;
}.
End CreateStudentDto.

Module UpdateStudentDto.
Record t := mk {
  name : option string;
  email : option string;
  rollNumber : option string;
  classId : option string;
  sectionId : option string;
  academicYearId : option string;
}.
End UpdateStudentDto.

Module PromoteBulkDto.
Record t := mk {
  fromAcademicYearId : option string;
  fromClassId : string;
  fromSectionId : option string;
  studentIds : option (list string);
  toAcademicYearId : string;
  targetClassId : option string;
  targetSectionId : option string;
}.
End PromoteBulkDto.

Module PromoteBulkResult.
Record t := mk {
  selected : nat;
  matched : nat;
  modified : nat;
  toAcademicYearId : option string;
  targetClassId : option string;
  targetSectionId : option string;
}.
End PromoteBulkResult.

Module BulkError.
Record t := mk {
  studentId : string;
  name : string;
  error : string;
}.
End BulkError.

Module ReAdmitBulkResult.
Record t := mk {
  total : nat;
  successful : nat;
  failed : nat;
  errors : option (list BulkError.t);
}.
End ReAdmitBulkResult.

(** What a read issued without the session handle observes while a
    transaction of the same call is open: the transaction's own pending
    writes, or only what was committed before it began. The persistence
    layer decides; [reAdmitBulk], the one operation that reads inside its
    transaction, takes it as a parameter. *)
Inductive ReadView := SeesTransaction | SeesCommitted.

(* ===================================================================== *)
(** ** StudentsService *)
(* ===================================================================== *)

Module StudentsService.

(* ---------------- helpers ---------------- *)

Definition normEmail (email : string) : string := JS.toLowerCase (JS.trim email).
Definition normRoll (roll : string) : string := JS.trim roll.

Definition handleDupKey (err : Exception) : Exception :=
  match err with
  | MongoServerError code fields =>
      if (code =? 11000)%Z then
        if bool_decide ("email" ∈ fields) then BadRequestException "Email already exists"
        else if bool_decide ("rollNumber" ∈ fields)
                || (bool_decide ("academicYearId" ∈ fields)
                    && bool_decide ("rollNumber" ∈ fields))
             then BadRequestException "Roll number already exists for this academic year"
             else BadRequestException "Duplicate key error"
      else err
  | _ => err
  end.

(** Four digits at the head of [s], and what follows them. *)
Definition take4Digits (s : string) : option (string * string) :=
  match s with
  | String a (String b (String c (String d rest))) =>
      if JS.isDigit a && JS.isDigit b && JS.isDigit c && JS.isDigit d
      then Some (String a (String b (String c (String d EmptyString))), rest)
      else None
  | _ => None
  end.

(** [parseAYLabel]: the regular expression [/^(\d{4})\s*-\s*(\d{4})$/]
    applied to [String(label || '')]. *)
Definition parseAYLabel (label : option string) : option (N * N) :=
  let s := match label with Some l => l | None => "" end in
  match take4Digits s with
  | None => None
  | Some (y1, r1) =>
      match JS.trimStart r1 with
      | String "-" r2 =>
          match take4Digits (JS.trimStart r2) with
          | Some (y2, EmptyString) => Some (JS.parseInt y1, JS.parseInt y2)
          | _ => None
          end
      | _ => None
      end
  end.

Definition getAcademicYearById (id : string) (st : Store) : Result AcademicYear.t :=
  match findOne (fun y => eqs (AcademicYear._id y) id) (years st) with
  | None => throw (BadRequestException "Academic year not found")
  | Some doc => mret doc
  end.

(** The comparator [(a, b) => dateB - dateA]; a missing date makes the
    difference [NaN], which [sort] treats as 0. *)
Definition byStartDateDesc (a b : AcademicYear.t) : Z :=
  match AcademicYear.startDate a, AcademicYear.startDate b with
  | Some dateA, Some dateB => dateB - dateA
  | _, _ => 0
  end.

Fixpoint insertSorted {A} (cmp : A -> A -> Z) (x : A) (l : list A) : list A :=
  match l with
  | [] => [x]
  | y :: l' => if (cmp x y <=? 0)%Z then x :: l else y :: insertSorted cmp x l'
  end.

(** [array.sort(cmp)], a stable sort. *)
Definition sort {A} (cmp : A -> A -> Z) (l : list A) : list A :=
  foldr (insertSorted cmp) [] l.

(** The [current] variable of [assertIsCurrentAcademicYear]: the year
    flagged current, else the active year that started last. *)
Definition resolveCurrentYear (st : Store) : Result AcademicYear.t :=
  match findOne AcademicYear.isCurrent (years st) with
  | Some current => mret current
  | None =>
      let activeYears := List.filter AcademicYear.isActive (years st) in
      match sort byStartDateDesc activeYears with
      | [] => throw (BadRequestException
                 "No current or active academic year is set. Please set a current year first.")
      | current :: _ => mret current
      end
  end.

Definition assertIsCurrentAcademicYear (yearId : string) (st : Store) : Result unit :=
  current ← resolveCurrentYear st;
  throwIf (negb (eqs (AcademicYear._id current) yearId))
    (BadRequestException
       "Promotion is only allowed from the current academic year. Please select the current academic year in the topbar.").

Definition assertNextAcademicYear (fromId toId : string) (st : Store) : Result unit :=
  _ ← throwIf (eqs fromId toId)
        (BadRequestException
           "Target academic year must be the next one (cannot use the same year).");
  from ← getAcademicYearById fromId st;
  to ← getAcademicYearById toId st;
  match AcademicYear.order from, AcademicYear.order to with
  | Some fromOrder, Some toOrder =>
      throwIf (negb (toOrder =? fromOrder + 1)%Z)
        (BadRequestException "Target academic year must be the immediate next year.")
  | _, _ =>
      match parseAYLabel (AcademicYear.label from), parseAYLabel (AcademicYear.label to) with
      | Some pf, Some pt =>
          throwIf (negb ((pt.1 =? pf.1 + 1)%N && (pt.2 =? pf.2 + 1)%N))
            (BadRequestException "Target academic year must be the immediate next year.")
      | _, _ =>
          match AcademicYear.endDate from, AcademicYear.startDate to with
          | Some fromEnd, Some toStart =>
              throwIf (negb (fromEnd <? toStart)%Z)
                (BadRequestException
                   "Cannot verify academic year sequence; ensure the target is the next year.")
          | _, _ =>
              throw (BadRequestException
                   "Cannot verify academic year sequence; ensure the target is the next year.")
          end
      end
  end.

Definition findClass (id : string) (st : Store) : option Class.t :=
  findOne (fun c => eqs (Class._id c) id) (classes st).

Definition findSection (id : string) (st : Store) : option Section.t :=
  findOne (fun s => eqs (Section._id s) id) (sections st).

Definition setStudents (l : list Student.t) (st : Store) : Store :=
  mkStore (years st) (classes st) (sections st) l (enrollments st).

Definition setEnrollments (l : list Enrollment.t) (st : Store) : Store :=
  mkStore (years st) (classes st) (sections st) (students st) l.

(** [catch (err) { await this.handleDupKey(err) }] *)
Definition catchDupKey {A} (r : Result A * Store) : Result A * Store :=
  match r with
  | (Err e, st) => (Err (handleDupKey e), st)
  | ok => ok
  end.

(* ---------------- create/update ---------------- *)

(** [create(dto)]; [newId] is the [_id] the driver gives the new
    document and [currentYear] the calendar year of the clock. *)
Definition create (dto : CreateStudentDto.t) (newId : string) (currentYear : N)
    (st : Store) : Result (option Student.t) * Store :=
  let email := normEmail (CreateStudentDto.email dto) in
  if existsb (fun s => eqs (Student.email s) email) (students st)
  then (throw (BadRequestException "Email already exists"), st)
  else
    let roll : Result string :=
      if JS.truthy (CreateStudentDto.classId dto) && JS.truthy (CreateStudentDto.sectionId dto)
      then
        match findClass (JS.String_ (CreateStudentDto.classId dto)) st,
              findSection (JS.String_ (CreateStudentDto.sectionId dto)) st with
        | None, _ => throw (BadRequestException "Class not found")
        | Some _, None => throw (BadRequestException "Section not found")
        | Some classDoc, Some sectionDoc =>
            mret (generateRollNumber (enrollments st) (Class.name classDoc)
                    (Section.name sectionDoc) (CreateStudentDto.academicYearId dto))
        end
      else mret "TBD" in
    match roll with
    | Err e => (Err e, st)
    | Ok rollNumber =>
        let uniqueId := generateStudentId (students st) currentYear in
        catchDupKey
          (withTransaction
             (fun st0 =>
                let s := Student.mk newId (JS.trim (CreateStudentDto.name dto)) email
                           (Some uniqueId) (JS.trim rollNumber)
                           (CreateStudentDto.classId dto) (CreateStudentDto.sectionId dto)
                           (Some (CreateStudentDto.academicYearId dto)) in
                studs ← Student_create s (students st0);
                '(_, enrs) ← Enrollment_create (Some (Student._id s))
                               (Some (CreateStudentDto.academicYearId dto))
                               (CreateStudentDto.classId dto) (CreateStudentDto.sectionId dto)
                               (Some rollNumber) (enrollments st0);
                mret (Some s, setEnrollments enrs (setStudents studs st0)))
             st)
    end.

(** The [$set] document [toUpdate] applied to a student. *)
Definition applyUpdate (dto : UpdateStudentDto.t) (s : Student.t) : Student.t :=
  Student.mk (Student._id s)
    (match UpdateStudentDto.name dto with Some n => JS.trim n | None => Student.name s end)
    (match UpdateStudentDto.email dto with Some e => normEmail e | None => Student.email s end)
    (Student.uniqueId s)
    (match UpdateStudentDto.rollNumber dto with
     | Some r => normRoll r | None => Student.rollNumber s end)
    (JS.nullish (UpdateStudentDto.classId dto) (Student.classId s))
    (JS.nullish (UpdateStudentDto.sectionId dto) (Student.sectionId s))
    (JS.nullish (UpdateStudentDto.academicYearId dto) (Student.academicYearId s)).

(** [enrollmentModel.findOneAndUpdate({ studentId, academicYearId },
    { $set: { classId, sectionId } }, { upsert: false })]; a key whose
    value is [undefined] is left out of the [$set]. *)
Definition Enrollment_setPlacement (studentId : string) (academicYearId : option string)
    (classId sectionId : option string) (l : list Enrollment.t) : list Enrollment.t :=
  updateFirst
    (fun e => eqs (Enrollment.studentId e) studentId
              && eqo (Some (Enrollment.academicYearId e)) academicYearId)
    (fun e => Enrollment.mk (Enrollment.studentId e) (Enrollment.academicYearId e)
                (default (Enrollment.classId e) classId)
                (default (Enrollment.sectionId e) sectionId)
                (Enrollment.rollNumber e))
    l.

Definition update (id : string) (dto : UpdateStudentDto.t) (st : Store)
  : Result (option Student.t) * Store :=
  let emailTaken :=
    match UpdateStudentDto.email dto with
    | Some e => existsb (fun s => eqs (Student.email s) (normEmail e)
                                  && negb (hasId id s)) (students st)
    | None => false
    end in
  if emailTaken then (throw (BadRequestException "Email already exists"), st)
  else
    let rollCheck : Result unit :=
      if bool_decide (is_Some (UpdateStudentDto.academicYearId dto))
         || bool_decide (is_Some (UpdateStudentDto.rollNumber dto))
      then
        match findStudent id (students st) with
        | None => throw (BadRequestException "Student not found")
        | Some current =>
            let finalAcademicYearId :=
              JS.nullish (UpdateStudentDto.academicYearId dto) (Student.academicYearId current) in
            let finalRollNumber :=
              match UpdateStudentDto.rollNumber dto with
              | Some r => normRoll r
              | None => Student.rollNumber current
              end in
            throwIf (existsb (fun s => eqo (Student.academicYearId s) finalAcademicYearId
                                       && eqs (Student.rollNumber s) finalRollNumber
                                       && negb (hasId id s)) (students st))
              (BadRequestException "Roll number already exists for this academic year")
        end
      else mret tt in
    match rollCheck with
    | Err e => (Err e, st)
    | Ok _ =>
        let isClassOrSectionUpdated :=
          bool_decide (is_Some (UpdateStudentDto.classId dto))
          || bool_decide (is_Some (UpdateStudentDto.sectionId dto)) in
        let ledger : Result (list Enrollment.t) :=
          if isClassOrSectionUpdated then
            match findStudent id (students st) with
            | None => throw (BadRequestException "Student not found")
            | Some currentStudent =>
                let finalClassId :=
                  JS.nullish (UpdateStudentDto.classId dto) (Student.classId currentStudent) in
                let finalSectionId :=
                  JS.nullish (UpdateStudentDto.sectionId dto) (Student.sectionId currentStudent) in
                mret (Enrollment_setPlacement id (Student.academicYearId currentStudent)
                        finalClassId finalSectionId (enrollments st))
            end
          else mret (enrollments st) in
        match ledger with
        | Err e => (Err (handleDupKey e), st)
        | Ok enrs =>
            let st1 := setEnrollments enrs st in
            match Student_update id (applyUpdate dto) (students st1) with
            | Err e => (Err (handleDupKey e), st1)
            | Ok (updated, studs) => (Ok updated, setStudents studs st1)
            end
        end
    end.

(** [updateDocuments] and [updatePassword] change no modelled field;
    they fail when the student does not exist. *)
Definition updateDocuments (id : string) (st : Store) : Result Student.t * Store :=
  match findStudent id (students st) with
  | None => (throw (NotFoundException "Student not found"), st)
  | Some updated => (Ok updated, st)
  end.

Definition updatePassword (id : string) (st : Store) : Result string * Store :=
  match findStudent id (students st) with
  | None => (throw (NotFoundException "Student not found"), st)
  | Some _ => (Ok "Password updated successfully", st)
  end.

(** [delete(id)]: [findByIdAndDelete] *)
Definition delete (id : string) (st : Store) : Result (option Student.t) * Store :=
  (Ok (findStudent id (students st)),
   setStudents (removeFirst (hasId id) (students st)) st).

(* ---------------- promotions ---------------- *)

(** The snapshot assignments of [promote]; the roll number is kept. *)
Definition moveSnapshot (classId sectionId academicYearId : string) (s : Student.t)
  : Student.t :=
  Student.mk (Student._id s) (Student.name s) (Student.email s) (Student.uniqueId s)
    (Student.rollNumber s) (Some classId) (Some sectionId) (Some academicYearId).

(** The snapshot assignments of [reAdmit] and [reAdmitBulk]; the
    schema's [trim] setter runs on the assigned roll number. *)
Definition reseatSnapshot (classId sectionId academicYearId rollNumber : string)
    (s : Student.t) : Student.t :=
  Student.mk (Student._id s) (Student.name s) (Student.email s) (Student.uniqueId s)
    (JS.trim rollNumber) (Some classId) (Some sectionId) (Some academicYearId).

Definition promote (studentId classId sectionId academicYearId : string) (st : Store)
  : Result Student.t * Store :=
  match findStudent studentId (students st) with
  | None => (throw (NotFoundException "Student not found"), st)
  | Some student =>
      let checks : Result unit :=
        _ ← assertIsCurrentAcademicYear (JS.String_ (Student.academicYearId student)) st;
        _ ← assertNextAcademicYear (JS.String_ (Student.academicYearId student))
              academicYearId st;
        throwIf (bool_decide (is_Some (findEnrollment studentId academicYearId (enrollments st))))
          (BadRequestException "Student already has an enrollment for this academic year") in
      match checks with
      | Err e => (Err e, st)
      | Ok _ =>
          let rollNumber := Student.rollNumber student in
          withTransaction
            (fun st0 =>
               '(_, enrs) ← Enrollment_create (Some studentId) (Some academicYearId)
                              (Some classId) (Some sectionId) (Some rollNumber)
                              (enrollments st0);
               '(saved, studs) ← Student_update (Student._id student)
                                   (fun _ => moveSnapshot classId sectionId academicYearId student)
                                   (students st0);
               mret (moveSnapshot classId sectionId academicYearId student,
                     setStudents studs (setEnrollments enrs st0)))
            st
      end
  end.

(** The candidate filter of [promoteBulk]. *)
Definition isCandidate (dto : PromoteBulkDto.t) (fromAY : string) (s : Student.t) : bool :=
  eqo (Student.classId s) (Some (PromoteBulkDto.fromClassId dto))
  && eqo (Student.academicYearId s) (Some fromAY)
  && (if JS.truthy (PromoteBulkDto.fromSectionId dto)
      then eqo (Student.sectionId s) (PromoteBulkDto.fromSectionId dto) else true)
  && (match PromoteBulkDto.studentIds dto with
      | Some (id :: ids) => bool_decide (Student._id s ∈ id :: ids)
      | _ => true
      end).

(** [findOne({ order: { $gt: order } }).sort({ order: 1 })] *)
Definition nextClassAfter (order : Z) (l : list Class.t) : option Class.t :=
  fold_left (fun best c =>
               match Class.order c with
               | Some o =>
                   if (order <? o)%Z then
                     match best with
                     | Some b => if (o <? default o (Class.order b))%Z then Some c else best
                     | None => Some c
                     end
                   else best
               | None => best
               end) l None.

(** The target class: the one given, else the next class by [order]. *)
Definition resolveTargetClass (dto : PromoteBulkDto.t) (st : Store) : Result string :=
  if JS.truthy (PromoteBulkDto.targetClassId dto)
  then mret (JS.String_ (PromoteBulkDto.targetClassId dto))
  else
    match findClass (PromoteBulkDto.fromClassId dto) st with
    | None => throw (BadRequestException
                "Cannot infer next class: current class not found or has no order")
    | Some currentClass =>
        match Class.order currentClass with
        | None => throw (BadRequestException
                    "Cannot infer next class: current class not found or has no order")
        | Some order =>
            match nextClassAfter order (classes st) with
            | None => throw (BadRequestException
                        "No next class configured after current class")
            | Some next => mret (Class._id next)
            end
        end
    end.

(** [[...new Set(xs)]]: duplicates removed, first occurrences kept. *)
Fixpoint uniq (xs : list string) : list string :=
  match xs with
  | [] => []
  | x :: xs' => x :: List.filter (fun y => negb (eqs y x)) (uniq xs')
  end.

(** [[...new Set(students.map(s => s.sectionId).filter(Boolean))]] *)
Definition sectionIdsOf (candidates : list Student.t) : list string :=
  uniq (omap (fun s => if JS.truthy (Student.sectionId s)
                       then Student.sectionId s else None) candidates).

(** One turn of the loop that fills the section mapping. *)
Definition mapSection (targetSections : list Section.t) (m : gmap string string)
    (srcSection : Section.t) : gmap string string :=
  match findOne (fun t => eqs (JS.toLowerCase (Section.name t))
                            (JS.toLowerCase (Section.name srcSection)))
          targetSections with
  | Some matchingTarget => <[Section._id srcSection := Section._id matchingTarget]> m
  | None => m
  end.

(** The [sectionMapping] of [promoteBulk]: [None] stands for [null]. *)
Definition buildSectionMapping (dto : PromoteBulkDto.t) (targetClassId : string)
    (candidates : list Student.t) (st : Store) : option (gmap string string) :=
  if JS.truthy (PromoteBulkDto.targetSectionId dto) then None
  else
    let uniqueSectionIds := sectionIdsOf candidates in
    if bool_decide (uniqueSectionIds = []) then None
    else
      let sourceSections :=
        List.filter (fun sec => bool_decide (Section._id sec ∈ uniqueSectionIds))
          (sections st) in
      let targetSections :=
        List.filter (fun sec => eqs (Section.classId sec) targetClassId) (sections st) in
      Some (fold_left (mapSection targetSections) sourceSections ∅).

Definition noMatchMessage (currentSectionId : string) : string :=
  "No matching section found in target class for section ID: "
  +:+ currentSectionId +:+ ". Please specify a target section.".

Definition getTargetSectionId (dto : PromoteBulkDto.t)
    (sectionMapping : option (gmap string string)) (currentSectionId : option string)
  : Result (option string) :=
  if JS.truthy (PromoteBulkDto.targetSectionId dto)
  then mret (PromoteBulkDto.targetSectionId dto)
  else
    match sectionMapping with
    | Some mapping =>
        if JS.truthy currentSectionId then
          let mapped := mapping !! JS.String_ currentSectionId in
          if JS.truthy mapped then mret mapped
          else throw (BadRequestException (noMatchMessage (JS.String_ currentSectionId)))
        else mret currentSectionId
    | None => mret currentSectionId
    end.

(** [xs.map(f)] where [f] may throw: the first exception ends the map. *)
Fixpoint mapM {A B} (f : A -> Result B) (xs : list A) : Result (list B) :=
  match xs with
  | [] => mret []
  | x :: xs' => y ← f x; ys ← mapM f xs'; mret (y :: ys)
  end.

(** The [$set] of one [updateOne] of the bulk write; an [undefined]
    section id is left out. *)
Definition bulkSet (targetClassId toAcademicYearId : string) (sectionId : option string)
    (s : Student.t) : Student.t :=
  Student.mk (Student._id s) (Student.name s) (Student.email s) (Student.uniqueId s)
    (Student.rollNumber s) (Some targetClassId)
    (JS.nullish sectionId (Student.sectionId s)) (Some toAcademicYearId).

(** [studentModel.bulkWrite(ops)], ordered: the operations run in turn,
    the first failing one throws; the count is of documents that
    changed. *)
Fixpoint bulkWrite (ops : list (string * (Student.t -> Student.t)))
    (l : list Student.t) : Result (nat * list Student.t) :=
  match ops with
  | [] => mret (0, l)
  | (id, f) :: ops' =>
      '(_, l1) ← Student_update id f l;
      '(n, l2) ← bulkWrite ops' l1;
      let changed :=
        match findStudent id l with
        | Some s => negb (bool_decide (f s = s))
        | None => false
        end in
      mret ((if changed then S n else n), l2)
  end.

(** One element of [docs]: the ledger document of a candidate. *)
Definition enrollmentDoc (dto : PromoteBulkDto.t) (targetClassId : string)
    (sectionMapping : option (gmap string string)) (s : Student.t) : Result EnrollmentInput :=
  sec ← getTargetSectionId dto sectionMapping (Student.sectionId s);
  mret (Some (Student._id s), Some (PromoteBulkDto.toAcademicYearId dto), Some targetClassId,
        sec, Some (Student.rollNumber s)).

(** One element of [bulkOps]: the [updateOne] of a candidate, as the
    [_id] of its filter and the change of its [$set]. *)
Definition updateOneOp (dto : PromoteBulkDto.t) (targetClassId : string)
    (sectionMapping : option (gmap string string)) (s : Student.t)
  : Result (string * (Student.t -> Student.t)) :=
  sec ← getTargetSectionId dto sectionMapping (Student.sectionId s);
  mret (Student._id s,
        bulkSet targetClassId (PromoteBulkDto.toAcademicYearId dto) sec).

Definition promoteBulk (dto : PromoteBulkDto.t) (headerAY : option string) (st : Store)
  : Result PromoteBulkResult.t * Store :=
  let fromAYo := JS.orElse (PromoteBulkDto.fromAcademicYearId dto) headerAY in
  if negb (JS.truthy fromAYo)
  then (throw (BadRequestException
                 "fromAcademicYearId (or x-academic-year-id) is required"), st)
  else
    let fromAY := JS.String_ fromAYo in
    match assertIsCurrentAcademicYear fromAY st with
    | Err e => (Err e, st)
    | Ok _ =>
        let candidates := List.filter (isCandidate dto fromAY) (students st) in
        match candidates with
        | [] => (Ok (PromoteBulkResult.mk
                       (match PromoteBulkDto.studentIds dto with
                        | Some ids => List.length ids | None => 0 end)
                       0 0 None None None), st)
        | _ =>
            let placement : Result string :=
              _ ← assertNextAcademicYear fromAY (PromoteBulkDto.toAcademicYearId dto) st;
              resolveTargetClass dto st in
            match placement with
            | Err e => (Err e, st)
            | Ok targetClassId =>
                let sectionMapping := buildSectionMapping dto targetClassId candidates st in
                let toAY := PromoteBulkDto.toAcademicYearId dto in
                withTransaction
                  (fun st0 =>
                     docs ← mapM (enrollmentDoc dto targetClassId sectionMapping) candidates;
                     let enrs := Enrollment_insertMany_unordered docs (enrollments st0) in
                     bulkOps ← mapM (updateOneOp dto targetClassId sectionMapping) candidates;
                     '(modified, studs) ← bulkWrite bulkOps (students st0);
                     mret (PromoteBulkResult.mk (List.length candidates) (List.length candidates)
                             modified (Some toAY) (Some targetClassId)
                             (PromoteBulkDto.targetSectionId dto),
                           setStudents studs (setEnrollments enrs st0)))
                  st
            end
        end
    end.

(* ---------------- re-admission ---------------- *)

Definition reAdmit (studentId classId sectionId academicYearId : string) (st : Store)
  : Result Student.t * Store :=
  match findStudent studentId (students st) with
  | None => (throw (NotFoundException "Student not found"), st)
  | Some student =>
      if bool_decide (is_Some (findEnrollment studentId academicYearId (enrollments st)))
      then (throw (BadRequestException
                     "Student already has an enrollment for this academic year"), st)
      else
        match findClass classId st, findSection sectionId st with
        | None, _ => (throw (BadRequestException "Class not found"), st)
        | Some _, None => (throw (BadRequestException "Section not found"), st)
        | Some classDoc, Some sectionDoc =>
            let rollNumber :=
              generateRollNumber (enrollments st) (Class.name classDoc)
                (Section.name sectionDoc) academicYearId in
            withTransaction
              (fun st0 =>
                 '(_, enrs) ← Enrollment_create (Some studentId) (Some academicYearId)
                                (Some classId) (Some sectionId) (Some rollNumber)
                                (enrollments st0);
                 let student' :=
                   reseatSnapshot classId sectionId academicYearId rollNumber student in
                 '(_, studs) ← Student_update (Student._id student) (fun _ => student')
                                 (students st0);
                 mret (student', setStudents studs (setEnrollments enrs st0)))
              st
        end
  end.

(** One turn of the loop of [reAdmitBulk]. [committed] is the database
    as it was when the transaction began, [work] the transaction's
    view; the existence check and the roll-number query carry no
    session and read through [view], the two writes carry it. *)
Definition reAdmitBulkStep (view : ReadView) (committed : Store)
    (classDoc : Class.t) (sectionDoc : Section.t)
    (classId sectionId academicYearId : string)
    (acc : Store * nat * list BulkError.t) (student : Student.t)
  : Store * nat * list BulkError.t :=
  let '(work, successCount, errors) := acc in
  let seen := match view with SeesTransaction => work | SeesCommitted => committed end in
  let studentId := Student._id student in
  if bool_decide (is_Some (findEnrollment studentId academicYearId (enrollments seen)))
  then (work, successCount,
        errors ++ [BulkError.mk studentId (Student.name student)
                     "Already enrolled for this year"])
  else
    let rollNumber :=
      generateRollNumber (enrollments seen) (Class.name classDoc)
        (Section.name sectionDoc) academicYearId in
    match Enrollment_create (Some studentId) (Some academicYearId) (Some classId)
            (Some sectionId) (Some rollNumber) (enrollments work) with
    | Err err =>
        (work, successCount,
         errors ++ [BulkError.mk studentId (Student.name student) (message err)])
    | Ok (_, enrs) =>
        let work1 := setEnrollments enrs work in
        match Student_update studentId
                (reseatSnapshot classId sectionId academicYearId rollNumber)
                (students work1) with
        | Err err =>
            (work1, successCount,
             errors ++ [BulkError.mk studentId (Student.name student) (message err)])
        | Ok (_, studs) => (setStudents studs work1, S successCount, errors)
        end
    end.

Definition reAdmitBulk (view : ReadView) (studentIds : list string)
    (classId sectionId academicYearId : string) (st : Store)
  : Result ReAdmitBulkResult.t * Store :=
  match studentIds with
  | [] => (throw (BadRequestException "Student IDs are required"), st)
  | _ =>
      match findClass classId st, findSection sectionId st with
      | None, _ => (throw (BadRequestException "Class not found"), st)
      | Some _, None => (throw (BadRequestException "Section not found"), st)
      | Some classDoc, Some sectionDoc =>
          let found :=
            List.filter (fun s => bool_decide (Student._id s ∈ studentIds)) (students st) in
          match found with
          | [] => (throw (BadRequestException "No valid students found"), st)
          | _ =>
              let '(work, successCount, errors) :=
                fold_left (reAdmitBulkStep view st classDoc sectionDoc
                             classId sectionId academicYearId)
                  found (st, 0, []) in
              (Ok (ReAdmitBulkResult.mk (List.length studentIds) successCount (List.length errors)
                     (match errors with [] => None | _ => Some errors end)),
               work)
          end
      end
  end.

End StudentsService.


(* ===================================================================== *)
(** ** The service as a state machine *)
(* ===================================================================== *)

(** The public operations of the students service that write to the
    database, and [OpCatalog] for the other services of the backend, which
    maintain years, classes and sections and write neither students nor
    enrollments. *)
Inductive Op :=
| OpCreate (dto : CreateStudentDto.t) (newId : string) (currentYear : N)
| OpUpdate (id : string) (dto : UpdateStudentDto.t)
| OpUpdateDocuments (id : string)
| OpUpdatePassword (id : string)
| OpDelete (id : string)
| OpPromote (studentId classId sectionId academicYearId : string)
| OpPromoteBulk (dto : PromoteBulkDto.t) (headerAY : option string)
| OpReAdmit (studentId classId sectionId academicYearId : string)
| OpReAdmitBulk (view : ReadView) (studentIds : list string)
    (classId sectionId academicYearId : string)
| OpCatalog (ys : list AcademicYear.t) (cs : list Class.t) (ss : list Section.t).

(** The database after an operation, whether it returned or threw. *)
Definition exec (op : Op) (st : Store) : Store :=
  match op with
  | OpCreate dto newId currentYear => (StudentsService.create dto newId currentYear st).2
  | OpUpdate id dto => (StudentsService.update id dto st).2
  | OpUpdateDocuments id => (StudentsService.updateDocuments id st).2
  | OpUpdatePassword id => (StudentsService.updatePassword id st).2
  | OpDelete id => (StudentsService.delete id st).2
  | OpPromote sid c s y => (StudentsService.promote sid c s y st).2
  | OpPromoteBulk dto h => (StudentsService.promoteBulk dto h st).2
  | OpReAdmit sid c s y => (StudentsService.reAdmit sid c s y st).2
  | OpReAdmitBulk view ids c s y => (StudentsService.reAdmitBulk view ids c s y st).2
  | OpCatalog ys cs ss => mkStore ys cs ss (students st) (enrollments st)
  end.

(** The states the service can bring a fresh database to. *)
Inductive reachable : Store -> Prop :=
| reachable_fresh ys cs ss : reachable (mkStore ys cs ss [] [])
| reachable_step st op : reachable st -> reachable (exec op st).

(* ===================================================================== *)
(** ** Vocabulary of the properties *)
(* ===================================================================== *)

(** The unique index [(academicYearId, rollNumber)] of the ledger. *)
Definition rollKey (e : Enrollment.t) : string * string :=
  (Enrollment.academicYearId e, Enrollment.rollNumber e).

Definition ledgerUnique (l : list Enrollment.t) : Prop := NoDup (rollKey <$> l).

(** The unique index [(studentId, academicYearId)] of the ledger. *)
Definition seatKey (e : Enrollment.t) : string * string :=
  (Enrollment.studentId e, Enrollment.academicYearId e).

(** [_id] is unique in the student collection. *)
Definition uniqueStudentIds (st : Store) : Prop := NoDup (Student._id <$> students st).

(** A roll number in the form the schema's [trim] setter leaves it. *)
Definition trimmed (s : string) : Prop := JS.trim s = s.

(** A string that does not begin with white space. *)
Definition startsClean (s : string) : Prop :=
  match s with
  | EmptyString => True
  | String c _ => JS.isSpace c = false
  end.

(** The snapshot of a student agrees with a ledger entry. *)
Definition snapshotMatches (s : Student.t) (e : Enrollment.t) : Prop :=
  Student.classId s = Some (Enrollment.classId e)
  /\ Student.sectionId s = Some (Enrollment.sectionId e)
  /\ Student.academicYearId s = Some (Enrollment.academicYearId e)
  /\ Student.rollNumber s = Enrollment.rollNumber e.

(** The ledger entries a call added: what follows the entries that were
    there before. *)
Definition createdBy (st st' : Store) : list Enrollment.t :=
  drop (List.length (enrollments st)) (enrollments st').

(** The call that took [st] to [st'] created the entry [e] for student
    [sid] and year [ay]. *)
Definition newEntryFor (st st' : Store) (sid ay : string) (e : Enrollment.t) : Prop :=
  e ∈ createdBy st st'
  /\ Enrollment.studentId e = sid /\ Enrollment.academicYearId e = ay.


(** *** The sequence rule in the words of the specification

    The evidence that two years are consecutive, in the order of
    precedence of the specification; [text] is the field that holds the
    "YYYY-YYYY" text of a year. *)
Inductive Evidence :=
| ByOrder (source target : Z)
| ByYears (source target : N * N)
| ByDates (sourceEnd targetStart : Z)
| NoEvidence.

Definition evidence (text : AcademicYear.t -> option string) (source target : AcademicYear.t)
  : Evidence :=
  match AcademicYear.order source, AcademicYear.order target with
  | Some so, Some to => ByOrder so to
  | _, _ =>
      match StudentsService.parseAYLabel (text source),
            StudentsService.parseAYLabel (text target) with
      | Some ps, Some pt => ByYears ps pt
      | _, _ =>
          match AcademicYear.endDate source, AcademicYear.startDate target with
          | Some e, Some s => ByDates e s
          | _, _ => NoEvidence
          end
      end
  end.

Definition accepts (ev : Evidence) : bool :=
  match ev with
  | ByOrder so to => (to =? so + 1)%Z
  | ByYears (s1, s2) (t1, t2) => (t1 =? s1 + 1)%N && (t2 =? s2 + 1)%N
  | ByDates e s => (e <? s)%Z
  | NoEvidence => false
  end.

Definition sequenceRule (text : AcademicYear.t -> option string) (source target : AcademicYear.t)
  : bool :=
  negb (eqs (AcademicYear._id source) (AcademicYear._id target))
  && accepts (evidence text source target).

(** The two readings of "the year's text": the [name] of the schema, as
    the specification has it, and the [label] the service reads. *)
Definition byName (y : AcademicYear.t) : option string := Some (AcademicYear.name y).
Definition byLabel (y : AcademicYear.t) : option string := AcademicYear.label y.

(** *** Section mapping in the words of the specification

    No section of class [targetClassId] has the name of a section whose
    id is [sectionId], compared without regard to case. *)
Definition noSameNameSection (st : Store) (targetClassId sectionId : string) : Prop :=
  forall src t, src ∈ sections st -> Section._id src = sectionId ->
                t ∈ sections st -> Section.classId t = targetClassId ->
                JS.toLowerCase (Section.name t) <> JS.toLowerCase (Section.name src).

(** The candidates of a bulk promotion. *)
Definition candidatesOf (dto : PromoteBulkDto.t) (headerAY : option string) (st : Store)
  : list Student.t :=
  List.filter
    (StudentsService.isCandidate dto
       (JS.String_ (JS.orElse (PromoteBulkDto.fromAcademicYearId dto) headerAY)))
    (students st).

(** *** Bulk re-admission *)









(** The ledger grows by successful [create]s only. *)
Inductive appended (l : list Enrollment.t) : list Enrollment.t -> Prop :=
| appended_refl : appended l l
| appended_step l1 osid oay ocid osec oroll e l2 :
    appended l l1 ->
    Enrollment_create osid oay ocid osec oroll l1 = Ok (e, l2) ->
    appended l l2.

(** How the student collection changes: a document is replaced by one
    with the same [_id] (whose roll number is trimmed if the old one
    was), a document with a new [_id] and a trimmed roll number is
    added, or a document is removed. *)
Inductive studentsStep (l : list Student.t) : list Student.t -> Prop :=
| studentsStep_refl : studentsStep l l
| studentsStep_update l1 id s0 s' :
    studentsStep l l1 ->
    findStudent id l1 = Some s0 -> Student._id s' = id ->
    (trimmed (Student.rollNumber s0) -> trimmed (Student.rollNumber s')) ->
    studentsStep l (updateFirst (hasId id) (fun _ => s') l1)
| studentsStep_insert l1 s :
    studentsStep l l1 ->
    Student._id s ∉ (Student._id <$> l1) -> trimmed (Student.rollNumber s) ->
    studentsStep l (l1 ++ [s])
| studentsStep_delete l1 id :
    studentsStep l l1 -> studentsStep l (removeFirst (hasId id) l1).


(* ===================================================================== *)
(** ** Concrete databases for the examples *)
(* ===================================================================== *)

Module Demo.

(** Years as the academic-year service creates them: a name, two
    dates, no [label] and no [order]. Dates are day numbers. *)
Definition y24 : AcademicYear.t :=
  AcademicYear.mk "y24" "2024-25" None None (Some 100%Z) (Some 464%Z) true true.
Definition y25 : AcademicYear.t :=
  AcademicYear.mk "y25" "2025-26" None None (Some 465%Z) (Some 829%Z) true false.
Definition y26 : AcademicYear.t :=
  AcademicYear.mk "y26" "2026-27" None None (Some 830%Z) (Some 1194%Z) true false.

(** Two years whose [name] reads "YYYY-YYYY" and that are two years
    apart; no [label], no [order]. *)
Definition n24 : AcademicYear.t :=
  AcademicYear.mk "n24" "2024-2025" None None (Some 100%Z) (Some 464%Z) true true.
Definition n26 : AcademicYear.t :=
  AcademicYear.mk "n26" "2026-2027" None None (Some 830%Z) (Some 1194%Z) true false.

(** Years that carry a [label] and an [order]. *)
Definition l24 : AcademicYear.t :=
  AcademicYear.mk "l24" "2024-25" (Some "2024-2025") (Some 1%Z) (Some 100%Z) (Some 464%Z)
    true true.
Definition l25 : AcademicYear.t :=
  AcademicYear.mk "l25" "2025-26" (Some "2025 - 2026") (Some 2%Z) (Some 465%Z) (Some 829%Z)
    true false.

(** A year that is active but not flagged current, and an inactive
    year that follows it. *)
Definition a24 : AcademicYear.t :=
  AcademicYear.mk "a24" "2024-25" None None (Some 100%Z) (Some 464%Z) true false.
Definition i25 : AcademicYear.t :=
  AcademicYear.mk "i25" "2025-26" None None (Some 465%Z) (Some 829%Z) false false.
(** An inactive, unflagged year. *)
Definition i24 : AcademicYear.t :=
  AcademicYear.mk "i24" "2024-25" None None (Some 100%Z) (Some 464%Z) false false.

Definition c9 : Class.t := Class.mk "c9" "9" (Some 9%Z).
Definition c10 : Class.t := Class.mk "c10" "10" (Some 10%Z).
Definition s9a : Section.t := Section.mk "s9a" "a" "c9".
Definition s9b : Section.t := Section.mk "s9b" "b" "c9".
Definition s10a : Section.t := Section.mk "s10a" "a" "c10".

Definition student (id name roll : string) (c s y : string) : Student.t :=
  Student.mk id name (id +:+ "@school.example") (Some ("STU-2024-" +:+ id)) roll
    (Some c) (Some s) (Some y).

Definition ann (y : string) : Student.t := student "ann" "Ann" "9-A-001" "c9" "s9a" y.
Definition bob (y : string) : Student.t := student "bob" "Bob" "9-A-002" "c9" "s9a" y.
Definition cid (y : string) : Student.t := student "cid" "Cid" "9-B-001" "c9" "s9b" y.
Definition dan (y : string) : Student.t := student "dan" "Dan" "9-A-003" "c9" "s9a" y.
Definition eve (y : string) : Student.t := student "eve" "Eve" "9-A-004" "c9" "s9a" y.

Definition seat (s : Student.t) : Enrollment.t :=
  Enrollment.mk (Student._id s) (JS.String_ (Student.academicYearId s))
    (JS.String_ (Student.classId s)) (JS.String_ (Student.sectionId s))
    (Student.rollNumber s).

Definition catalog (ys : list AcademicYear.t) (studs : list Student.t)
    (enrs : list Enrollment.t) : Store :=
  mkStore ys [c9; c10] [s9a; s9b; s10a] studs enrs.

(** Class 9 in the current year 2024-25 with its ledger. *)
Definition school : Store :=
  catalog [y24; y25; y26] [ann "y24"; bob "y24"; cid "y24"]
    [seat (ann "y24"); seat (bob "y24"); seat (cid "y24")].

(** The same class where the years read "YYYY-YYYY" in [name]. *)
Definition schoolNamed : Store :=
  catalog [n24; n26] [ann "n24"] [seat (ann "n24")].

(** The same class where the years carry [label] and [order]. *)
Definition schoolLabelled : Store :=
  catalog [l24; l25] [ann "l24"] [seat (ann "l24")].

(** No year is flagged current; the only active year is Ann's. *)
Definition schoolUnflagged : Store :=
  catalog [a24; i25] [ann "a24"] [seat (ann "a24")].

(** No year is flagged current and none is active. *)
Definition schoolDormant : Store :=
  catalog [i24; i25] [ann "i24"] [seat (ann "i24")].

(** Ann is in 2024-25 and already has a ledger entry for 2025-26, in
    class 9 section b with another roll number. *)
Definition schoolAhead : Store :=
  catalog [y24; y25; y26] [ann "y24"; bob "y24"]
    [seat (ann "y24"); seat (bob "y24");
     Enrollment.mk "ann" "y25" "c9" "s9b" "9-B-007"].

(** Five students, one of them (Bob) already enrolled for 2025-26. *)
Definition schoolOfFive : Store :=
  catalog [y24; y25; y26]
    [ann "y24"; bob "y24"; cid "y24"; dan "y24"; eve "y24"]
    [seat (ann "y24"); seat (bob "y24"); seat (cid "y24"); seat (dan "y24");
     seat (eve "y24"); Enrollment.mk "bob" "y25" "c10" "s10a" "10-A-001"].

(** A fresh database, in which Ann is first created for 2025-26 and
    then re-admitted for the current year 2024-25: her snapshot is in
    2024-25 and the ledger has her entry for 2025-26. *)
Definition fresh : Store := catalog [y24; y25; y26] [] [].

Definition annDto : CreateStudentDto.t :=
  CreateStudentDto.mk "Ann" "ann@school.example" (Some "c9") (Some "s9b") "y25".

Definition enrolledAhead : Store :=
  exec (OpReAdmit "ann" "c9" "s9a" "y24") (exec (OpCreate annDto "ann" 2024) fresh).

(** Promote class 9 of 2024-25 to 2025-26. *)
Definition promoteNine : PromoteBulkDto.t :=
  PromoteBulkDto.mk (Some "y24") "c9" None None "y25" None None.

End Demo.


(* ===================================================================== *)
(** ** The student collection and its unique indexes *)
(* ===================================================================== *)

(** The key of the unique index [(academicYearId, rollNumber)] of the
    student collection. *)
Definition snapshotKey (s : Student.t) : option string * string :=
  (Student.academicYearId s, Student.rollNumber s).

(** How the service writes the student collection: by updates and
    inserts that the unique indexes let through (an update keeps the
    [_id] and the [uniqueId] of the document), and by removals. *)
Inductive studentWrites (l : list Student.t) : list Student.t -> Prop :=
| studentWrites_refl : studentWrites l l
| studentWrites_update l1 id f o l2 :
    studentWrites l l1 ->
    Student_update id f l1 = Ok (o, l2) ->
    (forall s0, findStudent id l1 = Some s0 ->
                Student._id (f s0) = id /\ Student.uniqueId (f s0) = Student.uniqueId s0) ->
    studentWrites l l2
| studentWrites_create l1 s l2 :
    studentWrites l l1 -> Student_create s l1 = Ok l2 -> studentWrites l l2
| studentWrites_delete l1 id :
    studentWrites l l1 -> studentWrites l (removeFirst (hasId id) l1).

(** No two students share an [_id], an e-mail address, a unique id or a
    roll number within a year. *)
Definition studentsDistinct (l : list Student.t) : Prop :=
  NoDup (Student._id <$> l)
  /\ NoDup (Student.email <$> l)
  /\ NoDup (Student.uniqueId <$> l)
  /\ NoDup (snapshotKey <$> l).

(* ===================================================================== *)
(** ** Further databases for the examples *)
(* ===================================================================== *)

Module Sample.

(** Section a of class 10 in 2025-26 after a thousand admissions: the
    ledger holds the roll numbers 10-A-999 and 10-A-1000. Ann is still in
    class 9 of 2024-25. *)
Definition schoolFull : Store :=
  Demo.catalog [Demo.y24; Demo.y25; Demo.y26] [Demo.ann "y24"]
    [Demo.seat (Demo.ann "y24");
     Enrollment.mk "pia" "y25" "c10" "s10a" "10-A-999";
     Enrollment.mk "quy" "y25" "c10" "s10a" "10-A-1000"].

(** Three students admitted in 2025 with the unique ids the generator
    gave them. *)
Definition admitted2025 : list Student.t :=
  [Student.mk "s1" "Ann" "ann@school.example" (Some "STU-2025-0001") "9-A-001"
     (Some "c9") (Some "s9a") (Some "y24");
   Student.mk "s2" "Bob" "bob@school.example" (Some "STU-2025-0002") "9-A-002"
     (Some "c9") (Some "s9a") (Some "y24");
   Student.mk "s3" "Cid" "cid@school.example" (Some "STU-2024-0007") "9-B-001"
     (Some "c9") (Some "s9b") (Some "y24")].

End Sample.

(* ===================================================================== *)
(** ** Vocabulary for texts *)
(* ===================================================================== *)



(* ===================================================================== *)
(** ** common/helpers/url.helper *)
(* ===================================================================== *)

Module UrlHelper.

(** [getBaseUrl()]; [APP_BASE_URL] is the environment variable of that
    name. *)
Definition getBaseUrl (APP_BASE_URL : option string) : string :=
  JS.String_ (JS.orElse APP_BASE_URL
                (Some "https://dev.learningcircle.education/schoolcrmbackend")).

(** [s.startsWith(p)] *)
Definition startsWith (s p : string) : bool := String.prefix p s.

(** [toFullUrl(relativePath)] *)
Definition toFullUrl (APP_BASE_URL relativePath : option string) : option string :=
  if negb (JS.truthy relativePath) then None
  else
    let path := JS.String_ relativePath in
    if startsWith path "http://" || startsWith path "https://" then Some path
    else
      let baseUrl := getBaseUrl APP_BASE_URL in
      let cleanPath := if startsWith path "/" then path else "/" +:+ path in
      Some (baseUrl +:+ cleanPath).

(** [toFullUrls(paths)]: an object is the list of its entries. *)
Definition toFullUrls (APP_BASE_URL : option string) (paths : list (string * option string))
  : list (string * option string) :=
  (fun entry => (entry.1, toFullUrl APP_BASE_URL entry.2)) <$> paths.

End UrlHelper.

(* ===================================================================== *)
(** ** The uploaded documents of a student *)
(* ===================================================================== *)

(** student.schema: the sub-documents that hold the addresses of
    uploaded files. They are the part of a student document that
    [Student.t] leaves out and that [convertDocumentUrls] rewrites. *)
Module Documents.
Record t := mk {
  photoUrl : option string;
  fatherPhotoUrl : option string;
  motherPhotoUrl : option string;
  birthCertificateUrl : option string;
  scstCertificateUrl : option string;
  leavingCertificateUrl : option string;
  vaccineCardUrl : option string;
}.
End Documents.

Module CustomDocument.
Record t := mk {
  title : string;
  publishedBy : option string;
  documentUrl : option string;
  uploadDate : Z;
}.
End CustomDocument.

Module CustomImage.
Record t := mk {
  title : option string;
  imageUrl : option string;
  uploadDate : Z;
}.
End CustomImage.

Module StudentFiles.
Record t := mk {
  documents : option Documents.t;
  customDocuments : option (list CustomDocument.t);
  customImages : option (list CustomImage.t);
}.
End StudentFiles.

(* ===================================================================== *)
(** ** StudentsService: look-ups, views and filters *)
(* ===================================================================== *)

(** What a look-up returns for a student: the modelled fields and, on
    the year-scoped paths, the two status fields of the projection. *)
Module StudentView.
Record t := mk {
  _id : string;
  name : string;
  uniqueId : option string;
  email : string;
  rollNumber : string;
  classId : option string;
  sectionId : option string;
  academicYearId : option string;
  isActiveForSelectedYear : option bool;
  statusForSelectedYear : option string;
}.
End StudentView.

Module StudentFilters.
Record t := mk {
  classId : option string;
  sectionId : option string;
  academicYearId : option string;
}.
End StudentFilters.

(** The read side of [StudentsService]. Conventions: an [_id] is a
    well-formed object id, as the controller's pipe checks before it
    calls the service; [createdAt] is the instant of insertion and no two
    documents are inserted at the same instant, so a sort by [createdAt]
    descending is the reverse of the order of insertion. *)
Module StudentsQueries.

(** [x ? toFullUrl(x) : x] *)
Definition convertUrl (APP_BASE_URL x : option string) : option string :=
  if JS.truthy x then UrlHelper.toFullUrl APP_BASE_URL x else x.

(** [convertDocumentUrls(student)] on the sub-documents it rewrites;
    every other field of the student is copied. *)
Definition convertDocumentUrls (APP_BASE_URL : option string) (student : option StudentFiles.t)
  : option StudentFiles.t :=
  match student with
  | None => None
  | Some convertedStudent =>
      Some (StudentFiles.mk
              ((fun docs =>
                  Documents.mk
                    (convertUrl APP_BASE_URL (Documents.photoUrl docs))
                    (convertUrl APP_BASE_URL (Documents.fatherPhotoUrl docs))
                    (convertUrl APP_BASE_URL (Documents.motherPhotoUrl docs))
                    (convertUrl APP_BASE_URL (Documents.birthCertificateUrl docs))
                    (convertUrl APP_BASE_URL (Documents.scstCertificateUrl docs))
                    (convertUrl APP_BASE_URL (Documents.leavingCertificateUrl docs))
                    (convertUrl APP_BASE_URL (Documents.vaccineCardUrl docs)))
                 <$> StudentFiles.documents convertedStudent)
              ((fun docs : list CustomDocument.t =>
                  (fun doc =>
                     CustomDocument.mk (CustomDocument.title doc)
                       (CustomDocument.publishedBy doc)
                       (convertUrl APP_BASE_URL (CustomDocument.documentUrl doc))
                       (CustomDocument.uploadDate doc)) <$> docs)
                 <$> StudentFiles.customDocuments convertedStudent)
              ((fun imgs : list CustomImage.t =>
                  (fun img =>
                     CustomImage.mk (CustomImage.title img)
                       (convertUrl APP_BASE_URL (CustomImage.imageUrl img))
                       (CustomImage.uploadDate img)) <$> imgs)
                 <$> StudentFiles.customImages convertedStudent))
  end.

(** [findByEmailForAuth(email)] and [findByEmail(email)]: the two differ
    in the projection of the password only. *)
Definition findByEmailForAuth (email : string) (st : Store) : option Student.t :=
  findOne (fun s => eqs (Student.email s) (StudentsService.normEmail email)) (students st).

Definition findByEmail (email : string) (st : Store) : option Student.t :=
  findOne (fun s => eqs (Student.email s) (StudentsService.normEmail email)) (students st).

Definition findByIdForAuth (id : string) (st : Store) : option Student.t :=
  findStudent id (students st).

(** A student document as a look-up without a year returns it. *)
Definition rawView (s : Student.t) : StudentView.t :=
  StudentView.mk (Student._id s) (Student.name s) (Student.uniqueId s) (Student.email s)
    (Student.rollNumber s) (Student.classId s) (Student.sectionId s)
    (Student.academicYearId s) None None.

(** The [$lookup] stage of [findOne]: the ledger entries of the student
    for the selected year. *)
Definition lookupEnrollments (academicYearId : string) (s : Student.t) (st : Store)
  : list Enrollment.t :=
  List.filter (fun e => eqs (Enrollment.studentId e) (Student._id s)
                        && eqs (Enrollment.academicYearId e) academicYearId)
    (enrollments st).

(** The [$project] stage of [findOne]: placement and roll number come
    from the first ledger entry of the selected year when there is one,
    else from the snapshot; the status compares the snapshot year with
    the selected year. *)
Definition projectForYear (academicYearId : string) (s : Student.t) (enr : list Enrollment.t)
  : StudentView.t :=
  let active := eqo (Student.academicYearId s) (Some academicYearId) in
  StudentView.mk (Student._id s) (Student.name s) (Student.uniqueId s) (Student.email s)
    (match enr with e :: _ => Enrollment.rollNumber e | [] => Student.rollNumber s end)
    (match enr with e :: _ => Some (Enrollment.classId e) | [] => Student.classId s end)
    (match enr with e :: _ => Some (Enrollment.sectionId e) | [] => Student.sectionId s end)
    (match enr with
     | e :: _ => Some (Enrollment.academicYearId e) | [] => Student.academicYearId s end)
    (Some active)
    (Some (if active then "active" else "deactivated")).

(** [findOne(id, academicYearId)] *)
Definition findOne (id : string) (academicYearId : option string) (st : Store)
  : option StudentView.t :=
  if JS.truthy academicYearId then
    let ay := JS.String_ academicYearId in
    let result :=
      (fun s => projectForYear ay s (lookupEnrollments ay s st))
        <$> List.filter (hasId id) (students st) in
    head result
  else rawView <$> findStudent id (students st).

(** The filter of the [$lookup] stage of [filterStudents]. *)
Definition matchEnrollment (filters : StudentFilters.t) (e : Enrollment.t) : bool :=
  eqo (Some (Enrollment.academicYearId e)) (StudentFilters.academicYearId filters)
  && (if JS.truthy (StudentFilters.classId filters)
      then eqo (Some (Enrollment.classId e)) (StudentFilters.classId filters) else true)
  && (if JS.truthy (StudentFilters.sectionId filters)
      then eqo (Some (Enrollment.sectionId e)) (StudentFilters.sectionId filters) else true).

(** One row of the year-scoped list: the [$project] stage after
    [$unwind]; the values come from the ledger entry. *)
Definition rowForEntry (s : Student.t) (e : Enrollment.t) : StudentView.t :=
  let active := eqo (Student.academicYearId s) (Some (Enrollment.academicYearId e)) in
  StudentView.mk (Student._id s) (Student.name s) (Student.uniqueId s) (Student.email s)
    (Enrollment.rollNumber e) (Some (Enrollment.classId e)) (Some (Enrollment.sectionId e))
    (Some (Enrollment.academicYearId e))
    (Some active)
    (Some (if active then "active" else "deactivated")).

(** The query of the path without a year: the snapshot is filtered. *)
Definition matchSnapshot (filters : StudentFilters.t) (s : Student.t) : bool :=
  (if JS.truthy (StudentFilters.classId filters)
   then eqo (Student.classId s) (StudentFilters.classId filters) else true)
  && (if JS.truthy (StudentFilters.sectionId filters)
      then eqo (Student.sectionId s) (StudentFilters.sectionId filters) else true).

(** [filterStudents(filters)] *)
Definition filterStudents (filters : StudentFilters.t) (st : Store) : list StudentView.t :=
  if JS.truthy (StudentFilters.academicYearId filters) then
    mjoin (rev ((fun s =>
                   rowForEntry s
                     <$> List.filter (fun e => eqs (Enrollment.studentId e) (Student._id s)
                                               && matchEnrollment filters e)
                           (enrollments st))
                  <$> students st))
  else rev (rawView <$> List.filter (matchSnapshot filters) (students st)).

(** [findAll()] *)
Definition findAll (st : Store) : list StudentView.t := rev (rawView <$> students st).

End StudentsQueries.

(** students.controller: the handlers that normalise their headers and
    query parameters before they call the service. *)
Module StudentsController.

(** [norm(v)]: trimmed, and [undefined] when nothing is left. *)
Definition norm (v : option string) : option string :=
  let s := JS.trim (default "" v) in
  if Nat.eqb (String.length s) 0 then None else Some s.

(** [findAll(ayId)] *)
Definition findAll (ayId : option string) (st : Store) : list StudentView.t :=
  let ay := norm ayId in
  if JS.truthy ay
  then StudentsQueries.filterStudents (StudentFilters.mk None None ay) st
  else StudentsQueries.findAll st.

(** [filter(classId, sectionId, academicYearId, ayId)] *)
Definition filter (classId sectionId academicYearId ayId : option string) (st : Store)
  : list StudentView.t :=
  let classIdN := norm classId in
  let sectionIdN := norm sectionId in
  let ayFromQuery := norm academicYearId in
  let ayFromHeader := norm ayId in
  let ay := JS.nullish ayFromQuery ayFromHeader in
  StudentsQueries.filterStudents (StudentFilters.mk classIdN sectionIdN ay) st.

(** [promoteBulk(body, ayId)] *)
Definition promoteBulk (body : PromoteBulkDto.t) (ayId : option string) (st : Store)
  : Result PromoteBulkResult.t * Store :=
  StudentsService.promoteBulk body (norm ayId) st.

End StudentsController.

(** An address with the scheme [http] or [https]. *)
Definition absoluteUrl (u : string) : bool :=
  UrlHelper.startsWith u "http://" || UrlHelper.startsWith u "https://".

(* ===================================================================== *)
(** ** audit: the change log *)
(* ===================================================================== *)

(** common/context/request-context *)
Module RequestContext.
Record t := mk {
  userId : option string;
  academicYearId : option string;
}.
End RequestContext.

(** change-log.schema; [before] and [after] hold the academic year that
    the entry is about. *)
Module ChangeLog.
Inductive Action := ActCreate | ActUpdate | ActDelete | ActActivate | ActSetCurrent.
Record t := mk {
  entity : string;
  entityId : string;
  action : Action;
  before : option AcademicYear.t;
  after : option AcademicYear.t;
  academicYearId : option string;
  actorUserId : option string;
}.
End ChangeLog.

Module AuditService.

(** [log(params)]: [model.create], whose validation wants the
    [required] strings [entity] and [entityId] not to be empty. *)
Definition log (entity entityId : string) (action : ChangeLog.Action)
    (before after : option AcademicYear.t) (ctx : option RequestContext.t)
    (logs : list ChangeLog.t) : Result (list ChangeLog.t) :=
  _ ← throwIf (eqs entity "") (MongooseValidationError "entity");
  _ ← throwIf (eqs entityId "") (MongooseValidationError "entityId");
  mret (logs ++ [ChangeLog.mk entity entityId action before after
                   (ctx ≫= RequestContext.academicYearId)
                   (ctx ≫= RequestContext.userId)]).

End AuditService.

(* ===================================================================== *)
(** ** academic-year: the repository and the service's flag operations *)
(* ===================================================================== *)

(** The patches [{ isCurrent }] and [{ isActive }]. *)
Definition withCurrent (b : bool) (y : AcademicYear.t) : AcademicYear.t :=
  AcademicYear.mk (AcademicYear._id y) (AcademicYear.name y) (AcademicYear.label y)
    (AcademicYear.order y) (AcademicYear.startDate y) (AcademicYear.endDate y)
    (AcademicYear.isActive y) b.

Definition withActive (b : bool) (y : AcademicYear.t) : AcademicYear.t :=
  AcademicYear.mk (AcademicYear._id y) (AcademicYear.name y) (AcademicYear.label y)
    (AcademicYear.order y) (AcademicYear.startDate y) (AcademicYear.endDate y)
    b (AcademicYear.isCurrent y).

Definition setYears (l : list AcademicYear.t) (st : Store) : Store :=
  mkStore l (classes st) (sections st) (students st) (enrollments st).

Module AcademicYearRepository.

Definition hasYearId (id : string) (y : AcademicYear.t) : bool :=
  eqs (AcademicYear._id y) id.

(** [findById(id)] *)
Definition findById (id : string) (l : list AcademicYear.t) : option AcademicYear.t :=
  findOne (hasYearId id) l.

(** [updateById(id, patch)]: [findByIdAndUpdate] with [new: true]; the
    partial unique index on [isCurrent] lets at most one document carry
    the flag. *)
Definition updateById (id : string) (patch : AcademicYear.t -> AcademicYear.t)
    (l : list AcademicYear.t) : Result (option AcademicYear.t * list AcademicYear.t) :=
  match findById id l with
  | None => mret (None, l)
  | Some doc =>
      let doc' := patch doc in
      _ ← throwIf (AcademicYear.isCurrent doc'
                   && existsb (fun o => negb (hasYearId id o) && AcademicYear.isCurrent o) l)
            (MongoServerError 11000 ["isCurrent"]);
      mret (Some doc', updateFirst (hasYearId id) (fun _ => doc') l)
  end.

(** [unsetAllCurrent()] *)
Definition unsetAllCurrent (l : list AcademicYear.t) : list AcademicYear.t :=
  (fun y => if AcademicYear.isCurrent y then withCurrent false y else y) <$> l.

End AcademicYearRepository.

(** The operations of [AcademicYearService] that switch a flag of a
    year: [setCurrent], [setActive] and [remove]. None of them runs in a
    transaction: what is written before a later step throws stays
    written, so each returns the database and the change log as it
    leaves them. [create] and [update], which compute with dates and
    with [updatedAt], are not modelled. *)
Module AcademicYearService.

(** [assertFound(value, message)] *)
Definition assertFound {A} (value : option A) (message : string) : Result A :=
  match value with
  | None => throw (NotFoundException message)
  | Some v => mret v
  end.

(** [findOne(id)] *)
Definition findOne (id : string) (st : Store) : Result AcademicYear.t :=
  assertFound (AcademicYearRepository.findById id (years st)) "Academic year not found".

(** The [catch] of [setCurrent]. *)
Definition catchSetCurrent (e : Exception) : Exception :=
  match e with
  | MongoServerError 11000 _ =>
      ConflictException "Another request set current year. Refresh and try again."
  | _ => e
  end.

(** [updateById], [assertFound] and [audit.log], the three steps that
    end [setCurrent], [setActive] and [remove]. *)
Definition patchAndLog (id : string) (patch : AcademicYear.t -> AcademicYear.t)
    (action : ChangeLog.Action) (before : AcademicYear.t) (ctx : RequestContext.t)
    (st : Store) (logs : list ChangeLog.t)
  : Result AcademicYear.t * (Store * list ChangeLog.t) :=
  match AcademicYearRepository.updateById id patch (years st) with
  | Err e => (Err e, (st, logs))
  | Ok (after, ys) =>
      let st' := setYears ys st in
      match assertFound after "Resource not found" with
      | Err e => (Err e, (st', logs))
      | Ok after =>
          match AuditService.log "AcademicYear" id action (Some before) (Some after)
                  (Some ctx) logs with
          | Err e => (Err e, (st', logs))
          | Ok logs' => (Ok after, (st', logs'))
          end
      end
  end.

(** [setCurrent(id, ctx)] *)
Definition setCurrent (id : string) (ctx : RequestContext.t) (st : Store)
    (logs : list ChangeLog.t) : Result AcademicYear.t * (Store * list ChangeLog.t) :=
  match findOne id st with
  | Err e => (Err e, (st, logs))
  | Ok before =>
      if negb (AcademicYear.isActive before)
      then (Err (BadRequestException "Cannot set current on an inactive year"), (st, logs))
      else
        let st1 := setYears (AcademicYearRepository.unsetAllCurrent (years st)) st in
        match patchAndLog id (withCurrent true) ChangeLog.ActSetCurrent before ctx st1 logs with
        | (Err e, db) => (Err (catchSetCurrent e), db)
        | r => r
        end
  end.

(** [setActive(id, active, ctx)] *)
Definition setActive (id : string) (active : bool) (ctx : RequestContext.t) (st : Store)
    (logs : list ChangeLog.t) : Result AcademicYear.t * (Store * list ChangeLog.t) :=
  match findOne id st with
  | Err e => (Err e, (st, logs))
  | Ok before =>
      if negb active && AcademicYear.isCurrent before
      then (Err (BadRequestException "Cannot deactivate the current year"), (st, logs))
      else patchAndLog id (withActive active) ChangeLog.ActActivate before ctx st logs
  end.

(** [remove(id, ctx)]: the year is kept and made inactive. *)
Definition remove (id : string) (ctx : RequestContext.t) (st : Store)
    (logs : list ChangeLog.t) : Result AcademicYear.t * (Store * list ChangeLog.t) :=
  match findOne id st with
  | Err e => (Err e, (st, logs))
  | Ok before =>
      if AcademicYear.isCurrent before
      then (Err (BadRequestException "Cannot delete the current year"), (st, logs))
      else patchAndLog id (withActive false) ChangeLog.ActDelete before ctx st logs
  end.

End AcademicYearService.

(** The flags of the years as the service keeps them: a year flagged
    current is active, and at most one year is flagged. *)
Definition currentYearSound (l : list AcademicYear.t) : Prop :=
  (forall y, y ∈ l -> AcademicYear.isCurrent y = true -> AcademicYear.isActive y = true)
  /\ List.length (List.filter AcademicYear.isCurrent l) <= 1.


(* ===================================================================== *)
(** ** Basic facts: results, lookups, writes *)
(* ===================================================================== *)

Lemma bind_Ok_inv {A B} (m : Result A) (k : A -> Result B) (b : B) :
  (m ≫= k) = Ok b -> exists a, m = Ok a /\ k a = Ok b.
Proof. destruct m as [a|e]; simpl; [eauto | discriminate]. Qed.

Lemma throwIf_Ok_inv b e u : throwIf b e = Ok u -> b = false.
Proof. destruct b; simpl; [discriminate | reflexivity]. Qed.

Lemma throwIf_false e : throwIf false e = Ok tt.
Proof. reflexivity. Qed.

(** Inversion of a successful monadic computation, one bind at a time. *)
Ltac inv_ok H :=
  repeat match type of H with
    | (_ ≫= _) = Ok _ =>
        let a := fresh "a" in let Ha := fresh "Hstep" in
        apply bind_Ok_inv in H as (a & Ha & H)
    | (let '(_, _) := ?p in _) = Ok _ => destruct p
    | mret _ = Ok _ => injection H as H
    | Ok _ = Ok _ => injection H as H
    end.

Lemma eqs_true a b : eqs a b = true <-> a = b.
Proof. unfold eqs. apply bool_decide_eq_true. Qed.

Lemma eqs_false a b : eqs a b = false <-> a <> b.
Proof. unfold eqs. apply bool_decide_eq_false. Qed.

Lemma eqs_refl a : eqs a a = true.
Proof. apply eqs_true. reflexivity. Qed.

Lemma eqo_true a b : eqo a b = true <-> a = b.
Proof. unfold eqo. apply bool_decide_eq_true. Qed.

Lemma findOne_Some {A} (p : A -> bool) l x :
  findOne p l = Some x -> x ∈ l /\ p x = true.
Proof.
  unfold findOne. intros H. apply find_some in H as [Hin Hp].
  split; [by apply list_elem_of_In | done].
Qed.

Lemma findOne_None {A} (p : A -> bool) l x :
  findOne p l = None -> x ∈ l -> p x = false.
Proof.
  unfold findOne. intros H Hin. apply list_elem_of_In in Hin.
  exact (find_none p l H x Hin).
Qed.

Lemma findOne_app {A} (p : A -> bool) l1 l2 :
  findOne p (l1 ++ l2) = match findOne p l1 with Some x => Some x | None => findOne p l2 end.
Proof.
  unfold findOne. induction l1 as [|x l1 IH]; simpl; [done|].
  destruct (p x); [done | exact IH].
Qed.

Lemma findStudent_id id l s : findStudent id l = Some s -> Student._id s = id.
Proof.
  intros H. apply findOne_Some in H as [_ H]. by apply eqs_true in H.
Qed.

Lemma findStudent_elem id l s : findStudent id l = Some s -> s ∈ l.
Proof. intros H. by apply findOne_Some in H as [H _]. Qed.

Lemma findEnrollment_Some sid ay l e :
  findEnrollment sid ay l = Some e ->
  e ∈ l /\ Enrollment.studentId e = sid /\ Enrollment.academicYearId e = ay.
Proof.
  intros H. apply findOne_Some in H as [Hin H].
  apply andb_true_iff in H as [H1 H2]. apply eqs_true in H1, H2. done.
Qed.

Lemma findEnrollment_None sid ay l e :
  findEnrollment sid ay l = None -> e ∈ l ->
  ~ (Enrollment.studentId e = sid /\ Enrollment.academicYearId e = ay).
Proof.
  intros H Hin [H1 H2]. pose proof (findOne_None _ _ _ H Hin) as Hp. simpl in Hp.
  rewrite (proj2 (eqs_true _ _) H1), (proj2 (eqs_true _ _) H2) in Hp. discriminate.
Qed.

Lemma required_Ok path v s : required path v = Ok s -> v = Some s /\ s <> "".
Proof.
  destruct v as [[|c s']|]; simpl; intros H; try discriminate.
  injection H as <-. done.
Qed.

Lemma existsb_false_elem {A} (p : A -> bool) l x :
  existsb p l = false -> x ∈ l -> p x = false.
Proof.
  intros H Hin. destruct (p x) eqn:E; [|done].
  assert (existsb p l = true); [|congruence].
  apply existsb_exists. exists x. split; [by apply list_elem_of_In | done].
Qed.

(** What a successful [create] on the ledger did. *)
Lemma Enrollment_create_inv osid oay ocid osec oroll l e l' :
  Enrollment_create osid oay ocid osec oroll l = Ok (e, l') ->
  osid = Some (Enrollment.studentId e) /\ oay = Some (Enrollment.academicYearId e)
  /\ ocid = Some (Enrollment.classId e) /\ osec = Some (Enrollment.sectionId e)
  /\ JS.trim <$> oroll = Some (Enrollment.rollNumber e)
  /\ l' = l ++ [e]
  /\ findEnrollment (Enrollment.studentId e) (Enrollment.academicYearId e) l = None
  /\ rollKey e ∉ (rollKey <$> l).
Proof.
  unfold Enrollment_create. intros H. inv_ok H.
  apply required_Ok in Hstep as [-> _], Hstep0 as [-> _], Hstep1 as [-> _],
    Hstep2 as [-> _], Hstep3 as [-> _].
  apply throwIf_Ok_inv in Hstep4, Hstep5.
  subst e l'. simpl. repeat split; try done.
  - apply bool_decide_eq_false in Hstep4.
    destruct (findEnrollment a a0 l) eqn:E; [|done]. exfalso. apply Hstep4. eauto.
  - intros Hin. apply list_elem_of_fmap in Hin as (x & Hk & Hx).
    pose proof (existsb_false_elem _ _ _ Hstep5 Hx) as Hp. simpl in Hp.
    unfold rollKey in Hk. simpl in Hk. injection Hk as Hk1 Hk2.
    rewrite <- Hk1, <- Hk2, !eqs_refl in Hp. discriminate.
Qed.

Lemma Enrollment_create_unique osid oay ocid osec oroll l e l' :
  Enrollment_create osid oay ocid osec oroll l = Ok (e, l') ->
  ledgerUnique l -> ledgerUnique l'.
Proof.
  intros H Hu. apply Enrollment_create_inv in H as (_ & _ & _ & _ & _ & -> & _ & Hk).
  unfold ledgerUnique in *. rewrite fmap_app. simpl.
  apply NoDup_app. split; [done|]. split.
  - intros x Hx Hx'. apply list_elem_of_singleton in Hx'. by subst.
  - apply NoDup_singleton.
Qed.

Lemma appended_trans l1 l2 l3 : appended l1 l2 -> appended l2 l3 -> appended l1 l3.
Proof. intros H12 H23. induction H23; [done | econstructor; eauto]. Qed.

Lemma appended_one osid oay ocid osec oroll l e l' :
  Enrollment_create osid oay ocid osec oroll l = Ok (e, l') -> appended l l'.
Proof. intros H. econstructor; [apply appended_refl | exact H]. Qed.

Lemma appended_prefix l l' : appended l l' -> exists added, l' = l ++ added.
Proof.
  induction 1 as [| l1 ? ? ? ? ? e l2 _ [added ->] Hc].
  - exists []. by rewrite app_nil_r.
  - apply Enrollment_create_inv in Hc as (_ & _ & _ & _ & _ & -> & _).
    exists (added ++ [e]). by rewrite app_assoc.
Qed.

Lemma appended_unique l l' : appended l l' -> ledgerUnique l -> ledgerUnique l'.
Proof. induction 1; [done | eauto using Enrollment_create_unique]. Qed.

Lemma insertMany_appended docs l : appended l (Enrollment_insertMany_unordered docs l).
Proof.
  revert l. induction docs as [|[[[[sid ay] cid] sec] roll] docs IH]; intros l; simpl.
  - apply appended_refl.
  - destruct (Enrollment_create sid ay cid sec roll l) as [[e l']|err] eqn:E; [|apply IH].
    eapply appended_trans; [eapply appended_one; exact E | apply IH].
Qed.


(* ===================================================================== *)
(** ** Strings: [trim] and the shape of generated roll numbers *)
(* ===================================================================== *)

Lemma trimStart_clean s : startsClean (JS.trimStart s).
Proof.
  induction s as [|c s IH]; simpl; [done|].
  destruct (JS.isSpace c) eqn:E; [exact IH | exact E].
Qed.

Lemma trimStart_id s : startsClean s -> JS.trimStart s = s.
Proof. destruct s as [|c s]; simpl; [done|]. by intros ->. Qed.

Lemma trimEnd_clean s : startsClean s -> startsClean (JS.trimEnd s).
Proof.
  destruct s as [|c s]; simpl; [done|]. intros Hc.
  destruct (JS.trimEnd s); simpl; [by rewrite Hc | done].
Qed.

Lemma trimEnd_idem s : JS.trimEnd (JS.trimEnd s) = JS.trimEnd s.
Proof.
  induction s as [|c s IH]; simpl; [done|].
  destruct (JS.trimEnd s) as [|d t] eqn:E.
  - destruct (JS.isSpace c) eqn:Ec; simpl; [done | by rewrite Ec].
  - change (JS.trimEnd (String c (String d t))) with
      (match JS.trimEnd (String d t) with
       | EmptyString => if JS.isSpace c then EmptyString else String c EmptyString
       | u => String c u
       end).
    by rewrite IH.
Qed.

Lemma trim_idem s : JS.trim (JS.trim s) = JS.trim s.
Proof.
  unfold JS.trim.
  rewrite (trimStart_id (JS.trimEnd (JS.trimStart s))).
  - apply trimEnd_idem.
  - apply trimEnd_clean, trimStart_clean.
Qed.

Lemma trim_trimmed s : trimmed (JS.trim s).
Proof. apply trim_idem. Qed.

Lemma append_nonempty a b : b <> "" -> a +:+ b <> "".
Proof. destruct a; [tauto | discriminate]. Qed.

Lemma trimEnd_append a b :
  JS.trimEnd b = b -> b <> "" -> JS.trimEnd (a +:+ b) = a +:+ b.
Proof.
  intros Hb Hne. induction a as [|c a IH]; [exact Hb|].
  change (String c a +:+ b) with (String c (a +:+ b)).
  pose proof (append_nonempty a b Hne) as Hab.
  cbn [JS.trimEnd]. rewrite IH. destruct (a +:+ b); [done | reflexivity].
Qed.

Lemma isDigit_not_space c : JS.isDigit c = true -> JS.isSpace c = false.
Proof.
  unfold JS.isDigit, JS.isSpace. intros H.
  apply andb_true_iff in H as [H1 H2]. apply N.leb_le in H1, H2.
  apply orb_false_iff. split.
  - apply andb_false_iff. right. apply N.leb_gt. lia.
  - apply N.eqb_neq. lia.
Qed.

Lemma allDigits_trimEnd s : JS.allDigits s = true -> JS.trimEnd s = s.
Proof.
  induction s as [|c s IH]; simpl; [done|]. intros H.
  apply andb_true_iff in H as [Hc Hs]. rewrite (IH Hs).
  destruct s; [by rewrite (isDigit_not_space _ Hc) | done].
Qed.

Lemma allDigits_append a b :
  JS.allDigits a = true -> JS.allDigits b = true -> JS.allDigits (a +:+ b) = true.
Proof.
  intros Ha Hb. induction a as [|c a IH]; simpl in *; [done|].
  apply andb_true_iff in Ha as [Hc Ha]. by rewrite Hc, IH.
Qed.

Lemma allDigits_repeat n : JS.allDigits (JS.repeatChar n "0") = true.
Proof. induction n as [|n IH]; simpl; [done | exact IH]. Qed.

Lemma allDigits_of_uint d : JS.allDigits (NilEmpty.string_of_uint d) = true.
Proof. induction d; simpl; done. Qed.

Lemma allDigits_ofNumber n : JS.allDigits (JS.ofNumber n) = true.
Proof.
  unfold JS.ofNumber, NilZero.string_of_uint.
  destruct (N.to_uint n); try apply (allDigits_of_uint (Decimal.D0 _));
    first [ done | apply allDigits_of_uint ].
Qed.

Lemma ofNumber_nonempty n : JS.ofNumber n <> "".
Proof.
  unfold JS.ofNumber, NilZero.string_of_uint.
  destruct (N.to_uint n); simpl; discriminate.
Qed.

Lemma padStart_digits len n :
  JS.allDigits (JS.padStart len "0" (JS.ofNumber n)) = true
  /\ JS.padStart len "0" (JS.ofNumber n) <> "".
Proof.
  unfold JS.padStart. split.
  - apply allDigits_append; [apply allDigits_repeat | apply allDigits_ofNumber].
  - apply append_nonempty, ofNumber_nonempty.
Qed.

Lemma startsClean_append a b :
  startsClean a -> (a = "" -> startsClean b) -> startsClean (a +:+ b).
Proof. destruct a; simpl; [by intros _ H; apply H | done]. Qed.

(** A generated roll number is in the form [trim] leaves it. *)
Lemma generateRollNumber_trimmed l className sectionName y :
  trimmed (generateRollNumber l className sectionName y).
Proof.
  unfold trimmed, generateRollNumber, JS.trim at 1.
  set (cls := JS.trim (JS.toUpperCase className)).
  set (sec := JS.trim (JS.toUpperCase sectionName)).
  set (num := JS.padStart 3 "0" _).
  destruct (padStart_digits 3 (nextNumberAfter
              (Enrollment.rollNumber <$>
                 greatestBy Enrollment.rollNumber
                   (List.filter (fun e => eqs (Enrollment.academicYearId e) y
                                          && String.prefix (cls +:+ "-" +:+ sec +:+ "-")
                                               (Enrollment.rollNumber e)) l))))
    as [Hd Hne].
  fold num in Hd, Hne.
  rewrite trimStart_id.
  - replace ((cls +:+ "-" +:+ sec +:+ "-") +:+ num)
      with (((cls +:+ "-" +:+ sec +:+ "-")) +:+ num) by reflexivity.
    apply trimEnd_append; [by apply allDigits_trimEnd | done].
  - apply startsClean_append.
    + apply startsClean_append.
      * unfold cls, JS.trim. apply trimEnd_clean, trimStart_clean.
      * intros _. done.
    + intros H. exfalso. revert H. destruct cls; discriminate.
Qed.

Example roll_example_1 :
  generateRollNumber [] "10" "a" "y1" = "10-A-001".
Proof. reflexivity. Qed.
Example roll_example_2 :
  generateRollNumber [Enrollment.mk "s1" "y1" "c" "s" "10-A-041"; Enrollment.mk "s2" "y1" "c" "s" "10-A-042"; Enrollment.mk "s3" "y2" "c" "s" "10-A-099"] " 10" "a " "y1" = "10-A-043".
Proof. reflexivity. Qed.
Example uid_example : generateStudentId [] 2025 = "STU-2025-0001".
Proof. reflexivity. Qed.


(* ===================================================================== *)
(** ** Academic years: the sequence validator and the current-year gate *)
(* ===================================================================== *)

Section SequenceValidator.

Variable st : Store.
Variables fromId toId : string.
Variables source target : AcademicYear.t.
Hypothesis Hsource : StudentsService.getAcademicYearById fromId st = Ok source.
Hypothesis Htarget : StudentsService.getAcademicYearById toId st = Ok target.

Lemma getAcademicYearById_id id y :
  StudentsService.getAcademicYearById id st = Ok y -> AcademicYear._id y = id.
Proof.
  unfold StudentsService.getAcademicYearById.
  destruct (findOne _ _) as [d|] eqn:E; simpl; [|discriminate].
  intros [= <-]. apply findOne_Some in E as [_ E]. by apply eqs_true in E.
Qed.

(** The validator computes the sequence rule read on [label]. *)
Lemma assertNextAcademicYear_rule :
  StudentsService.assertNextAcademicYear fromId toId st =
  if sequenceRule byLabel source target then Ok tt
  else Err (BadRequestException
              (if eqs fromId toId
               then "Target academic year must be the next one (cannot use the same year)."
               else match evidence byLabel source target with
                    | ByOrder _ _ | ByYears _ _ =>
                        "Target academic year must be the immediate next year."
                    | _ => "Cannot verify academic year sequence; ensure the target is the next year."
                    end)).
Proof.
  unfold StudentsService.assertNextAcademicYear, sequenceRule.
  rewrite (getAcademicYearById_id _ _ Hsource), (getAcademicYearById_id _ _ Htarget).
  destruct (eqs fromId toId) eqn:Eid; simpl; [reflexivity|].
  rewrite Hsource, Htarget. simpl. unfold evidence, byLabel.
  destruct (AcademicYear.order source) as [so|], (AcademicYear.order target) as [to|];
    simpl;
    try (destruct (to =? so + 1)%Z; reflexivity);
    (destruct (StudentsService.parseAYLabel (AcademicYear.label source)) as [[s1 s2]|],
       (StudentsService.parseAYLabel (AcademicYear.label target)) as [[t1 t2]|];
     simpl;
     try (destruct ((t1 =? s1 + 1)%N && (t2 =? s2 + 1)%N); reflexivity);
     (destruct (AcademicYear.endDate source) as [e|],
        (AcademicYear.startDate target) as [s|];
      simpl; try reflexivity; destruct (e <? s)%Z; reflexivity)).
Qed.

End SequenceValidator.

(** C2, as amended. For every pair of source and target years that exist,
    the sequence validator of [promote] and [promoteBulk] follows this
    precedence: it fails when source and target are the same year (before
    any lookup); else, when both carry a numeric [order], it accepts
    exactly when [target.order = source.order + 1]; else, when the [label]
    fields of both (not their [name]) parse as "YYYY-YYYY", it accepts
    exactly when both components grow by one; else, when [source.endDate]
    and [target.startDate] exist, it accepts exactly when the target
    starts after the source ends; else it fails. Every failure is a
    validation error. *)
Theorem assertNextAcademicYear_precedence :
  forall st fromId toId source target,
    StudentsService.getAcademicYearById fromId st = Ok source ->
    StudentsService.getAcademicYearById toId st = Ok target ->
    (sequenceRule byLabel source target = true ->
     StudentsService.assertNextAcademicYear fromId toId st = Ok tt)
    /\ (sequenceRule byLabel source target = false ->
        exists e, StudentsService.assertNextAcademicYear fromId toId st = Err e
                  /\ errorClass e = ValidationError)
    /\ (forall st' id, exists e,
           StudentsService.assertNextAcademicYear id id st' = Err e
           /\ errorClass e = ValidationError).
Proof.
  intros st fromId toId source target Hs Ht.
  rewrite (assertNextAcademicYear_rule st fromId toId source target Hs Ht).
  split; [|split].
  - intros Hr. rewrite Hr. reflexivity.
  - intros Hr. rewrite Hr. eexists. split; reflexivity.
  - intros st' id. unfold StudentsService.assertNextAcademicYear.
    rewrite eqs_refl. simpl. eexists. split; reflexivity.
Qed.

Lemma assertNextAcademicYear_precedence_witness :
  StudentsService.getAcademicYearById "l24" Demo.schoolLabelled = Ok Demo.l24
  /\ StudentsService.getAcademicYearById "l25" Demo.schoolLabelled = Ok Demo.l25
  /\ sequenceRule byLabel Demo.l24 Demo.l25 = true
  /\ StudentsService.assertNextAcademicYear "l24" "l25" Demo.schoolLabelled = Ok tt.
Proof.
  split; [reflexivity|]. split; [reflexivity|]. split; [reflexivity|].
  apply (assertNextAcademicYear_precedence Demo.schoolLabelled "l24" "l25" Demo.l24 Demo.l25);
    reflexivity.
Defined.

(** C2, as written, fails: two years whose [name] fields read
    "2024-2025" and "2026-2027" do not grow by one, yet the validator
    accepts them, because it reads [label] (absent here) and falls
    through to the date comparison. *)
Lemma sequence_by_name_counterexample :
  StudentsService.getAcademicYearById "n24" Demo.schoolNamed = Ok Demo.n24
  /\ StudentsService.getAcademicYearById "n26" Demo.schoolNamed = Ok Demo.n26
  /\ sequenceRule byName Demo.n24 Demo.n26 = false
  /\ StudentsService.assertNextAcademicYear "n24" "n26" Demo.schoolNamed = Ok tt.
Proof. repeat split; reflexivity. Qed.

(** *** The current-year gate *)

Lemma insertSorted_elem {A} (cmp : A -> A -> Z) x l y :
  y ∈ StudentsService.insertSorted cmp x l <-> y = x \/ y ∈ l.
Proof.
  induction l as [|z l IH]; simpl.
  - rewrite list_elem_of_singleton, elem_of_nil. tauto.
  - destruct (cmp x z <=? 0)%Z.
    + rewrite !elem_of_cons. tauto.
    + rewrite !elem_of_cons, IH. tauto.
Qed.

Lemma sort_elem {A} (cmp : A -> A -> Z) l y :
  y ∈ StudentsService.sort cmp l <-> y ∈ l.
Proof.
  unfold StudentsService.sort. induction l as [|x l IH]; simpl; [done|].
  rewrite insertSorted_elem, elem_of_cons, IH. tauto.
Qed.

(** The head of the years sorted by [byStartDateDesc] started last,
    provided every year has a start date. *)
Lemma sort_head_latest (l : list AcademicYear.t) cur rest :
  (forall a, a ∈ l -> is_Some (AcademicYear.startDate a)) ->
  StudentsService.sort StudentsService.byStartDateDesc l = cur :: rest ->
  forall a, a ∈ l ->
    exists da dc, AcademicYear.startDate a = Some da
                  /\ AcademicYear.startDate cur = Some dc /\ (da <= dc)%Z.
Proof.
  revert cur rest. induction l as [|x l IH]; intros cur rest Hd Hs a Ha.
  - by apply elem_of_nil in Ha.
  - unfold StudentsService.sort in Hs. simpl in Hs.
    fold (StudentsService.sort StudentsService.byStartDateDesc l) in Hs.
    assert (Hdl : forall a, a ∈ l -> is_Some (AcademicYear.startDate a)).
    { intros b Hb. apply Hd. by right. }
    destruct (Hd x ltac:(by left)) as [dx Hdx].
    destruct (StudentsService.sort StudentsService.byStartDateDesc l) as [|c r] eqn:Es.
    + simpl in Hs. injection Hs as <- <-.
      destruct l as [|z l].
      * apply list_elem_of_singleton in Ha as ->. exists dx, dx. repeat split; [done..|lia].
      * assert (Hz : z ∈ StudentsService.sort StudentsService.byStartDateDesc (z :: l)).
        { apply sort_elem. by left. }
        rewrite Es in Hz. by apply elem_of_nil in Hz.
    + simpl in Hs.
      assert (Hc : c ∈ l). { apply (sort_elem StudentsService.byStartDateDesc). rewrite Es. by left. }
      destruct (Hdl c Hc) as [dc Hdc].
      unfold StudentsService.byStartDateDesc in Hs. rewrite Hdx, Hdc in Hs.
      destruct (dc - dx <=? 0)%Z eqn:Ecmp.
      * injection Hs as <- <-. apply Z.leb_le in Ecmp.
        apply elem_of_cons in Ha as [->|Ha].
        -- exists dx, dx. repeat split; [done..|lia].
        -- destruct (IH c r Hdl eq_refl a Ha) as (da & dc' & Hda & Hdc' & Hle).
           rewrite Hdc in Hdc'. injection Hdc' as <-.
           exists da, dx. repeat split; [done..|lia].
      * injection Hs as <- <-. apply Z.leb_gt in Ecmp.
        apply elem_of_cons in Ha as [->|Ha].
        -- exists dx, dc. repeat split; [done..|lia].
        -- exact (IH c r Hdl eq_refl a Ha).
Qed.

Lemma elem_of_filter_bool {A} (p : A -> bool) l x :
  x ∈ List.filter p l <-> x ∈ l /\ p x = true.
Proof. rewrite !list_elem_of_In. apply filter_In. Qed.

Lemma resolveCurrentYear_flagged st cur :
  findOne AcademicYear.isCurrent (years st) = Some cur ->
  StudentsService.resolveCurrentYear st = Ok cur.
Proof. unfold StudentsService.resolveCurrentYear. by intros ->. Qed.

Lemma resolveCurrentYear_fallback st :
  findOne AcademicYear.isCurrent (years st) = None ->
  match StudentsService.resolveCurrentYear st with
  | Ok cur =>
      cur ∈ years st /\ AcademicYear.isActive cur = true
      /\ ((forall a, a ∈ years st -> AcademicYear.isActive a = true ->
                     is_Some (AcademicYear.startDate a)) ->
          forall a, a ∈ years st -> AcademicYear.isActive a = true ->
            exists da dc, AcademicYear.startDate a = Some da
                          /\ AcademicYear.startDate cur = Some dc /\ (da <= dc)%Z)
  | Err e =>
      errorClass e = ValidationError
      /\ forall a, a ∈ years st -> AcademicYear.isActive a = false
  end.
Proof.
  intros Hnone. unfold StudentsService.resolveCurrentYear. rewrite Hnone.
  destruct (StudentsService.sort _ _) as [|cur rest] eqn:Es; simpl.
  - split; [done|]. intros a Ha. destruct (AcademicYear.isActive a) eqn:Ea; [|done].
    assert (Hin : a ∈ StudentsService.sort StudentsService.byStartDateDesc
                    (List.filter AcademicYear.isActive (years st))).
    { apply sort_elem, elem_of_filter_bool. done. }
    rewrite Es in Hin. by apply elem_of_nil in Hin.
  - assert (Hcur : cur ∈ List.filter AcademicYear.isActive (years st)).
    { apply (sort_elem StudentsService.byStartDateDesc). rewrite Es. by left. }
    apply elem_of_filter_bool in Hcur as [Hcur Hact]. split; [done|]. split; [done|].
    intros Hdates a Ha Hac.
    eapply sort_head_latest; [ | exact Es | by apply elem_of_filter_bool].
    intros b Hb. apply elem_of_filter_bool in Hb as [Hb Hbact]. by apply Hdates.
Qed.

(** The gate rejects every year other than the resolved current one. *)
Lemma assertIsCurrentAcademicYear_cases st y :
  match StudentsService.assertIsCurrentAcademicYear y st with
  | Ok _ => exists cur, StudentsService.resolveCurrentYear st = Ok cur
                        /\ AcademicYear._id cur = y
  | Err e => errorClass e = ValidationError
  end.
Proof.
  unfold StudentsService.assertIsCurrentAcademicYear.
  destruct (StudentsService.resolveCurrentYear st) as [cur|e] eqn:Er; simpl.
  - destruct (eqs (AcademicYear._id cur) y) eqn:Ey; simpl; [|done].
    exists cur. split; [done|]. by apply eqs_true.
  - unfold StudentsService.resolveCurrentYear in Er.
    destruct (findOne _ _); [discriminate|].
    destruct (StudentsService.sort _ _); [|discriminate].
    by injection Er as <-.
Qed.

(** C3, as amended. For every academic year Y that is neither flagged
    current nor active, while no other year is active, [promote] for a
    student whose snapshot year is Y fails with a validation error and
    writes nothing, whatever the target year; the current year is the
    record flagged current or, when none is flagged, the active record
    with the latest start date (and there is none exactly when no year is
    active). *)
Theorem promote_current_year_gate :
  forall st sid c s target student y,
    findStudent sid (students st) = Some student ->
    JS.String_ (Student.academicYearId student) = y ->
    (forall d, d ∈ years st -> AcademicYear._id d = y ->
               AcademicYear.isCurrent d = false /\ AcademicYear.isActive d = false) ->
    (forall d, d ∈ years st -> AcademicYear._id d <> y -> AcademicYear.isActive d = false) ->
    (exists e, StudentsService.promote sid c s target st = (Err e, st)
               /\ errorClass e = ValidationError)
    /\ (forall cur, findOne AcademicYear.isCurrent (years st) = Some cur ->
                    StudentsService.resolveCurrentYear st = Ok cur)
    /\ (findOne AcademicYear.isCurrent (years st) = None ->
        match StudentsService.resolveCurrentYear st with
        | Ok cur =>
            cur ∈ years st /\ AcademicYear.isActive cur = true
            /\ ((forall a, a ∈ years st -> AcademicYear.isActive a = true ->
                           is_Some (AcademicYear.startDate a)) ->
                forall a, a ∈ years st -> AcademicYear.isActive a = true ->
                  exists da dc, AcademicYear.startDate a = Some da
                                /\ AcademicYear.startDate cur = Some dc /\ (da <= dc)%Z)
        | Err e =>
            errorClass e = ValidationError
            /\ forall a, a ∈ years st -> AcademicYear.isActive a = false
        end).
Proof.
  intros st sid c s target student y Hstud Hy HY Hother.
  split; [|split; [apply resolveCurrentYear_flagged | apply resolveCurrentYear_fallback]].
  unfold StudentsService.promote. rewrite Hstud, Hy.
  pose proof (assertIsCurrentAcademicYear_cases st y) as Hgate.
  destruct (StudentsService.assertIsCurrentAcademicYear y st) as [[]|e] eqn:Eg; simpl.
  - exfalso. destruct Hgate as (cur & Hres & Hid).
    destruct (findOne AcademicYear.isCurrent (years st)) as [f|] eqn:Ef.
    + rewrite (resolveCurrentYear_flagged _ _ Ef) in Hres. injection Hres as ->.
      apply findOne_Some in Ef as [Hin Hcur].
      destruct (HY cur Hin Hid) as [Hc _]. congruence.
    + pose proof (resolveCurrentYear_fallback st Ef) as Hfb. rewrite Hres in Hfb.
      destruct Hfb as (Hin & Hact & _).
      destruct (HY cur Hin Hid) as [_ Ha]. congruence.
  - eauto.
Qed.

Lemma promote_current_year_gate_witness :
  exists e, StudentsService.promote "ann" "c10" "s10a" "i25" Demo.schoolDormant
            = (Err e, Demo.schoolDormant)
            /\ errorClass e = ValidationError.
Proof.
  refine (proj1 (promote_current_year_gate Demo.schoolDormant "ann" "c10" "s10a" "i25"
                   (Demo.ann "i24") "i24" eq_refl eq_refl _ _)).
  - intros d Hd Hid. unfold Demo.schoolDormant, Demo.catalog in Hd. simpl in Hd.
    apply elem_of_cons in Hd as [->|Hd]; [done|].
    apply list_elem_of_singleton in Hd as ->. done.
  - intros d Hd Hid. unfold Demo.schoolDormant, Demo.catalog in Hd. simpl in Hd.
    apply elem_of_cons in Hd as [->|Hd]; [done|].
    apply list_elem_of_singleton in Hd as ->. done.
Defined.

(** C3, as written, fails: the year of Ann is not flagged current and no
    other year is active, yet the year is active itself, so the fallback
    makes it the current year and the promotion goes through. *)
Lemma current_year_gate_counterexample :
  findStudent "ann" (students Demo.schoolUnflagged) = Some (Demo.ann "a24")
  /\ AcademicYear.isCurrent Demo.a24 = false
  /\ (forall d, d ∈ years Demo.schoolUnflagged -> d <> Demo.a24 ->
                AcademicYear.isActive d = false)
  /\ (StudentsService.promote "ann" "c10" "s10a" "i25" Demo.schoolUnflagged).1
     = Ok (StudentsService.moveSnapshot "c10" "s10a" "i25" (Demo.ann "a24")).
Proof.
  split; [reflexivity|]. split; [reflexivity|]. split; [|reflexivity].
  intros d Hd Hne. unfold Demo.schoolUnflagged, Demo.catalog in Hd. simpl in Hd.
  apply elem_of_cons in Hd as [->|Hd]; [done|].
  apply list_elem_of_singleton in Hd as ->. done.
Qed.

Lemma errorClass_validation e :
  errorClass e = ValidationError -> exists m, e = BadRequestException m.
Proof. destruct e; simpl; try discriminate. eauto. Qed.

Lemma assertIsCurrentAcademicYear_Err st y e :
  StudentsService.assertIsCurrentAcademicYear y st = Err e ->
  errorClass e = ValidationError.
Proof.
  intros H. pose proof (assertIsCurrentAcademicYear_cases st y) as Hc.
  by rewrite H in Hc.
Qed.

Lemma getAcademicYearById_Err st id e :
  StudentsService.getAcademicYearById id st = Err e -> errorClass e = ValidationError.
Proof.
  unfold StudentsService.getAcademicYearById.
  destruct (findOne _ _); simpl; [discriminate|]. by intros [= <-].
Qed.

(** Every failure of the sequence validator is a validation error. *)
Lemma assertNextAcademicYear_Err st fromId toId e :
  StudentsService.assertNextAcademicYear fromId toId st = Err e ->
  errorClass e = ValidationError.
Proof.
  destruct (StudentsService.getAcademicYearById fromId st) as [source|e1] eqn:Es.
  - destruct (StudentsService.getAcademicYearById toId st) as [target|e2] eqn:Et.
    + rewrite (assertNextAcademicYear_rule st fromId toId source target Es Et).
      destruct (sequenceRule byLabel source target); [discriminate|]. by intros [= <-].
    + unfold StudentsService.assertNextAcademicYear.
      destruct (eqs fromId toId); simpl; [by intros [= <-]|].
      rewrite Es, Et. simpl. intros [= <-]. eapply getAcademicYearById_Err, Et.
  - unfold StudentsService.assertNextAcademicYear.
    destruct (eqs fromId toId); simpl; [by intros [= <-]|].
    rewrite Es. simpl. intros [= <-]. eapply getAcademicYearById_Err, Es.
Qed.


(* ===================================================================== *)
(** ** Single promotion and single re-admission *)
(* ===================================================================== *)

Lemma Student_update_inv id f l o l' :
  Student_update id f l = Ok (o, l') ->
  (findStudent id l = None /\ o = None /\ l' = l)
  \/ (exists s, findStudent id l = Some s /\ o = Some (f s)
                /\ l' = updateFirst (hasId id) (fun _ => f s) l).
Proof.
  unfold Student_update. destruct (findStudent id l) as [s|] eqn:E; simpl.
  - intros H. inv_ok H. subst. right. eauto.
  - intros [= <- <-]. left. done.
Qed.

Lemma findStudent_updateFirst_same id s' l :
  is_Some (findStudent id l) -> Student._id s' = id ->
  findStudent id (updateFirst (hasId id) (fun _ => s') l) = Some s'.
Proof.
  intros [s Hs] Hid. unfold findStudent, findOne in *.
  induction l as [|x l IH]; simpl in *; [discriminate|].
  destruct (hasId id x) eqn:Ex; simpl.
  - unfold hasId at 1. by rewrite (proj2 (eqs_true _ _) Hid).
  - rewrite Ex. by apply IH.
Qed.

Lemma findStudent_updateFirst_other id id' s' l :
  id' <> id -> Student._id s' = id ->
  findStudent id' (updateFirst (hasId id) (fun _ => s') l) = findStudent id' l.
Proof.
  intros Hne Hid. unfold findStudent, findOne.
  induction l as [|x l IH]; simpl; [done|].
  destruct (hasId id x) eqn:Ex; simpl.
  - assert (Hx : hasId id' x = false).
    { apply eqs_false. apply eqs_true in Ex. congruence. }
    assert (Hs : hasId id' s' = false). { apply eqs_false. congruence. }
    by rewrite Hx, Hs.
  - destruct (hasId id' x); [done | exact IH].
Qed.

Lemma createdBy_app st st' added :
  enrollments st' = enrollments st ++ added -> createdBy st st' = added.
Proof. unfold createdBy. intros ->. apply drop_app_length. Qed.

(** What a successful single promotion did. *)
Lemma promote_Ok_inv sid c s y st r st' :
  StudentsService.promote sid c s y st = (Ok r, st') ->
  exists student,
    findStudent sid (students st) = Some student
    /\ StudentsService.assertIsCurrentAcademicYear
         (JS.String_ (Student.academicYearId student)) st = Ok tt
    /\ StudentsService.assertNextAcademicYear
         (JS.String_ (Student.academicYearId student)) y st = Ok tt
    /\ findEnrollment sid y (enrollments st) = None
    /\ (rollKey (Enrollment.mk sid y c s (JS.trim (Student.rollNumber student)))
         ∉ (rollKey <$> enrollments st))
    /\ r = StudentsService.moveSnapshot c s y student
    /\ enrollments st' =
         enrollments st ++ [Enrollment.mk sid y c s (JS.trim (Student.rollNumber student))]
    /\ students st' = updateFirst (hasId sid) (fun _ => r) (students st)
    /\ years st' = years st /\ classes st' = classes st /\ sections st' = sections st.
Proof.
  unfold StudentsService.promote.
  destruct (findStudent sid (students st)) as [student|] eqn:Es; [|discriminate].
  destruct (StudentsService.assertIsCurrentAcademicYear _ st) as [[]|] eqn:Eg;
    simpl; [|discriminate].
  destruct (StudentsService.assertNextAcademicYear _ y st) as [[]|] eqn:En;
    simpl; [|discriminate].
  destruct (bool_decide (is_Some (findEnrollment sid y (enrollments st)))) eqn:Ee;
    simpl; [discriminate|].
  unfold withTransaction.
  destruct (Enrollment_create _ _ _ _ _ _) as [[e enrs]|] eqn:Ec; simpl; [|discriminate].
  destruct (Student_update _ _ _) as [[saved studs]|] eqn:Eu; simpl; [|discriminate].
  intros [= <- <-]. exists student.
  apply Enrollment_create_inv in Ec as (Hs1 & Hs2 & Hs3 & Hs4 & Hs5 & -> & Hnone & Hkey).
  simpl in Hs5. injection Hs1 as Hs1. injection Hs2 as Hs2. injection Hs3 as Hs3.
  injection Hs4 as Hs4. injection Hs5 as Hs5.
  assert (He : e = Enrollment.mk sid y c s (JS.trim (Student.rollNumber student))).
  { destruct e; simpl in *. congruence. }
  subst e. simpl in *.
  pose proof (findStudent_id _ _ _ Es) as Hid.
  apply Student_update_inv in Eu as [(Hn & _)|(s0 & Hs0 & _ & ->)].
  { rewrite Hid in Hn. congruence. }
  rewrite Hid. repeat split; try done.
Qed.

(** What a successful single re-admission did. *)
Lemma reAdmit_Ok_inv sid c s y st r st' :
  StudentsService.reAdmit sid c s y st = (Ok r, st') ->
  exists student classDoc sectionDoc,
    findStudent sid (students st) = Some student
    /\ StudentsService.findClass c st = Some classDoc
    /\ StudentsService.findSection s st = Some sectionDoc
    /\ findEnrollment sid y (enrollments st) = None
    /\ let roll := generateRollNumber (enrollments st) (Class.name classDoc)
                     (Section.name sectionDoc) y in
       (rollKey (Enrollment.mk sid y c s (JS.trim roll)) ∉ (rollKey <$> enrollments st))
       /\ r = StudentsService.reseatSnapshot c s y roll student
       /\ enrollments st' = enrollments st ++ [Enrollment.mk sid y c s (JS.trim roll)]
       /\ students st' = updateFirst (hasId sid) (fun _ => r) (students st)
       /\ years st' = years st /\ classes st' = classes st /\ sections st' = sections st.
Proof.
  unfold StudentsService.reAdmit.
  destruct (findStudent sid (students st)) as [student|] eqn:Es; [|discriminate].
  destruct (bool_decide (is_Some (findEnrollment sid y (enrollments st)))) eqn:Ee;
    simpl; [discriminate|].
  destruct (StudentsService.findClass c st) as [classDoc|] eqn:Ecl; [|discriminate].
  destruct (StudentsService.findSection s st) as [sectionDoc|] eqn:Ese; [|discriminate].
  unfold withTransaction.
  destruct (Enrollment_create _ _ _ _ _ _) as [[e enrs]|] eqn:Ec; simpl; [|discriminate].
  destruct (Student_update _ _ _) as [[saved studs]|] eqn:Eu; simpl; [|discriminate].
  intros [= <- <-]. exists student, classDoc, sectionDoc.
  apply Enrollment_create_inv in Ec as (Hs1 & Hs2 & Hs3 & Hs4 & Hs5 & -> & Hnone & Hkey).
  simpl in Hs5. injection Hs1 as Hs1. injection Hs2 as Hs2. injection Hs3 as Hs3.
  injection Hs4 as Hs4. injection Hs5 as Hs5.
  assert (He : e = Enrollment.mk sid y c s
                     (JS.trim (generateRollNumber (enrollments st) (Class.name classDoc)
                                 (Section.name sectionDoc) y))).
  { destruct e; simpl in *. congruence. }
  subst e. simpl in *.
  pose proof (findStudent_id _ _ _ Es) as Hid.
  apply Student_update_inv in Eu as [(Hn & _)|(s0 & Hs0 & _ & ->)].
  { rewrite Hid in Hn. congruence. }
  rewrite Hid. repeat split; try done.
Qed.

(** C9. A successful single promotion carries the roll number the student
    already had into the new ledger entry and leaves it on the snapshot;
    a successful single re-admission gives the new ledger entry and the
    snapshot the roll number generated from the ledger for the target
    class, section and year, a number no entry of that year held. (The
    stored roll number of the student is in the trimmed form every write
    of the service leaves it in.) *)
Theorem promote_keeps_roll_reAdmit_generates :
  (forall st sid c s y r st' student,
      StudentsService.promote sid c s y st = (Ok r, st') ->
      findStudent sid (students st) = Some student ->
      trimmed (Student.rollNumber student) ->
      exists e,
        createdBy st st' = [e] /\ newEntryFor st st' sid y e
        /\ Enrollment.rollNumber e = Student.rollNumber student
        /\ findStudent sid (students st') = Some r
        /\ Student.rollNumber r = Student.rollNumber student)
  /\ (forall st sid c s y r st',
         StudentsService.reAdmit sid c s y st = (Ok r, st') ->
         exists classDoc sectionDoc e,
           StudentsService.findClass c st = Some classDoc
           /\ StudentsService.findSection s st = Some sectionDoc
           /\ let roll := generateRollNumber (enrollments st) (Class.name classDoc)
                            (Section.name sectionDoc) y in
              createdBy st st' = [e] /\ newEntryFor st st' sid y e
              /\ Enrollment.rollNumber e = roll
              /\ findStudent sid (students st') = Some r
              /\ Student.rollNumber r = roll
              /\ (forall x, x ∈ enrollments st -> Enrollment.academicYearId x = y ->
                            Enrollment.rollNumber x <> roll)).
Proof.
  split.
  - intros st sid c s y r st' student Hp Hs Ht.
    apply promote_Ok_inv in Hp
      as (student' & Hs' & _ & _ & _ & _ & -> & Hl & Hst & _).
    rewrite Hs in Hs'. injection Hs' as <-.
    exists (Enrollment.mk sid y c s (JS.trim (Student.rollNumber student))).
    rewrite (createdBy_app _ _ _ Hl). unfold newEntryFor.
    rewrite (createdBy_app _ _ _ Hl). simpl. rewrite Ht.
    repeat split; try done.
    + by apply list_elem_of_singleton.
    + rewrite Hst. apply findStudent_updateFirst_same; [eauto|].
      simpl. eapply findStudent_id, Hs.
  - intros st sid c s y r st' Hr.
    apply reAdmit_Ok_inv in Hr
      as (student & classDoc & sectionDoc & Hs & Hc & Hsec & _ & Hk & -> & Hl & Hst & _).
    exists classDoc, sectionDoc.
    pose proof (generateRollNumber_trimmed (enrollments st) (Class.name classDoc)
                  (Section.name sectionDoc) y) as Ht.
    unfold trimmed in Ht. rewrite Ht in Hl, Hk.
    eexists. split; [done|]. split; [done|]. simpl.
    rewrite (createdBy_app _ _ _ Hl). unfold newEntryFor.
    rewrite (createdBy_app _ _ _ Hl). simpl. rewrite Ht.
    repeat split; try done.
    + by apply list_elem_of_singleton.
    + rewrite Hst. apply findStudent_updateFirst_same; [eauto|].
      simpl. eapply findStudent_id, Hs.
    + intros x Hx Hy Hroll. apply Hk. apply list_elem_of_fmap. exists x.
      split; [|done]. unfold rollKey. simpl. by rewrite Hy, Hroll.
Qed.

Lemma promote_keeps_roll_reAdmit_generates_witness :
  (exists e,
      createdBy Demo.school (StudentsService.promote "ann" "c10" "s10a" "y25" Demo.school).2 = [e]
      /\ Enrollment.rollNumber e = "9-A-001")
  /\ (exists e,
         createdBy Demo.school (StudentsService.reAdmit "ann" "c10" "s10a" "y26" Demo.school).2
         = [e]
         /\ Enrollment.rollNumber e = "10-A-001").
Proof.
  split.
  - destruct (proj1 promote_keeps_roll_reAdmit_generates Demo.school "ann" "c10" "s10a" "y25"
                (StudentsService.moveSnapshot "c10" "s10a" "y25" (Demo.ann "y24"))
                (StudentsService.promote "ann" "c10" "s10a" "y25" Demo.school).2
                (Demo.ann "y24") eq_refl eq_refl eq_refl)
      as (e & Hc & _ & Hr & _).
    exists e. split; [exact Hc | exact Hr].
  - destruct (proj2 promote_keeps_roll_reAdmit_generates Demo.school "ann" "c10" "s10a" "y26"
                (StudentsService.reseatSnapshot "c10" "s10a" "y26" "10-A-001" (Demo.ann "y24"))
                (StudentsService.reAdmit "ann" "c10" "s10a" "y26" Demo.school).2
                eq_refl)
      as (cd & sd & e & Hcd & Hsd & Hc & _ & Hr & _).
    exists e. split; [exact Hc|].
    rewrite Hr. vm_compute in Hcd, Hsd. injection Hcd as <-. injection Hsd as <-.
    reflexivity.
Defined.

(** C4, as amended. When the ledger already holds an entry for student S
    and year Y2, [promote] and [reAdmit] aimed at (S, Y2) fail with a
    [BadRequestException], the exception class the service also uses for
    its validation failures ([reAdmit] with the message that the student
    already has an enrollment for the year), they create no ledger entry
    and change no snapshot. *)
Theorem duplicate_enrollment_rejected :
  forall st sid c s y student existing,
    findStudent sid (students st) = Some student ->
    findEnrollment sid y (enrollments st) = Some existing ->
    (exists m, StudentsService.promote sid c s y st = (Err (BadRequestException m), st))
    /\ StudentsService.reAdmit sid c s y st
       = (Err (BadRequestException
                 "Student already has an enrollment for this academic year"), st).
Proof.
  intros st sid c s y student existing Hs He. split.
  - unfold StudentsService.promote. rewrite Hs, He.
    destruct (StudentsService.assertIsCurrentAcademicYear _ st) as [[]|e] eqn:Eg; simpl.
    + destruct (StudentsService.assertNextAcademicYear _ y st) as [[]|e] eqn:En; simpl.
      * eauto.
      * apply assertNextAcademicYear_Err, errorClass_validation in En as [m ->]. eauto.
    + apply assertIsCurrentAcademicYear_Err, errorClass_validation in Eg as [m ->]. eauto.
  - unfold StudentsService.reAdmit. rewrite Hs, He.
    rewrite bool_decide_eq_true_2 by eauto. reflexivity.
Qed.

Lemma duplicate_enrollment_rejected_witness :
  (exists m, StudentsService.promote "ann" "c10" "s10a" "y25" Demo.schoolAhead
             = (Err (BadRequestException m), Demo.schoolAhead))
  /\ StudentsService.reAdmit "ann" "c10" "s10a" "y25" Demo.schoolAhead
     = (Err (BadRequestException
               "Student already has an enrollment for this academic year"),
        Demo.schoolAhead).
Proof.
  apply (duplicate_enrollment_rejected Demo.schoolAhead "ann" "c10" "s10a" "y25"
           (Demo.ann "y24") (Enrollment.mk "ann" "y25" "c9" "s9b" "9-B-007"));
    reflexivity.
Defined.

(** C4, as written, fails: the failure is a [BadRequestException], which
    is the validation class, not the conflict class. *)
Lemma duplicate_enrollment_counterexample :
  is_Some (findEnrollment "ann" "y25" (enrollments Demo.schoolAhead))
  /\ ~ (exists e, (StudentsService.reAdmit "ann" "c10" "s10a" "y25" Demo.schoolAhead).1 = Err e
                  /\ errorClass e = ConflictError)
  /\ ~ (exists e, (StudentsService.promote "ann" "c10" "s10a" "y25" Demo.schoolAhead).1 = Err e
                  /\ errorClass e = ConflictError).
Proof.
  split; [by eexists|]. split; intros (e & He & Hc); vm_compute in He;
    injection He as <-; discriminate.
Qed.


(* ===================================================================== *)
(** ** Bulk promotion *)
(* ===================================================================== *)

(** C10, as amended. When the source year is supplied and passes the
    current-year gate and the candidate filter matches no student,
    [promoteBulk] returns [{selected, matched: 0, modified: 0}] and
    writes nothing, without validating the target year or resolving a
    class or section: the target year may be the same year, out of
    sequence or unknown. *)
Theorem promoteBulk_no_candidates :
  forall dto headerAY st,
    JS.truthy (JS.orElse (PromoteBulkDto.fromAcademicYearId dto) headerAY) = true ->
    StudentsService.assertIsCurrentAcademicYear
      (JS.String_ (JS.orElse (PromoteBulkDto.fromAcademicYearId dto) headerAY)) st = Ok tt ->
    candidatesOf dto headerAY st = [] ->
    StudentsService.promoteBulk dto headerAY st =
    (Ok (PromoteBulkResult.mk
           (match PromoteBulkDto.studentIds dto with
            | Some ids => List.length ids
            | None => 0
            end) 0 0 None None None), st).
Proof.
  intros dto headerAY st Hfrom Hgate Hnone.
  unfold StudentsService.promoteBulk. rewrite Hfrom. simpl. rewrite Hgate.
  unfold candidatesOf in Hnone. by rewrite Hnone.
Qed.

Lemma promoteBulk_no_candidates_witness :
  StudentsService.promoteBulk
    (PromoteBulkDto.mk (Some "y24") "c10" None (Some ["ann"; "zed"]) "y24" None None)
    None Demo.school
  = (Ok (PromoteBulkResult.mk 2 0 0 None None None), Demo.school).
Proof.
  apply (promoteBulk_no_candidates
           (PromoteBulkDto.mk (Some "y24") "c10" None (Some ["ann"; "zed"]) "y24" None None)
           None Demo.school); reflexivity.
Defined.

(** C10, as written, fails: no student matches, yet the call does not
    return a result, because the source year is not the current year and
    the gate comes first. *)
Lemma promoteBulk_no_candidates_counterexample :
  candidatesOf (PromoteBulkDto.mk (Some "y25") "c9" None None "y26" None None) None Demo.school
  = []
  /\ ~ (exists r, (StudentsService.promoteBulk
                     (PromoteBulkDto.mk (Some "y25") "c9" None None "y26" None None)
                     None Demo.school).1 = Ok r).
Proof.
  split; [reflexivity|]. intros [r Hr]. vm_compute in Hr. discriminate.
Qed.

(** *** Section mapping *)

Lemma resolveTargetClass_Err dto st e :
  StudentsService.resolveTargetClass dto st = Err e -> errorClass e = ValidationError.
Proof.
  unfold StudentsService.resolveTargetClass.
  destruct (JS.truthy _); [discriminate|].
  destruct (StudentsService.findClass _ _) as [cc|]; [|by intros [= <-]].
  destruct (Class.order cc); [|by intros [= <-]].
  destruct (StudentsService.nextClassAfter _ _); [discriminate | by intros [= <-]].
Qed.

Lemma uniq_elem x xs : x ∈ StudentsService.uniq xs <-> x ∈ xs.
Proof.
  induction xs as [|y xs IH]; simpl; [done|].
  rewrite !elem_of_cons, elem_of_filter_bool, IH.
  destruct (decide (x = y)) as [->|Hne]; [tauto|].
  rewrite negb_true_iff, eqs_false. tauto.
Qed.

Lemma sectionIdsOf_elem candidates s :
  s ∈ candidates -> JS.truthy (Student.sectionId s) = true ->
  JS.String_ (Student.sectionId s) ∈ StudentsService.sectionIdsOf candidates.
Proof.
  intros Hin Ht. unfold StudentsService.sectionIdsOf. apply uniq_elem, list_elem_of_omap.
  exists s. split; [done|]. rewrite Ht.
  destruct (Student.sectionId s); [done | discriminate].
Qed.

Lemma mapSection_fold_None targets srcs (m0 : gmap string string) sid :
  (forall src, src ∈ srcs -> Section._id src = sid ->
               findOne (fun t => eqs (JS.toLowerCase (Section.name t))
                                   (JS.toLowerCase (Section.name src))) targets = None) ->
  fold_left (StudentsService.mapSection targets) srcs m0 !! sid = m0 !! sid.
Proof.
  revert m0. induction srcs as [|src srcs IH]; intros m0 H; simpl; [done|].
  rewrite IH by (intros; apply H; [by right | done]).
  unfold StudentsService.mapSection.
  destruct (findOne _ targets) as [t|] eqn:Ef; [|done].
  destruct (decide (Section._id src = sid)) as [Heq|Hne].
  - rewrite (H src) in Ef; [discriminate | by left | done].
  - by rewrite lookup_insert_ne.
Qed.

Lemma mapSection_fold_keeps targets srcs (m0 : gmap string string) sid :
  is_Some (m0 !! sid) -> is_Some (fold_left (StudentsService.mapSection targets) srcs m0 !! sid).
Proof.
  revert m0. induction srcs as [|src srcs IH]; intros m0 H; simpl; [done|].
  apply IH. unfold StudentsService.mapSection. destruct (findOne _ targets) as [t|]; [|done].
  destruct (decide (Section._id src = sid)) as [->|Hne].
  - rewrite lookup_insert_eq. eauto.
  - by rewrite lookup_insert_ne.
Qed.

Lemma mapSection_fold_None_inv targets srcs (m0 : gmap string string) sid :
  fold_left (StudentsService.mapSection targets) srcs m0 !! sid = None ->
  forall src, src ∈ srcs -> Section._id src = sid ->
              findOne (fun t => eqs (JS.toLowerCase (Section.name t))
                                  (JS.toLowerCase (Section.name src))) targets = None.
Proof.
  revert m0. induction srcs as [|src srcs IH]; intros m0 H x Hx Hid.
  - by apply elem_of_nil in Hx.
  - simpl in H. apply elem_of_cons in Hx as [->|Hx]; [|by eapply IH].
    destruct (findOne _ targets) as [t|] eqn:Ef; [|done]. exfalso.
    assert (Hs : is_Some (fold_left (StudentsService.mapSection targets) srcs (StudentsService.mapSection targets m0 src) !! sid)).
    { apply mapSection_fold_keeps. unfold StudentsService.mapSection. rewrite Ef, Hid.
      rewrite lookup_insert_eq. eauto. }
    rewrite H in Hs. by destruct Hs.
Qed.

Lemma mapSection_fold_values targets srcs (m0 : gmap string string) :
  (forall t, t ∈ targets -> Section._id t <> "") ->
  (forall k v, m0 !! k = Some v -> v <> "") ->
  forall k v, fold_left (StudentsService.mapSection targets) srcs m0 !! k = Some v -> v <> "".
Proof.
  intros Ht. revert m0. induction srcs as [|src srcs IH]; intros m0 H0 k v; simpl; [apply H0|].
  apply IH. intros k' v'. unfold StudentsService.mapSection.
  destruct (findOne _ targets) as [t|] eqn:Ef; [|apply H0].
  destruct (decide (Section._id src = k')) as [->|Hne].
  - rewrite lookup_insert_eq. intros [= <-]. apply Ht. by apply findOne_Some in Ef as [? _].
  - rewrite lookup_insert_ne by done. apply H0.
Qed.

Section UnmappedSection.

Variable dto : PromoteBulkDto.t.
Variable st : Store.
Variable candidates : list Student.t.
Variable tc : string.
Hypothesis Hno_target : JS.truthy (PromoteBulkDto.targetSectionId dto) = false.

Lemma mapping_exists s :
  s ∈ candidates -> JS.truthy (Student.sectionId s) = true -> is_Some (StudentsService.buildSectionMapping dto tc candidates st).
Proof.
  intros Hs Ht. unfold StudentsService.buildSectionMapping. rewrite Hno_target.
  pose proof (sectionIdsOf_elem _ _ Hs Ht) as Hin.
  case_bool_decide as Hnil; [|eauto].
  rewrite Hnil in Hin. by apply elem_of_nil in Hin.
Qed.

Lemma mapping_unmapped m sid :
  StudentsService.buildSectionMapping dto tc candidates st = Some m -> noSameNameSection st tc sid -> m !! sid = None.
Proof.
  unfold StudentsService.buildSectionMapping. rewrite Hno_target.
  case_bool_decide as Hnil; [discriminate|].
  intros [= <-] Hno. rewrite mapSection_fold_None; [apply lookup_empty|].
  intros src Hsrc Hid.
  apply elem_of_filter_bool in Hsrc as [Hsrc _].
  destruct (findOne _ _) as [t|] eqn:Ef; [|done]. exfalso.
  apply findOne_Some in Ef as [Ht Hname]. apply eqs_true in Hname.
  apply elem_of_filter_bool in Ht as [Ht Hc]. apply eqs_true in Hc.
  exact (Hno src t Hsrc Hid Ht Hc Hname).
Qed.

Lemma mapping_None_unmapped m s :
  StudentsService.buildSectionMapping dto tc candidates st = Some m -> s ∈ candidates -> JS.truthy (Student.sectionId s) = true ->
  m !! JS.String_ (Student.sectionId s) = None ->
  noSameNameSection st tc (JS.String_ (Student.sectionId s)).
Proof.
  unfold StudentsService.buildSectionMapping. rewrite Hno_target.
  intros Hm Hs Htr Hnone src t Hsrc Hid Ht Hc Hname.
  pose proof (sectionIdsOf_elem _ _ Hs Htr) as Hin.
  case_bool_decide as Hnil; [discriminate|]. injection Hm as <-.
  pose proof (mapSection_fold_None_inv _ _ _ _ Hnone src) as Hf.
  assert (Hp : eqs (JS.toLowerCase (Section.name t)) (JS.toLowerCase (Section.name src))
               = false).
  { apply (findOne_None
             (fun t0 => eqs (JS.toLowerCase (Section.name t0))
                          (JS.toLowerCase (Section.name src)))
             (List.filter (fun sec => eqs (Section.classId sec) tc) (sections st)) t).
    - apply Hf; [|exact Hid]. apply elem_of_filter_bool. split; [exact Hsrc|].
      apply bool_decide_eq_true. by rewrite Hid.
    - apply elem_of_filter_bool. split; [exact Ht | by apply eqs_true]. }
  apply eqs_false in Hp. by apply Hp.
Qed.

Lemma mapping_values m :
  (forall sec, sec ∈ sections st -> Section._id sec <> "") ->
  StudentsService.buildSectionMapping dto tc candidates st = Some m -> forall k v, m !! k = Some v -> v <> "".
Proof.
  unfold StudentsService.buildSectionMapping. rewrite Hno_target.
  intros Hids Hm. case_bool_decide as Hnil; [discriminate|]. injection Hm as <-.
  apply mapSection_fold_values.
  - intros t Ht. apply elem_of_filter_bool in Ht as [Ht _]. by apply Hids.
  - intros k v. by rewrite lookup_empty.
Qed.

End UnmappedSection.

Lemma mapM_Err_inv {A B} (f : A -> Result B) xs e :
  StudentsService.mapM f xs = Err e -> exists x, x ∈ xs /\ f x = Err e.
Proof.
  induction xs as [|x xs IH]; simpl; [discriminate|].
  destruct (f x) as [y|e'] eqn:Ef; simpl.
  - destruct (StudentsService.mapM f xs) as [ys|e'']; simpl; [discriminate|].
    intros [= <-]. destruct (IH eq_refl) as (x' & Hin & Hx'). exists x'. split; [by right | done].
  - intros [= <-]. exists x. split; [by left | done].
Qed.

Lemma mapM_fails {A B} (f : A -> Result B) xs x e :
  x ∈ xs -> f x = Err e -> exists e', StudentsService.mapM f xs = Err e'.
Proof.
  intros Hin Hx. induction xs as [|y xs IH]; [by apply elem_of_nil in Hin|].
  simpl. destruct (f y) as [b|e'] eqn:Ey; simpl; [|eauto].
  apply elem_of_cons in Hin as [->|Hin]; [congruence|].
  destruct (IH Hin) as [e' ->]. simpl. eauto.
Qed.

Lemma mapM_Ok_inv {A B} (f : A -> Result B) xs ys :
  StudentsService.mapM f xs = Ok ys -> Forall2 (fun x y => f x = Ok y) xs ys.
Proof.
  revert ys. induction xs as [|x xs IH]; simpl; intros ys H.
  - injection H as <-. constructor.
  - destruct (f x) as [y|] eqn:Ef; simpl in H; [|discriminate].
    destruct (StudentsService.mapM f xs) as [ys'|]; simpl in H; [|discriminate].
    injection H as <-. constructor; [done | by apply IH].
Qed.

Lemma Forall2_mapM_right {A B} (f : A -> Result B) xs ys y :
  Forall2 (fun x y => f x = Ok y) xs ys -> y ∈ ys -> exists x, x ∈ xs /\ f x = Ok y.
Proof.
  induction 1 as [|x0 y0 xs ys Hf _ IH]; intros Hy; [by apply elem_of_nil in Hy|].
  apply elem_of_cons in Hy as [->|Hy].
  - exists x0. split; [by left | done].
  - destruct (IH Hy) as (x & Hx & Hfx). exists x. split; [by right | done].
Qed.

Lemma Forall2_mapM_left {A B} (f : A -> Result B) xs ys x :
  Forall2 (fun x y => f x = Ok y) xs ys -> x ∈ xs -> exists y, y ∈ ys /\ f x = Ok y.
Proof.
  induction 1 as [|x0 y0 xs ys Hf _ IH]; intros Hx; [by apply elem_of_nil in Hx|].
  apply elem_of_cons in Hx as [->|Hx].
  - exists y0. split; [by left | done].
  - destruct (IH Hx) as (y & Hy & Hfx). exists y. split; [by right | done].
Qed.

Lemma truthy_false_Some v : JS.truthy (Some v) = false -> v = "".
Proof. destruct v; [done | discriminate]. Qed.

Lemma getTargetSectionId_Err dto mapping cur e :
  StudentsService.getTargetSectionId dto mapping cur = Err e ->
  JS.truthy (PromoteBulkDto.targetSectionId dto) = false
  /\ JS.truthy cur = true
  /\ exists m, mapping = Some m /\ JS.truthy (m !! JS.String_ cur) = false
               /\ e = BadRequestException (StudentsService.noMatchMessage (JS.String_ cur)).
Proof.
  unfold StudentsService.getTargetSectionId.
  destruct (JS.truthy (PromoteBulkDto.targetSectionId dto)); [discriminate|].
  destruct mapping as [m|]; [|discriminate].
  destruct (JS.truthy cur); [|discriminate].
  destruct (JS.truthy (m !! JS.String_ cur)) eqn:Em; [discriminate|].
  intros [= <-]. eauto 10.
Qed.

Lemma getTargetSectionId_unmapped dto m cur :
  JS.truthy (PromoteBulkDto.targetSectionId dto) = false ->
  JS.truthy cur = true -> m !! JS.String_ cur = None ->
  StudentsService.getTargetSectionId dto (Some m) cur
  = Err (BadRequestException (StudentsService.noMatchMessage (JS.String_ cur))).
Proof.
  intros Ht Hc Hm. unfold StudentsService.getTargetSectionId. by rewrite Ht, Hc, Hm.
Qed.

(** C6. A bulk promotion without an explicit target section, one of whose
    candidates sits in a section that has no section of the same name
    (case ignored) in the target class, fails with a validation error and
    writes nothing: no ledger entry, no snapshot. When the call reaches
    the transaction (the source year passes the gate, the target year is
    the next one, the target class is resolved) the error cites the
    section id of a candidate, and that section is an unmapped one. *)
Theorem promoteBulk_unmapped_section_aborts :
  forall dto headerAY st s,
    JS.truthy (PromoteBulkDto.targetSectionId dto) = false ->
    s ∈ candidatesOf dto headerAY st ->
    JS.truthy (Student.sectionId s) = true ->
    (forall tc, StudentsService.resolveTargetClass dto st = Ok tc ->
                noSameNameSection st tc (JS.String_ (Student.sectionId s))) ->
    (exists e, StudentsService.promoteBulk dto headerAY st = (Err e, st)
               /\ errorClass e = ValidationError)
    /\ (forall tc,
           JS.truthy (JS.orElse (PromoteBulkDto.fromAcademicYearId dto) headerAY) = true ->
           StudentsService.assertIsCurrentAcademicYear
             (JS.String_ (JS.orElse (PromoteBulkDto.fromAcademicYearId dto) headerAY)) st
           = Ok tt ->
           StudentsService.assertNextAcademicYear
             (JS.String_ (JS.orElse (PromoteBulkDto.fromAcademicYearId dto) headerAY))
             (PromoteBulkDto.toAcademicYearId dto) st = Ok tt ->
           StudentsService.resolveTargetClass dto st = Ok tc ->
           exists s',
             s' ∈ candidatesOf dto headerAY st
             /\ JS.truthy (Student.sectionId s') = true
             /\ ((forall sec, sec ∈ sections st -> Section._id sec <> "") ->
                 noSameNameSection st tc (JS.String_ (Student.sectionId s')))
             /\ StudentsService.promoteBulk dto headerAY st
                = (Err (BadRequestException
                          (StudentsService.noMatchMessage
                             (JS.String_ (Student.sectionId s')))), st)).
Proof.
  intros dto headerAY st s Hnt Hs Htr Hno.
  assert (Hcond : forall tc,
           JS.truthy (JS.orElse (PromoteBulkDto.fromAcademicYearId dto) headerAY) = true ->
           StudentsService.assertIsCurrentAcademicYear
             (JS.String_ (JS.orElse (PromoteBulkDto.fromAcademicYearId dto) headerAY)) st
           = Ok tt ->
           StudentsService.assertNextAcademicYear
             (JS.String_ (JS.orElse (PromoteBulkDto.fromAcademicYearId dto) headerAY))
             (PromoteBulkDto.toAcademicYearId dto) st = Ok tt ->
           StudentsService.resolveTargetClass dto st = Ok tc ->
           exists s',
             s' ∈ candidatesOf dto headerAY st
             /\ JS.truthy (Student.sectionId s') = true
             /\ ((forall sec, sec ∈ sections st -> Section._id sec <> "") ->
                 noSameNameSection st tc (JS.String_ (Student.sectionId s')))
             /\ StudentsService.promoteBulk dto headerAY st
                = (Err (BadRequestException
                          (StudentsService.noMatchMessage
                             (JS.String_ (Student.sectionId s')))), st)).
  { intros tc Hfrom Hgate Hnext Hclass.
    unfold StudentsService.promoteBulk. rewrite Hfrom. simpl. rewrite Hgate.
    fold (candidatesOf dto headerAY st).
    destruct (candidatesOf dto headerAY st) as [|c0 cs] eqn:Ec;
      [by apply elem_of_nil in Hs|].
    rewrite <- Ec in *. clear c0 cs Ec. rewrite Hnext. simpl. rewrite Hclass.
    destruct (mapping_exists dto st (candidatesOf dto headerAY st) tc Hnt s Hs Htr)
      as [m Hm].
    rewrite Hm.
    pose proof (mapping_unmapped dto st _ tc Hnt m _ Hm (Hno tc Hclass)) as Hnone.
    set (f := StudentsService.enrollmentDoc dto tc (Some m)).
    assert (Hfs : f s = Err (BadRequestException
                    (StudentsService.noMatchMessage (JS.String_ (Student.sectionId s))))).
    { unfold f, StudentsService.enrollmentDoc.
      by rewrite (getTargetSectionId_unmapped dto m _ Hnt Htr Hnone). }
    destruct (mapM_fails f _ s _ Hs Hfs) as [e' He'].
    destruct (mapM_Err_inv f _ _ He') as (s' & Hs' & Hfs').
    unfold f, StudentsService.enrollmentDoc in Hfs'.
    destruct (StudentsService.getTargetSectionId dto (Some m) (Student.sectionId s'))
      as [sec|e0] eqn:Eg; simpl in Hfs'; [discriminate|]. injection Hfs' as ->.
    apply getTargetSectionId_Err in Eg as (_ & Htr' & m' & [= <-] & Hm' & ->).
    exists s'. split; [done|]. split; [done|]. split.
    - intros Hids. eapply mapping_None_unmapped; eauto.
      destruct (m !! JS.String_ (Student.sectionId s')) as [v|] eqn:Ev; [|done].
      exfalso. apply truthy_false_Some in Hm'.
      by apply (mapping_values dto st _ tc Hnt m Hids Hm _ _ Ev).
    - unfold withTransaction. fold f. by rewrite He'. }
  split; [|exact Hcond].
  destruct (JS.truthy (JS.orElse (PromoteBulkDto.fromAcademicYearId dto) headerAY))
    eqn:Hfrom.
  2:{ unfold StudentsService.promoteBulk. rewrite Hfrom. simpl. eauto. }
  destruct (StudentsService.assertIsCurrentAcademicYear
              (JS.String_ (JS.orElse (PromoteBulkDto.fromAcademicYearId dto) headerAY)) st)
    as [[]|e] eqn:Hgate.
  2:{ unfold StudentsService.promoteBulk. rewrite Hfrom. simpl. rewrite Hgate.
      eexists. split; [done|]. eapply assertIsCurrentAcademicYear_Err, Hgate. }
  destruct (StudentsService.assertNextAcademicYear
              (JS.String_ (JS.orElse (PromoteBulkDto.fromAcademicYearId dto) headerAY))
              (PromoteBulkDto.toAcademicYearId dto) st) as [[]|e] eqn:Hnext.
  2:{ unfold StudentsService.promoteBulk. rewrite Hfrom. simpl. rewrite Hgate.
      fold (candidatesOf dto headerAY st).
      destruct (candidatesOf dto headerAY st) as [|c0 cs] eqn:Ec;
        [by apply elem_of_nil in Hs|].
      rewrite Hnext. simpl.
      eexists. split; [done|]. eapply assertNextAcademicYear_Err, Hnext. }
  destruct (StudentsService.resolveTargetClass dto st) as [tc|e] eqn:Hclass.
  2:{ unfold StudentsService.promoteBulk. rewrite Hfrom. simpl. rewrite Hgate.
      fold (candidatesOf dto headerAY st).
      destruct (candidatesOf dto headerAY st) as [|c0 cs] eqn:Ec;
        [by apply elem_of_nil in Hs|].
      rewrite Hnext. simpl. rewrite Hclass.
      eexists. split; [done|]. eapply resolveTargetClass_Err, Hclass. }
  destruct (Hcond tc eq_refl eq_refl eq_refl) as (s' & _ & _ & _ & ->); [done|].
  eexists. split; [done|]. reflexivity.
Qed.

Lemma promoteBulk_unmapped_section_witness :
  exists e,
    StudentsService.promoteBulk (PromoteBulkDto.mk None "c9" None None "y25" None None)
      (Some "y24") Demo.school = (Err e, Demo.school)
    /\ errorClass e = ValidationError.
Proof.
  refine (proj1 (promoteBulk_unmapped_section_aborts
                   (PromoteBulkDto.mk None "c9" None None "y25" None None)
                   (Some "y24") Demo.school (Demo.cid "y24") eq_refl _ eq_refl _)).
  - vm_compute. do 2 right. left.
  - intros tc Htc. vm_compute in Htc. injection Htc as <-.
    intros src t Hsrc Hid Ht Hc.
    unfold Demo.school, Demo.catalog in Hsrc, Ht. simpl in Hsrc, Ht.
    repeat (apply elem_of_cons in Ht as [->|Ht]); try discriminate;
      try (by apply elem_of_nil in Ht).
    repeat (apply elem_of_cons in Hsrc as [->|Hsrc]); try discriminate;
      try (by apply elem_of_nil in Hsrc).
Defined.


(* ===================================================================== *)
(** ** The ledger under every operation *)
(* ===================================================================== *)

Lemma withTransaction_cases {A} (body : Store -> Result (A * Store)) st :
  (exists a st', body st = Ok (a, st') /\ withTransaction body st = (Ok a, st'))
  \/ (exists e, body st = Err e /\ withTransaction body st = (Err e, st)).
Proof.
  unfold withTransaction. destruct (body st) as [[a st']|e]; [left | right]; eauto.
Qed.

Lemma catchDupKey_snd {A} (r : Result A * Store) : (StudentsService.catchDupKey r).2 = r.2.
Proof. by destruct r as [[a|e] st]. Qed.

(** [create] appends at most one entry. *)
Lemma create_appended dto newId yr st :
  appended (enrollments st) (enrollments (StudentsService.create dto newId yr st).2).
Proof.
  unfold StudentsService.create.
  destruct (existsb _ _); [apply appended_refl|].
  match goal with |- context [match ?r with Ok _ => _ | Err _ => _ end] =>
    destruct r as [rollNumber|e] end; [|apply appended_refl].
  rewrite catchDupKey_snd.
  match goal with |- context [withTransaction ?b st] =>
    destruct (withTransaction_cases b st) as [(res & st' & Hb & ->)|(err & _ & ->)] end;
    [|apply appended_refl].
  simpl.
  inv_ok Hb. simplify_eq/=.
  eapply appended_one. exact Hstep0.
Qed.

Lemma promote_appended sid c s y st :
  appended (enrollments st) (enrollments (StudentsService.promote sid c s y st).2).
Proof.
  unfold StudentsService.promote.
  destruct (findStudent sid (students st)) as [student|]; [|apply appended_refl].
  match goal with |- context [match ?r with Ok _ => _ | Err _ => _ end] =>
    destruct r as [[]|e] end; [|apply appended_refl].
  match goal with |- context [withTransaction ?b st] =>
    destruct (withTransaction_cases b st) as [(res & st' & Hb & ->)|(err & _ & ->)] end;
    [|apply appended_refl].
  simpl.
  inv_ok Hb. simplify_eq/=.
  eapply appended_one. exact Hstep.
Qed.

Lemma reAdmit_appended sid c s y st :
  appended (enrollments st) (enrollments (StudentsService.reAdmit sid c s y st).2).
Proof.
  unfold StudentsService.reAdmit.
  destruct (findStudent sid (students st)) as [student|]; [|apply appended_refl].
  destruct (bool_decide _); [apply appended_refl|].
  destruct (StudentsService.findClass c st); [|apply appended_refl].
  destruct (StudentsService.findSection s st); [|apply appended_refl].
  match goal with |- context [withTransaction ?b st] =>
    destruct (withTransaction_cases b st) as [(res & st' & Hb & ->)|(err & _ & ->)] end;
    [|apply appended_refl].
  simpl.
  inv_ok Hb. simplify_eq/=.
  eapply appended_one. exact Hstep.
Qed.

Lemma promoteBulk_appended dto h st :
  appended (enrollments st) (enrollments (StudentsService.promoteBulk dto h st).2).
Proof.
  unfold StudentsService.promoteBulk.
  destruct (negb _); [apply appended_refl|].
  destruct (StudentsService.assertIsCurrentAcademicYear _ st); [|apply appended_refl].
  destruct (List.filter _ _) as [|c0 cs]; [apply appended_refl|].
  match goal with |- context [match ?r with Ok _ => _ | Err _ => _ end] =>
    destruct r as [tc|e] end; [|apply appended_refl].
  match goal with |- context [withTransaction ?b st] =>
    destruct (withTransaction_cases b st) as [(res & st' & Hb & ->)|(err & _ & ->)] end;
    [|apply appended_refl].
  simpl.
  inv_ok Hb. simplify_eq/=.
  apply insertMany_appended.
Qed.

Lemma reAdmitBulkStep_appended view committed cd sd c s y acc student :
  appended (enrollments acc.1.1)
    (enrollments (StudentsService.reAdmitBulkStep view committed cd sd c s y acc student).1.1).
Proof.
  destruct acc as [[work n] errs]. unfold StudentsService.reAdmitBulkStep.
  destruct (bool_decide _); [apply appended_refl|].
  destruct (Enrollment_create _ _ _ _ _ _) as [[e enrs]|err] eqn:Ec; [|apply appended_refl].
  destruct (Student_update _ _ _) as [[o studs]|err]; simpl;
    eapply appended_one; exact Ec.
Qed.

Lemma reAdmitBulk_fold_appended view committed cd sd c s y xs acc :
  appended (enrollments acc.1.1)
    (enrollments
       (fold_left (StudentsService.reAdmitBulkStep view committed cd sd c s y) xs acc).1.1).
Proof.
  revert acc. induction xs as [|x xs IH]; intros acc; simpl; [apply appended_refl|].
  eapply appended_trans; [apply reAdmitBulkStep_appended | apply IH].
Qed.

Lemma reAdmitBulk_appended view ids c s y st :
  appended (enrollments st) (enrollments (StudentsService.reAdmitBulk view ids c s y st).2).
Proof.
  unfold StudentsService.reAdmitBulk.
  destruct ids as [|i ids]; [apply appended_refl|].
  destruct (StudentsService.findClass c st) as [cd|]; [|apply appended_refl].
  destruct (StudentsService.findSection s st) as [sd|]; [|apply appended_refl].
  destruct (List.filter _ _) as [|x xs] eqn:Ef; [apply appended_refl|].
  pose proof (reAdmitBulk_fold_appended view st cd sd c s y (x :: xs) (st, 0, [])) as H.
  destruct (fold_left _ _ _) as [[work n] errs]. exact H.
Qed.

(** The one operation that rewrites a ledger entry: the general update. *)
Lemma update_ledger id dto st :
  enrollments (StudentsService.update id dto st).2 = enrollments st
  \/ (exists s,
         findStudent id (students st) = Some s
         /\ (is_Some (UpdateStudentDto.classId dto) \/ is_Some (UpdateStudentDto.sectionId dto))
         /\ enrollments (StudentsService.update id dto st).2
            = StudentsService.Enrollment_setPlacement id (Student.academicYearId s)
                (JS.nullish (UpdateStudentDto.classId dto) (Student.classId s))
                (JS.nullish (UpdateStudentDto.sectionId dto) (Student.sectionId s))
                (enrollments st)).
Proof.
  unfold StudentsService.update.
  match goal with |- context [if ?b then (throw _, st) else _] => destruct b end; [by left|].
  match goal with |- context [match ?r with Ok _ => _ | Err _ => _ end] =>
    destruct r as [[]|e] end; [|by left].
  destruct (bool_decide (is_Some (UpdateStudentDto.classId dto))
            || bool_decide (is_Some (UpdateStudentDto.sectionId dto))) eqn:Eb.
  - destruct (findStudent id (students st)) as [cur|] eqn:Ecur; simpl; [|by left].
    right. exists cur. split; [done|]. split.
    { apply orb_true_iff in Eb as [Eb|Eb]; apply bool_decide_eq_true in Eb; eauto. }
    destruct (Student_update _ _ _) as [[u studs]|e]; reflexivity.
  - left. simpl. destruct (Student_update _ _ _) as [[u studs]|e]; reflexivity.
Qed.

(** Every operation but the update only appends to the ledger. *)
Lemma exec_appended op st :
  (forall id dto, op <> OpUpdate id dto) ->
  appended (enrollments st) (enrollments (exec op st)).
Proof.
  intros Hop. destruct op; simpl.
  - apply create_appended.
  - by destruct (Hop id dto).
  - unfold StudentsService.updateDocuments. destruct (findStudent _ _); apply appended_refl.
  - unfold StudentsService.updatePassword. destruct (findStudent _ _); apply appended_refl.
  - apply appended_refl.
  - apply promote_appended.
  - apply promoteBulk_appended.
  - apply reAdmit_appended.
  - apply reAdmitBulk_appended.
  - apply appended_refl.
Qed.

Lemma updateFirst_lookup {A} (p : A -> bool) f (l : list A) i x :
  l !! i = Some x ->
  exists x', updateFirst p f l !! i = Some x' /\ (x' = x \/ (p x = true /\ x' = f x)).
Proof.
  revert i. induction l as [|y l IH]; intros i H; [done|]. simpl.
  destruct (p y) eqn:Ep.
  - destruct i as [|i]; simpl in *; [|eauto].
    injection H as <-. eauto.
  - destruct i as [|i]; simpl in *; [eauto|]. by apply IH.
Qed.

Lemma updateFirst_fmap {A B} (p : A -> bool) (f : A -> A) (g : A -> B) (l : list A) :
  (forall x, g (f x) = g x) -> g <$> updateFirst p f l = g <$> l.
Proof.
  intros H. induction l as [|y l IH]; simpl; [done|].
  destruct (p y); simpl; [by rewrite H | by f_equal].
Qed.

Lemma setPlacement_keys id ay c s l :
  rollKey <$> StudentsService.Enrollment_setPlacement id ay c s l = rollKey <$> l.
Proof. apply updateFirst_fmap. done. Qed.

(** The unique index on [(academicYearId, rollNumber)] survives every
    operation. *)
Lemma exec_ledgerUnique op st :
  ledgerUnique (enrollments st) -> ledgerUnique (enrollments (exec op st)).
Proof.
  intros Hu.
  assert (Hcases : (exists id dto, op = OpUpdate id dto)
                   \/ (forall id dto, op <> OpUpdate id dto)).
  { destruct op; try (right; intros; discriminate). left. eauto. }
  destruct Hcases as [(id & dto & ->)|Hn].
  - simpl. destruct (update_ledger id dto st) as [->|(s & _ & _ & ->)]; [done|].
    unfold ledgerUnique. by rewrite setPlacement_keys.
  - eapply appended_unique; [|exact Hu]. by apply exec_appended.
Qed.

Lemma reachable_ledgerUnique st : reachable st -> ledgerUnique (enrollments st).
Proof.
  induction 1 as [ys cs ss | st op _ IH]; [apply NoDup_nil_2 | by apply exec_ledgerUnique].
Qed.

Lemma NoDup_fmap_elem_inj {A B} (f : A -> B) (l : list A) x y :
  NoDup (f <$> l) -> x ∈ l -> y ∈ l -> f x = f y -> x = y.
Proof.
  intros Hnd Hx Hy Hf.
  apply list_elem_of_lookup in Hx as [i Hi], Hy as [j Hj].
  assert (i = j); [|congruence].
  eapply NoDup_lookup; [exact Hnd | |].
  - rewrite list_lookup_fmap, Hi. reflexivity.
  - rewrite list_lookup_fmap, Hj. simpl. by rewrite Hf.
Qed.

(** C5, as amended. A ledger entry, once created, keeps its place, its
    [studentId], its [academicYearId] and its [rollNumber] under every
    operation of the service, and every operation but one leaves it
    untouched: the general student update, when it is given a [classId]
    or a [sectionId], rewrites the [classId] and [sectionId] of the entry
    of that student for the student's snapshot year. *)
Theorem ledger_entries_fixed_except_placement_update :
  forall op st i e,
    enrollments st !! i = Some e ->
    exists e',
      enrollments (exec op st) !! i = Some e'
      /\ Enrollment.studentId e' = Enrollment.studentId e
      /\ Enrollment.academicYearId e' = Enrollment.academicYearId e
      /\ Enrollment.rollNumber e' = Enrollment.rollNumber e
      /\ ((forall id dto, op <> OpUpdate id dto) -> e' = e)
      /\ (forall id dto,
             op = OpUpdate id dto -> e' <> e ->
             Enrollment.studentId e = id
             /\ (is_Some (UpdateStudentDto.classId dto)
                 \/ is_Some (UpdateStudentDto.sectionId dto))
             /\ exists s, findStudent id (students st) = Some s
                          /\ Student.academicYearId s = Some (Enrollment.academicYearId e)).
Proof.
  intros op st i e Hi.
  assert (Hcases : (exists id dto, op = OpUpdate id dto)
                   \/ (forall id dto, op <> OpUpdate id dto)).
  { destruct op; try (right; intros; discriminate). left. eauto. }
  destruct Hcases as [(id & dto & ->)|Hn].
  - simpl. destruct (update_ledger id dto st) as [->|(s & Hs & Hgiven & ->)].
    + exists e. repeat split; done.
    + unfold StudentsService.Enrollment_setPlacement.
      destruct (updateFirst_lookup
                  (fun e0 => eqs (Enrollment.studentId e0) id
                             && eqo (Some (Enrollment.academicYearId e0))
                                  (Student.academicYearId s))
                  (fun e0 => Enrollment.mk (Enrollment.studentId e0)
                               (Enrollment.academicYearId e0)
                               (default (Enrollment.classId e0)
                                  (JS.nullish (UpdateStudentDto.classId dto)
                                     (Student.classId s)))
                               (default (Enrollment.sectionId e0)
                                  (JS.nullish (UpdateStudentDto.sectionId dto)
                                     (Student.sectionId s)))
                               (Enrollment.rollNumber e0))
                  (enrollments st) i e Hi) as (e' & He' & [->|[Hp ->]]).
      * exists e. repeat split; done.
      * eexists. split; [exact He'|]. simpl.
        split; [done|]. split; [done|]. split; [done|]. split.
        -- intros Hno. by destruct (Hno id dto).
        -- intros id0 dto0 [= <- <-] _.
           apply andb_true_iff in Hp as [Hp1 Hp2].
           apply eqs_true in Hp1. apply eqo_true in Hp2.
           split; [done|]. split; [done|]. exists s. by split.
  - destruct (appended_prefix _ _ (exec_appended op st Hn)) as [added Hl].
    exists e. rewrite Hl. split; [by apply lookup_app_l_Some|].
    split; [done|]. split; [done|]. split; [done|]. split; [done|].
    intros id dto ->. by destruct (Hn id dto).
Qed.

Lemma ledger_entries_fixed_witness :
  exists e',
    enrollments (exec (OpPromote "ann" "c10" "s10a" "y25") Demo.school) !! 0%nat = Some e'
    /\ e' = Demo.seat (Demo.ann "y24").
Proof.
  destruct (ledger_entries_fixed_except_placement_update
              (OpPromote "ann" "c10" "s10a" "y25") Demo.school 0%nat
              (Demo.seat (Demo.ann "y24")) eq_refl)
    as (e' & He' & _ & _ & _ & Hsame & _).
  exists e'. split; [exact He'|]. apply Hsame. intros id dto. discriminate.
Defined.

(** C5, as written, fails: the general update of a student, given a new
    class, rewrites the class of the student's existing ledger entry. *)
Lemma ledger_immutable_counterexample :
  enrollments Demo.school !! 0%nat = Some (Enrollment.mk "ann" "y24" "c9" "s9a" "9-A-001")
  /\ enrollments
       (exec (OpUpdate "ann" (UpdateStudentDto.mk None None None (Some "c10") None None))
          Demo.school) !! 0%nat
     = Some (Enrollment.mk "ann" "y24" "c10" "s9a" "9-A-001").
Proof. split; reflexivity. Qed.

(** *** Roll numbers *)

Lemma filter_none {A} (p : A -> bool) l :
  (forall x, x ∈ l -> p x = false) -> List.filter p l = [].
Proof.
  intros H. induction l as [|x l IH]; simpl; [done|].
  rewrite (H x) by (by left). apply IH. intros y Hy. apply H. by right.
Qed.

(** C8. For class "10" and section "a" the first roll number generated
    in a year that has no entry with the prefix "10-A-" is "10-A-001";
    once an entry with that number is in the ledger, the next generation
    for the same class, section and year gives "10-A-002"; and in every
    state the service can reach, no two ledger entries of one year carry
    the same roll number, so no two students hold the same roll number in
    a year. *)
Theorem roll_numbers_sequential_and_unique :
  (forall l y,
      (forall e, e ∈ l -> Enrollment.academicYearId e = y ->
                 String.prefix "10-A-" (Enrollment.rollNumber e) = false) ->
      generateRollNumber l "10" "a" y = "10-A-001")
  /\ (forall l y e,
         (forall x, x ∈ l -> Enrollment.academicYearId x = y ->
                    String.prefix "10-A-" (Enrollment.rollNumber x) = false) ->
         Enrollment.academicYearId e = y ->
         Enrollment.rollNumber e = "10-A-001" ->
         generateRollNumber (l ++ [e]) "10" "a" y = "10-A-002")
  /\ (forall st,
         reachable st ->
         forall e1 e2,
           e1 ∈ enrollments st -> e2 ∈ enrollments st ->
           Enrollment.academicYearId e1 = Enrollment.academicYearId e2 ->
           Enrollment.rollNumber e1 = Enrollment.rollNumber e2 ->
           e1 = e2 /\ Enrollment.studentId e1 = Enrollment.studentId e2).
Proof.
  assert (Hfilter : forall l y,
            (forall e, e ∈ l -> Enrollment.academicYearId e = y ->
                       String.prefix "10-A-" (Enrollment.rollNumber e) = false) ->
            List.filter (fun e => eqs (Enrollment.academicYearId e) y
                                  && String.prefix "10-A-" (Enrollment.rollNumber e)) l = []).
  { intros l y H. apply filter_none. intros x Hx.
    destruct (eqs (Enrollment.academicYearId x) y) eqn:E; [|done].
    apply eqs_true in E. simpl. by apply H. }
  split; [|split].
  - intros l y H. unfold generateRollNumber.
    change (JS.trim (JS.toUpperCase "10") +:+ "-" +:+ JS.trim (JS.toUpperCase "a") +:+ "-")
      with "10-A-".
    rewrite (Hfilter l y H). reflexivity.
  - intros l y e H Hy Hr. unfold generateRollNumber.
    change (JS.trim (JS.toUpperCase "10") +:+ "-" +:+ JS.trim (JS.toUpperCase "a") +:+ "-")
      with "10-A-".
    rewrite List.filter_app, (Hfilter l y H). simpl.
    rewrite Hy, Hr, eqs_refl. simpl. rewrite Hr. reflexivity.
  - intros st Hreach e1 e2 H1 H2 Hy Hr.
    assert (e1 = e2); [|by subst].
    eapply (NoDup_fmap_elem_inj rollKey); [exact (reachable_ledgerUnique st Hreach)|done..|].
    unfold rollKey. by rewrite Hy, Hr.
Qed.

Lemma roll_numbers_sequential_witness :
  generateRollNumber (enrollments Demo.school) "10" "a" "y25" = "10-A-001"
  /\ generateRollNumber
       (enrollments Demo.school ++ [Enrollment.mk "ann" "y25" "c10" "s10a" "10-A-001"])
       "10" "a" "y25" = "10-A-002".
Proof.
  split.
  - apply (proj1 roll_numbers_sequential_and_unique). intros e He _.
    unfold Demo.school, Demo.catalog in He. simpl in He.
    repeat (apply elem_of_cons in He as [->|He]); try reflexivity.
    by apply elem_of_nil in He.
  - apply (proj1 (proj2 roll_numbers_sequential_and_unique)); [|reflexivity..].
    intros e He _. unfold Demo.school, Demo.catalog in He. simpl in He.
    repeat (apply elem_of_cons in He as [->|He]); try reflexivity.
    by apply elem_of_nil in He.
Defined.


(* ===================================================================== *)
(** ** Bulk re-admission *)
(* ===================================================================== *)




Section ReAdmitBulkLoop.

Variable view : ReadView.
Variable st : Store.
Variable cd : Class.t.
Variable sd : Section.t.
Variables c s y : string.






End ReAdmitBulkLoop.



Lemma findStudent_is_Some x l : x ∈ l -> is_Some (findStudent (Student._id x) l).
Proof.
  intros Hx. destruct (findStudent (Student._id x) l) eqn:E; [eauto|].
  pose proof (findOne_None _ _ x E Hx) as Hp. unfold hasId in Hp.
  by rewrite eqs_refl in Hp.
Qed.

Lemma filter_sublist {A} (p : A -> bool) l : List.filter p l `sublist_of` l.
Proof.
  induction l as [|x l IH]; simpl; [done|].
  destruct (p x); [by apply sublist_skip | by apply sublist_cons].
Qed.





Lemma filter_all {A} (p : A -> bool) l :
  (forall x, x ∈ l -> p x = true) -> List.filter p l = l.
Proof.
  intros H. induction l as [|x l IH]; simpl; [done|].
  rewrite (H x) by (by left). f_equal. apply IH. intros z Hz. apply H. by right.
Qed.



(** The same call when the reads without a session see only what was
    committed before the transaction: every roll-number query answers
    "10-A-002", so the first new student is re-admitted and the later
    ones fail on the unique index; these are failures other than "already
    enrolled", and the loop still goes through all five students. *)
Example reAdmitBulk_committed_reads :
  (StudentsService.reAdmitBulk SeesCommitted ["ann"; "bob"; "cid"; "dan"; "eve"]
     "c10" "s10a" "y25" Demo.schoolOfFive).1
  = Ok (ReAdmitBulkResult.mk 5 1 4
          (Some [BulkError.mk "bob" "Bob" "Already enrolled for this year";
                 BulkError.mk "cid" "Cid" "E11000 duplicate key error";
                 BulkError.mk "dan" "Dan" "E11000 duplicate key error";
                 BulkError.mk "eve" "Eve" "E11000 duplicate key error"])).
Proof. reflexivity. Qed.


(* ===================================================================== *)
(** ** Snapshot and ledger agree after promotion and re-admission *)
(* ===================================================================== *)


Lemma bulkWrite_other ops l n l' id :
  (forall op s, op ∈ ops -> Student._id (op.2 s) = Student._id s) ->
  StudentsService.bulkWrite ops l = Ok (n, l') ->
  id ∉ (fst <$> ops) ->
  findStudent id l' = findStudent id l.
Proof.
  intros Hid. revert l n l'. induction ops as [|[id0 f] ops IH]; intros l n l' Hb Hnot.
  - simpl in Hb. by injection Hb as _ <-.
  - simpl in Hb.
    destruct (Student_update id0 f l) as [[o l1]|] eqn:Hstep; simpl in Hb; [|discriminate].
    destruct (StudentsService.bulkWrite ops l1) as [[n2 l2]|] eqn:Hstep0; simpl in Hb;
      [|discriminate].
    injection Hb as _ <-.
    rewrite fmap_cons in Hnot. apply not_elem_of_cons in Hnot as [Hne Hnot].
    assert (Hid' : forall op s, op ∈ ops -> Student._id (op.2 s) = Student._id s).
    { intros op s1 Hop. apply Hid. by right. }
    rewrite (IH Hid' _ _ _ Hstep0 Hnot).
    apply Student_update_inv in Hstep as [(_ & _ & ->)|(s0 & Hs0 & _ & ->)]; [done|].
    apply findStudent_updateFirst_other; [done|].
    pose proof (Hid (id0, f) s0 ltac:(by left)) as Hf. simpl in Hf. rewrite Hf.
    eapply findStudent_id, Hs0.
Qed.

Lemma bulkWrite_find ops l n l' id f s0 :
  (forall op s, op ∈ ops -> Student._id (op.2 s) = Student._id s) ->
  NoDup (fst <$> ops) ->
  StudentsService.bulkWrite ops l = Ok (n, l') ->
  (id, f) ∈ ops -> findStudent id l = Some s0 ->
  findStudent id l' = Some (f s0).
Proof.
  intros Hid. revert l n l'. induction ops as [|[id0 f0] ops IH];
    intros l n l' Hnd Hb Hin Hs0; [by apply elem_of_nil in Hin|].
  simpl in Hb.
  destruct (Student_update id0 f0 l) as [[o l1]|] eqn:Hstep; simpl in Hb; [|discriminate].
  destruct (StudentsService.bulkWrite ops l1) as [[n2 l2]|] eqn:Hstep0; simpl in Hb;
    [|discriminate].
  injection Hb as _ <-. rewrite fmap_cons in Hnd. simpl in Hnd.
  apply NoDup_cons in Hnd as [Hnot Hnd].
  assert (Hid' : forall op s, op ∈ ops -> Student._id (op.2 s) = Student._id s).
  { intros op s1 Hop. apply Hid. by right. }
  apply elem_of_cons in Hin as [[= -> ->]|Hin].
  - rewrite (bulkWrite_other ops l1 n2 l2 id0 Hid' Hstep0 Hnot).
    apply Student_update_inv in Hstep as [(Hn & _)|(s1 & Hs1 & _ & ->)]; [congruence|].
    rewrite Hs0 in Hs1. injection Hs1 as <-.
    apply findStudent_updateFirst_same; [eauto|].
    pose proof (Hid (id0, f0) s0 ltac:(by left)) as Hf. simpl in Hf. rewrite Hf.
    eapply findStudent_id, Hs0.
  - apply (IH Hid' l1 n2 l2 Hnd Hstep0 Hin).
    assert (Hne : id <> id0).
    { intros ->. apply Hnot. apply list_elem_of_fmap. by exists (id0, f). }
    apply Student_update_inv in Hstep as [(_ & _ & ->)|(s1 & Hs1 & _ & ->)]; [done|].
    rewrite findStudent_updateFirst_other; [done | done |].
    pose proof (Hid (id0, f0) s1 ltac:(by left)) as Hf. simpl in Hf. rewrite Hf.
    eapply findStudent_id, Hs1.
Qed.

Lemma findStudent_unique st x :
  uniqueStudentIds st -> x ∈ students st ->
  findStudent (Student._id x) (students st) = Some x.
Proof.
  intros Hu Hx. destruct (findStudent_is_Some x _ Hx) as [x' Hx'].
  rewrite Hx'. f_equal.
  eapply (NoDup_fmap_elem_inj Student._id); [exact Hu | eapply findStudent_elem, Hx' | done |].
  eapply findStudent_id, Hx'.
Qed.

Section BulkPromotion.

Variable dto : PromoteBulkDto.t.
Variable headerAY : option string.
Variable st : Store.

(** What a bulk promotion that returned did. *)
Lemma promoteBulk_Ok_inv res st' :
  StudentsService.promoteBulk dto headerAY st = (Ok res, st') ->
  (candidatesOf dto headerAY st = [] /\ st' = st)
  \/ (exists tc docs bulkOps,
         let mapping := StudentsService.buildSectionMapping dto tc (candidatesOf dto headerAY st) st in
         StudentsService.mapM (StudentsService.enrollmentDoc dto tc mapping) (candidatesOf dto headerAY st) = Ok docs
         /\ StudentsService.mapM (StudentsService.updateOneOp dto tc mapping) (candidatesOf dto headerAY st) = Ok bulkOps
         /\ (exists n, StudentsService.bulkWrite bulkOps (students st) = Ok (n, students st'))
         /\ enrollments st' = Enrollment_insertMany_unordered docs (enrollments st)).
Proof.
  unfold StudentsService.promoteBulk.
  destruct (negb _); [discriminate|].
  destruct (StudentsService.assertIsCurrentAcademicYear _ st); [|discriminate].
  fold (candidatesOf dto headerAY st).
  destruct (decide (candidatesOf dto headerAY st = [])) as [Hnil|Hne].
  { rewrite Hnil. intros [= _ <-]. by left. }
  assert (Hshape : forall {A} (u v : A),
             match candidatesOf dto headerAY st with [] => u | _ :: _ => v end = v).
  { intros A u v. by destruct (candidatesOf dto headerAY st). }
  rewrite Hshape. clear Hshape.
  match goal with |- context [match ?r with Ok _ => _ | Err _ => _ end] =>
    destruct r as [tc|e] end; [|discriminate].
  unfold withTransaction.
  match goal with |- context [StudentsService.mapM ?f ?cs ≫= _] =>
    destruct (StudentsService.mapM f cs) as [docs|] eqn:Ed end;
    simpl; [|discriminate].
  match goal with |- context [StudentsService.mapM ?f ?cs ≫= _] =>
    destruct (StudentsService.mapM f cs) as [bulkOps|] eqn:Eo end;
    simpl; [|discriminate].
  destruct (StudentsService.bulkWrite bulkOps (students st)) as [[n studs]|] eqn:Eb;
    simpl; [|discriminate].
  intros [= _ <-]. right. exists tc, docs, bulkOps. simpl.
  split; [exact Ed|]. split; [exact Eo|]. split; [by exists n | done].
Qed.

Lemma updateOneOp_ids tc mapping xs ops :
  Forall2 (fun x op => StudentsService.updateOneOp dto tc mapping x = Ok op) xs ops ->
  ops.*1 = Student._id <$> xs
  /\ forall op s, op ∈ ops -> Student._id (op.2 s) = Student._id s.
Proof.
  induction 1 as [|x op xs ops Hop _ [IH1 IH2]]; [split; [done|]|].
  - intros op s Hop. by apply elem_of_nil in Hop.
  - unfold StudentsService.updateOneOp in Hop.
    destruct (StudentsService.getTargetSectionId _ _ _) as [sec|]; simpl in Hop;
      [|discriminate].
    injection Hop as <-. split; [rewrite !fmap_cons; simpl; by f_equal|].
    intros op s0 Hin. apply elem_of_cons in Hin as [->|Hin]; [done | by apply IH2].
Qed.


End BulkPromotion.






(* ===================================================================== *)
(** ** The student collection under every operation *)
(* ===================================================================== *)

Lemma studentsStep_trans l1 l2 l3 :
  studentsStep l1 l2 -> studentsStep l2 l3 -> studentsStep l1 l3.
Proof.
  intros H12 H23. induction H23; [done | | |].
  - by eapply studentsStep_update.
  - by eapply studentsStep_insert.
  - by eapply studentsStep_delete.
Qed.

Lemma updateFirst_ids id s' l :
  Student._id s' = id ->
  Student._id <$> updateFirst (hasId id) (fun _ => s') l = Student._id <$> l.
Proof.
  intros Hid. induction l as [|x l IH]; simpl; [done|].
  destruct (hasId id x) eqn:Ex; simpl; [|by f_equal].
  apply eqs_true in Ex. by rewrite Hid, Ex.
Qed.

Lemma updateFirst_elem {A} (p : A -> bool) (f : A -> A) l x :
  x ∈ updateFirst p f l -> x ∈ l \/ exists x0, x0 ∈ l /\ p x0 = true /\ x = f x0.
Proof.
  induction l as [|z l IH]; simpl; [by left|].
  destruct (p z) eqn:Ep.
  - intros Hx. apply elem_of_cons in Hx as [->|Hx].
    + right. exists z. split; [by left | done].
    + left. by right.
  - intros Hx. apply elem_of_cons in Hx as [->|Hx]; [left; by left|].
    destruct (IH Hx) as [H|(x0 & H0 & Hp & ->)]; [left; by right|].
    right. exists x0. split; [by right | done].
Qed.

Lemma removeFirst_sublist {A} (p : A -> bool) l : removeFirst p l `sublist_of` l.
Proof.
  induction l as [|x l IH]; simpl; [done|].
  destruct (p x); [by apply sublist_cons | by apply sublist_skip].
Qed.

(** Unique ids and trimmed roll numbers are kept by every change of the
    student collection. *)
Lemma studentsStep_wellformed l l' :
  studentsStep l l' ->
  NoDup (Student._id <$> l) /\ (forall x, x ∈ l -> trimmed (Student.rollNumber x)) ->
  NoDup (Student._id <$> l') /\ (forall x, x ∈ l' -> trimmed (Student.rollNumber x)).
Proof.
  induction 1 as [|l1 id s0 s' _ IH Hs0 Hid Ht|l1 s _ IH Hnew Ht|l1 id _ IH];
    intros Hwf; [done|..]; destruct (IH Hwf) as [Hnd Htr].
  - split; [by rewrite updateFirst_ids|].
    intros x Hx. apply updateFirst_elem in Hx as [Hx|(x0 & Hx0 & Hp & ->)]; [by apply Htr|].
    apply Ht, Htr. eapply findStudent_elem, Hs0.
  - split.
    + rewrite fmap_app. apply NoDup_app. split; [done|]. split; [|apply NoDup_singleton].
      intros i Hi Hi'. apply list_elem_of_singleton in Hi'. by subst.
    + intros x Hx. apply elem_of_app in Hx as [Hx|Hx]; [by apply Htr|].
      by apply list_elem_of_singleton in Hx as ->.
  - split.
    + eapply sublist_NoDup; [exact Hnd|]. apply fmap_sublist, removeFirst_sublist.
    + intros x Hx. apply Htr. eapply elem_of_sublist; [exact Hx | apply removeFirst_sublist].
Qed.

Lemma Student_update_step id f l o l' :
  Student_update id f l = Ok (o, l') ->
  (forall s0, findStudent id l = Some s0 ->
              Student._id (f s0) = id
              /\ (trimmed (Student.rollNumber s0) -> trimmed (Student.rollNumber (f s0)))) ->
  studentsStep l l'.
Proof.
  intros Hu Hf. apply Student_update_inv in Hu as [(_ & _ & ->)|(s0 & Hs0 & _ & ->)].
  - apply studentsStep_refl.
  - destruct (Hf s0 Hs0) as [Hid Ht].
    eapply studentsStep_update; [apply studentsStep_refl | exact Hs0 | exact Hid | exact Ht].
Qed.

Lemma Student_create_step s l l' :
  Student_create s l = Ok l' -> trimmed (Student.rollNumber s) -> studentsStep l l'.
Proof.
  unfold Student_create. intros H Ht. inv_ok H. subst l'.
  apply throwIf_Ok_inv in Hstep.
  eapply studentsStep_insert; [apply studentsStep_refl | | exact Ht].
  intros Hin. apply list_elem_of_fmap in Hin as (x & Hx & Hxin).
  pose proof (existsb_false_elem _ _ _ Hstep Hxin) as Hp. unfold hasId in Hp.
  by rewrite Hx, eqs_refl in Hp.
Qed.

Lemma create_students dto newId yr st :
  studentsStep (students st) (students (StudentsService.create dto newId yr st).2).
Proof.
  unfold StudentsService.create.
  destruct (existsb _ _); [apply studentsStep_refl|].
  match goal with |- context [match ?r with Ok _ => _ | Err _ => _ end] =>
    destruct r as [rollNumber|e] end; [|apply studentsStep_refl].
  rewrite catchDupKey_snd.
  match goal with |- context [withTransaction ?b st] =>
    destruct (withTransaction_cases b st) as [(res & st' & Hb & ->)|(err & _ & ->)] end;
    [|apply studentsStep_refl].
  simpl. inv_ok Hb. simplify_eq/=.
  eapply Student_create_step; [exact Hstep|]. simpl. apply trim_trimmed.
Qed.

Lemma update_students id dto st :
  studentsStep (students st) (students (StudentsService.update id dto st).2).
Proof.
  unfold StudentsService.update.
  match goal with |- context [if ?b then (throw _, st) else _] => destruct b end;
    [apply studentsStep_refl|].
  match goal with |- context [match ?r with Ok _ => _ | Err _ => _ end] =>
    destruct r as [[]|e] end; [|apply studentsStep_refl].
  match goal with |- context [match ?r with Ok _ => _ | Err _ => _ end] =>
    destruct r as [enrs|e] end; [|apply studentsStep_refl].
  simpl.
  destruct (Student_update _ _ _) as [[u studs]|e] eqn:Eu; simpl; [|apply studentsStep_refl].
  eapply Student_update_step; [exact Eu|].
  intros s0 Hs0. split; [simpl; eapply findStudent_id, Hs0|].
  simpl. destruct (UpdateStudentDto.rollNumber dto); [intros _; apply trim_trimmed | done].
Qed.

Lemma promote_students sid c s y st :
  studentsStep (students st) (students (StudentsService.promote sid c s y st).2).
Proof.
  unfold StudentsService.promote.
  destruct (findStudent sid (students st)) as [student|] eqn:Es; [|apply studentsStep_refl].
  match goal with |- context [match ?r with Ok _ => _ | Err _ => _ end] =>
    destruct r as [[]|e] end; [|apply studentsStep_refl].
  match goal with |- context [withTransaction ?b st] =>
    destruct (withTransaction_cases b st) as [(res & st' & Hb & ->)|(err & _ & ->)] end;
    [|apply studentsStep_refl].
  simpl. inv_ok Hb. simplify_eq/=.
  eapply Student_update_step; [exact Hstep0|].
  intros s0 Hs0. simpl. rewrite (findStudent_id _ _ _ Es) in Hs0.
  rewrite Es in Hs0. injection Hs0 as <-. done.
Qed.

Lemma reAdmit_students sid c s y st :
  studentsStep (students st) (students (StudentsService.reAdmit sid c s y st).2).
Proof.
  unfold StudentsService.reAdmit.
  destruct (findStudent sid (students st)) as [student|] eqn:Es; [|apply studentsStep_refl].
  destruct (bool_decide _); [apply studentsStep_refl|].
  destruct (StudentsService.findClass c st); [|apply studentsStep_refl].
  destruct (StudentsService.findSection s st); [|apply studentsStep_refl].
  match goal with |- context [withTransaction ?b st] =>
    destruct (withTransaction_cases b st) as [(res & st' & Hb & ->)|(err & _ & ->)] end;
    [|apply studentsStep_refl].
  simpl. inv_ok Hb. simplify_eq/=.
  eapply Student_update_step; [exact Hstep0|].
  intros s0 Hs0. simpl. split; [done|]. intros _. apply trim_trimmed.
Qed.

Lemma bulkWrite_students ops l n l' :
  (forall op s0, op ∈ ops ->
                 Student._id (op.2 s0) = Student._id s0
                 /\ Student.rollNumber (op.2 s0) = Student.rollNumber s0) ->
  StudentsService.bulkWrite ops l = Ok (n, l') -> studentsStep l l'.
Proof.
  revert l n l'. induction ops as [|[id f] ops IH]; intros l n l' Hops Hb.
  - simpl in Hb. injection Hb as _ <-. apply studentsStep_refl.
  - simpl in Hb.
    destruct (Student_update id f l) as [[o l1]|] eqn:Hstep; simpl in Hb; [|discriminate].
    destruct (StudentsService.bulkWrite ops l1) as [[n2 l2]|] eqn:Hstep0; simpl in Hb;
      [|discriminate].
    injection Hb as _ <-.
    eapply studentsStep_trans.
    + eapply Student_update_step; [exact Hstep|]. intros s0 Hs0.
      destruct (Hops (id, f) s0 ltac:(by left)) as [Hid Hroll]. simpl in Hid, Hroll.
      split; [rewrite Hid; eapply findStudent_id, Hs0 | by rewrite Hroll].
    + eapply IH; [|exact Hstep0]. intros op s0 Hop. apply Hops. by right.
Qed.

Lemma mapM_bulkOps_shape dto mapping tc xs ops :
  StudentsService.mapM (StudentsService.updateOneOp dto tc mapping) xs = Ok ops ->
  forall op s0, op ∈ ops ->
                Student._id (op.2 s0) = Student._id s0
                /\ Student.rollNumber (op.2 s0) = Student.rollNumber s0.
Proof.
  intros Hm op s0 Hop. apply mapM_Ok_inv in Hm.
  destruct (Forall2_mapM_right _ _ _ _ Hm Hop) as (x & _ & Hx).
  unfold StudentsService.updateOneOp in Hx.
  destruct (StudentsService.getTargetSectionId _ _ _) as [sec|]; simpl in Hx; [|discriminate].
  by injection Hx as <-.
Qed.

Lemma promoteBulk_Err_unchanged dto h st e st' :
  StudentsService.promoteBulk dto h st = (Err e, st') -> st' = st.
Proof.
  unfold StudentsService.promoteBulk.
  destruct (negb _); [by intros [= _ <-]|].
  destruct (StudentsService.assertIsCurrentAcademicYear _ st); [|by intros [= _ <-]].
  destruct (List.filter _ _) as [|c0 cs]; [discriminate|].
  match goal with |- context [match ?r with Ok _ => _ | Err _ => _ end] =>
    destruct r as [tc|e0] end; [|by intros [= _ <-]].
  match goal with |- context [withTransaction ?b st] =>
    destruct (withTransaction_cases b st) as [(res & st1 & Hb & ->)|(err & _ & ->)] end;
    [discriminate | by intros [= _ <-]].
Qed.

Lemma promoteBulk_students dto h st :
  studentsStep (students st) (students (StudentsService.promoteBulk dto h st).2).
Proof.
  destruct (StudentsService.promoteBulk dto h st) as [[res|e] st'] eqn:E; simpl.
  - apply promoteBulk_Ok_inv in E
      as [[_ ->]|(tc & docs & bulkOps & _ & Hops & [n Hbw] & _)];
      [apply studentsStep_refl|].
    eapply bulkWrite_students; [|exact Hbw].
    eapply mapM_bulkOps_shape. exact Hops.
  - apply promoteBulk_Err_unchanged in E as ->. apply studentsStep_refl.
Qed.

Lemma reAdmitBulkStep_students view committed cd sd c s y acc student :
  studentsStep (students acc.1.1)
    (students (StudentsService.reAdmitBulkStep view committed cd sd c s y acc student).1.1).
Proof.
  destruct acc as [[work n] errs]. unfold StudentsService.reAdmitBulkStep.
  destruct (bool_decide _); [apply studentsStep_refl|].
  destruct (Enrollment_create _ _ _ _ _ _) as [[e enrs]|err] eqn:Ec; [|apply studentsStep_refl].
  simpl.
  destruct (Student_update _ _ _) as [[o studs]|err] eqn:Eu; simpl; [|apply studentsStep_refl].
  eapply Student_update_step; [exact Eu|].
  intros s0 Hs0. simpl. split; [eapply findStudent_id, Hs0|]. intros _. apply trim_trimmed.
Qed.

Lemma reAdmitBulk_students view ids c s y st :
  studentsStep (students st) (students (StudentsService.reAdmitBulk view ids c s y st).2).
Proof.
  unfold StudentsService.reAdmitBulk.
  destruct ids as [|i ids]; [apply studentsStep_refl|].
  destruct (StudentsService.findClass c st) as [cd|]; [|apply studentsStep_refl].
  destruct (StudentsService.findSection s st) as [sd|]; [|apply studentsStep_refl].
  destruct (List.filter _ _) as [|x xs] eqn:Ef; [apply studentsStep_refl|].
  assert (H : forall zs acc,
             studentsStep (students acc.1.1)
               (students (fold_left (StudentsService.reAdmitBulkStep view st cd sd c s y)
                            zs acc).1.1)).
  { induction zs as [|z zs IH]; intros acc; simpl; [apply studentsStep_refl|].
    eapply studentsStep_trans; [apply reAdmitBulkStep_students | apply IH]. }
  specialize (H (x :: xs) (st, 0, [])).
  destruct (fold_left _ _ _) as [[work n] errs]. exact H.
Qed.

Lemma exec_students op st : studentsStep (students st) (students (exec op st)).
Proof.
  destruct op; simpl.
  - apply create_students.
  - apply update_students.
  - unfold StudentsService.updateDocuments. destruct (findStudent _ _); apply studentsStep_refl.
  - unfold StudentsService.updatePassword. destruct (findStudent _ _); apply studentsStep_refl.
  - apply studentsStep_delete, studentsStep_refl.
  - apply promote_students.
  - apply promoteBulk_students.
  - apply reAdmit_students.
  - apply reAdmitBulk_students.
  - apply studentsStep_refl.
Qed.

(** In every state the service can reach, student ids are unique and the
    stored roll numbers are trimmed. *)
Lemma reachable_students_wellformed st :
  reachable st ->
  uniqueStudentIds st /\ (forall x, x ∈ students st -> trimmed (Student.rollNumber x)).
Proof.
  induction 1 as [ys cs ss | st op _ IH].
  - split; [apply NoDup_nil_2|]. intros x Hx. by apply elem_of_nil in Hx.
  - exact (studentsStep_wellformed _ _ (exec_students op st) IH).
Qed.


(* ===================================================================== *)
(** ** Admission: [create] *)
(* ===================================================================== *)

Lemma truthy_Some v : JS.truthy v = true -> exists s, v = Some s /\ s <> "".
Proof. destruct v as [[|c s]|]; simpl; [discriminate| |discriminate]. eauto. Qed.

Lemma Student_create_inv s l l' :
  Student_create s l = Ok l' ->
  l' = l ++ [s]
  /\ (Student._id s ∉ (Student._id <$> l))
  /\ (Student.email s ∉ (Student.email <$> l))
  /\ (Student.uniqueId s ∉ (Student.uniqueId <$> l)).
Proof.
  unfold Student_create. intros H. inv_ok H. subst l'.
  apply throwIf_Ok_inv in Hstep, Hstep0, Hstep1.
  split; [done|]. split; [|split].
  - intros Hin. apply list_elem_of_fmap in Hin as (x & Hx & Hxin).
    pose proof (existsb_false_elem _ _ _ Hstep Hxin) as Hp. unfold hasId in Hp.
    by rewrite Hx, eqs_refl in Hp.
  - intros Hin. apply list_elem_of_fmap in Hin as (x & Hx & Hxin).
    pose proof (existsb_false_elem _ _ _ Hstep1 Hxin) as Hp. simpl in Hp.
    by rewrite Hx, eqs_refl in Hp.
  - intros Hin. apply list_elem_of_fmap in Hin as (x & Hx & Hxin).
    pose proof (existsb_false_elem _ _ _ Hstep0 Hxin) as Hp. simpl in Hp.
    rewrite Hx in Hp. by rewrite bool_decide_eq_false in Hp.
Qed.

Lemma Student_create_Err s l e :
  Student_create s l = Err e -> exists keys, e = MongoServerError 11000 keys.
Proof.
  unfold Student_create.
  repeat match goal with
    | |- context [throwIf ?b _] => destruct b; simpl; try (intros [= <-]; eauto; fail)
    end.
  all: try discriminate.
Qed.

Lemma handleDupKey_dup keys :
  exists m, StudentsService.handleDupKey (MongoServerError 11000 keys) = BadRequestException m.
Proof.
  simpl. repeat (match goal with |- context [if ?b then _ else _] => destruct b end; eauto).
Qed.

Lemma handleDupKey_validation p :
  StudentsService.handleDupKey (MongooseValidationError p) = MongooseValidationError p.
Proof. reflexivity. Qed.

Lemma Enrollment_create_error osid oay ocid osec oroll l e :
  Enrollment_create osid oay ocid osec oroll l = Err e ->
  (exists keys, e = MongoServerError 11000 keys) \/ (exists p, e = MongooseValidationError p).
Proof.
  unfold Enrollment_create, required.
  repeat match goal with
    | |- context [match ?o with Some _ => _ | None => _ end] =>
        destruct o as [[|? ?]|]; simpl; try (intros [= <-]; right; eauto; fail)
    | |- context [throwIf ?b _] =>
        destruct b; simpl; try (intros [= <-]; left; eauto; fail)
    end;
  try discriminate.
Qed.

(** The ledger takes no entry without a class and a section. *)
Lemma Enrollment_create_needs_placement osid oay ocid osec oroll l :
  JS.truthy ocid = false \/ JS.truthy osec = false ->
  exists p, Enrollment_create osid oay ocid osec oroll l = Err (MongooseValidationError p).
Proof.
  intros H. unfold Enrollment_create, required.
  destruct osid as [[|? ?]|]; simpl; eauto.
  destruct oay as [[|? ?]|]; simpl; eauto.
  destruct ocid as [[|? ?]|]; simpl; eauto.
  destruct osec as [[|? ?]|]; simpl; eauto.
  destruct H; discriminate.
Qed.

(** What a successful [create] did. *)
Lemma create_Ok_inv dto newId yr st created st' :
  StudentsService.create dto newId yr st = (Ok created, st') ->
  exists classId sectionId classDoc sectionDoc,
    CreateStudentDto.classId dto = Some classId /\ classId <> ""
    /\ CreateStudentDto.sectionId dto = Some sectionId /\ sectionId <> ""
    /\ StudentsService.findClass classId st = Some classDoc
    /\ StudentsService.findSection sectionId st = Some sectionDoc
    /\ let ay := CreateStudentDto.academicYearId dto in
       let roll := generateRollNumber (enrollments st) (Class.name classDoc)
                     (Section.name sectionDoc) ay in
       let s := Student.mk newId (JS.trim (CreateStudentDto.name dto))
                  (StudentsService.normEmail (CreateStudentDto.email dto))
                  (Some (generateStudentId (students st) yr)) roll
                  (Some classId) (Some sectionId) (Some ay) in
       created = Some s
       /\ Student_create s (students st) = Ok (students st ++ [s])
       /\ students st' = students st ++ [s]
       /\ enrollments st' = enrollments st ++ [Enrollment.mk newId ay classId sectionId roll]
       /\ findEnrollment newId ay (enrollments st) = None
       /\ (rollKey (Enrollment.mk newId ay classId sectionId roll) ∉ (rollKey <$> enrollments st))
       /\ years st' = years st /\ classes st' = classes st /\ sections st' = sections st.
Proof.
  unfold StudentsService.create.
  destruct (existsb _ _); [discriminate|].
  destruct (JS.truthy (CreateStudentDto.classId dto)
            && JS.truthy (CreateStudentDto.sectionId dto)) eqn:Et.
  - apply andb_true_iff in Et as [Ec Es].
    apply truthy_Some in Ec as (classId & Ec & Hcne), Es as (sectionId & Es & Hsne).
    rewrite Ec, Es. simpl JS.String_.
    destruct (StudentsService.findClass classId st) as [classDoc|] eqn:Ecl; [|discriminate].
    destruct (StudentsService.findSection sectionId st) as [sectionDoc|] eqn:Ese;
      [|discriminate].
    simpl. rewrite generateRollNumber_trimmed.
    unfold StudentsService.catchDupKey, withTransaction.
    destruct (Student_create _ _) as [studs|] eqn:Esc; simpl; [|discriminate].
    destruct (Enrollment_create _ _ _ _ _ _) as [[e enrs]|] eqn:Eec; simpl; [|discriminate].
    intros [= <- <-]. exists classId, sectionId, classDoc, sectionDoc.
    pose proof (Student_create_inv _ _ _ Esc) as (-> & _).
    apply Enrollment_create_inv in Eec as (Hs1 & Hs2 & Hs3 & Hs4 & Hs5 & -> & Hnone & Hkey).
    simpl in Hs5. rewrite generateRollNumber_trimmed in Hs5.
    injection Hs1 as Hs1. injection Hs2 as Hs2. injection Hs3 as Hs3.
    injection Hs4 as Hs4. injection Hs5 as Hs5.
    assert (He : e = Enrollment.mk newId (CreateStudentDto.academicYearId dto) classId
                       sectionId
                       (generateRollNumber (enrollments st) (Class.name classDoc)
                          (Section.name sectionDoc) (CreateStudentDto.academicYearId dto))).
    { destruct e; simpl in *. congruence. }
    subst e. simpl in *. repeat split; done.
  - simpl. unfold StudentsService.catchDupKey, withTransaction.
    destruct (Student_create _ _) as [studs|] eqn:Esc; simpl; [|discriminate].
    destruct (Enrollment_create_needs_placement (Some newId)
                (Some (CreateStudentDto.academicYearId dto))
                (CreateStudentDto.classId dto) (CreateStudentDto.sectionId dto)
                (Some "TBD") (enrollments st)) as [p ->]; [|discriminate].
    apply andb_false_iff in Et. exact Et.
Qed.

(** What a failing [create] did: nothing, and the error is a bad
    request or, for a document the ledger's schema refuses, the
    validation error of that schema. *)
Lemma create_Err_inv dto newId yr st err st' :
  StudentsService.create dto newId yr st = (Err err, st') ->
  st' = st
  /\ ((exists m, err = BadRequestException m) \/ (exists p, err = MongooseValidationError p)).
Proof.
  unfold StudentsService.create.
  destruct (existsb _ _); [intros [= <- <-]; split; [done|left; eauto]|].
  match goal with |- context [match ?r with Ok _ => _ | Err _ => _ end] =>
    destruct r as [rollNumber|e] eqn:Er end.
  2:{ intros [= <- <-]. split; [done|]. left.
      destruct (_ && _); [|discriminate].
      destruct (StudentsService.findClass _ st); [|injection Er as <-; eauto].
      destruct (StudentsService.findSection _ st); [discriminate|injection Er as <-; eauto]. }
  unfold StudentsService.catchDupKey, withTransaction.
  destruct (Student_create _ _) as [studs|e] eqn:Esc; simpl.
  2:{ intros [= <- <-]. split; [done|]. left.
      apply Student_create_Err in Esc as [keys ->]. apply handleDupKey_dup. }
  destruct (Enrollment_create _ _ _ _ _ _) as [[e enrs]|e] eqn:Eec; simpl; [discriminate|].
  intros [= <- <-]. split; [done|].
  apply Enrollment_create_error in Eec as [[keys ->]|[p ->]].
  - left. apply handleDupKey_dup.
  - right. eauto.
Qed.

(** X1. An admission that names no class or no section never succeeds:
    the student document would be written with the placeholder roll
    number, but the ledger entry of the same transaction lacks a
    required field, so the call fails and the database is as it was. An
    admission therefore always comes with a ledger entry. *)
Theorem create_requires_class_and_section dto newId yr st :
  JS.truthy (CreateStudentDto.classId dto) = false
  \/ JS.truthy (CreateStudentDto.sectionId dto) = false ->
  exists err, StudentsService.create dto newId yr st = (Err err, st)
              /\ ((exists m, err = BadRequestException m)
                  \/ (exists p, err = MongooseValidationError p)).
Proof.
  intros H. destruct (StudentsService.create dto newId yr st) as [[created|err] st'] eqn:E.
  - apply create_Ok_inv in E
      as (classId & sectionId & _ & _ & Hc & Hcne & Hs & Hsne & _).
    rewrite Hc, Hs in H. destruct classId, sectionId; simpl in H; destruct H; done.
  - apply create_Err_inv in E as [-> Herr]. eauto.
Qed.

Lemma create_requires_class_and_section_witness :
  exists err,
    StudentsService.create
      (CreateStudentDto.mk "Ann" "ann@school.example" (Some "c9") None "y24")
      "ann" 2024 Demo.fresh = (Err err, Demo.fresh)
    /\ ((exists m, err = BadRequestException m)
        \/ (exists p, err = MongooseValidationError p)).
Proof.
  apply (create_requires_class_and_section
           (CreateStudentDto.mk "Ann" "ann@school.example" (Some "c9") None "y24")).
  right. reflexivity.
Defined.

(** X2. An admission is all or nothing. When [create] returns, the
    request named an existing class and section, exactly one student
    document and exactly one ledger entry were appended, the entry is
    for the new student in the requested year, class and section with
    the roll number generated for them, the snapshot of the student
    equals the entry, and the student carries the generated unique id
    and the normalised e-mail address. When [create] throws, the
    database is unchanged and the error is a bad request or the
    validation error of the ledger's schema, never a raw duplicate-key
    error. *)
Theorem create_all_or_nothing dto newId yr st :
  match StudentsService.create dto newId yr st with
  | (Ok created, st') =>
      exists s e classDoc sectionDoc,
        created = Some s
        /\ students st' = students st ++ [s]
        /\ enrollments st' = enrollments st ++ [e]
        /\ years st' = years st /\ classes st' = classes st /\ sections st' = sections st
        /\ StudentsService.findClass (Enrollment.classId e) st = Some classDoc
        /\ StudentsService.findSection (Enrollment.sectionId e) st = Some sectionDoc
        /\ CreateStudentDto.classId dto = Some (Enrollment.classId e)
        /\ CreateStudentDto.sectionId dto = Some (Enrollment.sectionId e)
        /\ Enrollment.studentId e = newId
        /\ Enrollment.academicYearId e = CreateStudentDto.academicYearId dto
        /\ Enrollment.rollNumber e =
             generateRollNumber (enrollments st) (Class.name classDoc)
               (Section.name sectionDoc) (CreateStudentDto.academicYearId dto)
        /\ snapshotMatches s e
        /\ Student._id s = newId
        /\ Student.email s = StudentsService.normEmail (CreateStudentDto.email dto)
        /\ Student.uniqueId s = Some (generateStudentId (students st) yr)
  | (Err err, st') =>
      st' = st
      /\ ((exists m, err = BadRequestException m)
          \/ (exists p, err = MongooseValidationError p))
  end.
Proof.
  destruct (StudentsService.create dto newId yr st) as [[created|err] st'] eqn:E.
  - apply create_Ok_inv in E
      as (classId & sectionId & classDoc & sectionDoc & Hc & _ & Hs & _ & Hcl & Hse & H).
    simpl in H. destruct H as (-> & _ & Hst & Hen & _ & _ & Hy & Hcs & Hss).
    eexists _, _, classDoc, sectionDoc.
    split; [reflexivity|]. split; [exact Hst|]. split; [exact Hen|].
    simpl. unfold snapshotMatches. simpl. by repeat split.
  - by apply create_Err_inv in E.
Qed.


(* ===================================================================== *)
(** ** Failing calls *)
(* ===================================================================== *)





(** The ledger refuses a roll number that is taken in the year. *)
Lemma Enrollment_create_roll_taken osid oay ocid osec roll l other ay :
  oay = Some ay ->
  other ∈ l -> Enrollment.academicYearId other = ay ->
  Enrollment.rollNumber other = JS.trim roll ->
  findEnrollment (default "" osid) ay l = None ->
  exists err, Enrollment_create osid oay ocid osec (Some roll) l = Err err
              /\ (err = MongoServerError 11000 ["academicYearId"; "rollNumber"]
                  \/ exists p, err = MongooseValidationError p).
Proof.
  intros -> Hin Hy Hr Hnone. unfold Enrollment_create, required.
  destruct osid as [[|? ?]|]; simpl; eauto.
  destruct ay as [|? ?]; simpl; eauto.
  destruct ocid as [[|? ?]|]; simpl; eauto.
  destruct osec as [[|? ?]|]; simpl; eauto.
  destruct (JS.trim roll) as [|? ?] eqn:Et; simpl; eauto.
  simpl in Hnone. rewrite Hnone. simpl.
  match goal with |- context [throwIf ?b _] => assert (Hb : b = true) end.
  { apply existsb_exists. exists other. split; [by apply list_elem_of_In|].
    by rewrite Hy, Hr, !eqs_refl. }
  rewrite Hb. simpl. eauto.
Qed.

(** X4. A single promotion carries the student's roll number into the
    target year, so it cannot succeed when that number is already taken
    there: if the student passes the current-year gate and the sequence
    rule and has no entry for the target year, but some ledger entry of
    the target year holds the student's roll number, [promote] fails,
    writes nothing, and the error is the ledger's duplicate-key error on
    [(academicYearId, rollNumber)] as raised by the driver (or the
    schema's validation error for an empty field), which the
    specification's taxonomy classes as an internal error. *)
Theorem promote_fails_when_roll_taken sid c s y st student other :
  findStudent sid (students st) = Some student ->
  StudentsService.assertIsCurrentAcademicYear
    (JS.String_ (Student.academicYearId student)) st = Ok tt ->
  StudentsService.assertNextAcademicYear
    (JS.String_ (Student.academicYearId student)) y st = Ok tt ->
  findEnrollment sid y (enrollments st) = None ->
  other ∈ enrollments st ->
  Enrollment.academicYearId other = y ->
  Enrollment.rollNumber other = JS.trim (Student.rollNumber student) ->
  exists err,
    StudentsService.promote sid c s y st = (Err err, st)
    /\ (err = MongoServerError 11000 ["academicYearId"; "rollNumber"]
        \/ exists p, err = MongooseValidationError p)
    /\ errorClass err = InternalError.
Proof.
  intros Hs Hg Hn Hnone Hin Hy Hr. unfold StudentsService.promote.
  rewrite Hs, Hg. simpl. rewrite Hn. simpl. rewrite Hnone. simpl.
  unfold withTransaction.
  destruct (Enrollment_create_roll_taken (Some sid) (Some y) (Some c) (Some s)
              (Student.rollNumber student) (enrollments st) other y)
    as (err & -> & Herr); try done.
  simpl. exists err. split; [done|]. split; [done|].
  destruct Herr as [->|[p ->]]; reflexivity.
Qed.

Lemma promote_fails_when_roll_taken_witness :
  exists err,
    StudentsService.promote "ann" "c10" "s10a" "y25"
      (Demo.catalog [Demo.y24; Demo.y25; Demo.y26] [Demo.ann "y24"]
         [Demo.seat (Demo.ann "y24"); Enrollment.mk "zed" "y25" "c9" "s9a" "9-A-001"])
    = (Err err,
       Demo.catalog [Demo.y24; Demo.y25; Demo.y26] [Demo.ann "y24"]
         [Demo.seat (Demo.ann "y24"); Enrollment.mk "zed" "y25" "c9" "s9a" "9-A-001"])
    /\ (err = MongoServerError 11000 ["academicYearId"; "rollNumber"]
        \/ exists p, err = MongooseValidationError p)
    /\ errorClass err = InternalError.
Proof.
  apply (promote_fails_when_roll_taken "ann" "c10" "s10a" "y25" _ (Demo.ann "y24")
           (Enrollment.mk "zed" "y25" "c9" "s9a" "9-A-001"));
    try reflexivity.
  apply list_elem_of_In. simpl. right. left. reflexivity.
Defined.


(* ===================================================================== *)
(** ** The general update *)
(* ===================================================================== *)

Lemma existsb_true_elem {A} (p : A -> bool) l :
  existsb p l = true -> exists x, x ∈ l /\ p x = true.
Proof.
  intros H. apply existsb_exists in H as (x & Hin & Hp). exists x.
  split; [by apply list_elem_of_In | done].
Qed.

Lemma existsb_elem_true {A} (p : A -> bool) l x :
  x ∈ l -> p x = true -> existsb p l = true.
Proof.
  intros Hin Hp. apply existsb_exists. exists x. split; [by apply list_elem_of_In | done].
Qed.

Lemma existsb_ext_elem {A} (p q : A -> bool) l :
  (forall x, x ∈ l -> p x = q x) -> existsb p l = existsb q l.
Proof.
  intros H. induction l as [|x l IH]; simpl; [done|].
  rewrite (H x) by (by left). f_equal. apply IH. intros y Hy. apply H. by right.
Qed.

(** The two look-ups that [update] makes before it writes rule out every
    violation of the unique indexes of the student collection. *)
Lemma update_checks_cover_indexes id dto l s0 :
  findStudent id l = Some s0 ->
  match UpdateStudentDto.email dto with
  | Some e => existsb (fun s => eqs (Student.email s) (StudentsService.normEmail e)
                                && negb (hasId id s)) l
  | None => false
  end = false ->
  (bool_decide (is_Some (UpdateStudentDto.academicYearId dto))
   || bool_decide (is_Some (UpdateStudentDto.rollNumber dto)) = true ->
   existsb (fun s => eqo (Student.academicYearId s)
                       (JS.nullish (UpdateStudentDto.academicYearId dto)
                          (Student.academicYearId s0))
                     && eqs (Student.rollNumber s)
                          (match UpdateStudentDto.rollNumber dto with
                           | Some r => StudentsService.normRoll r
                           | None => Student.rollNumber s0
                           end)
                     && negb (hasId id s)) l = false) ->
  Student_checkUnique s0 (StudentsService.applyUpdate dto s0) l = Ok tt.
Proof.
  intros Hs0 Hemail Hroll. pose proof (findStudent_id _ _ _ Hs0) as Hid.
  unfold Student_checkUnique.
  match goal with |- context [throwIf (negb (eqs ?a ?b) && ?c) _] =>
    destruct (negb (eqs a b) && c) eqn:E1 end.
  { exfalso. apply andb_true_iff in E1 as [Hch Hex].
    apply existsb_true_elem in Hex as (o & Hin & Hp).
    apply andb_true_iff in Hp as [Hne Heq]. simpl in *.
    destruct (UpdateStudentDto.email dto) as [e|]; [|by rewrite eqs_refl in Hch].
    rewrite Hid in Hne.
    assert (existsb (fun s => eqs (Student.email s) (StudentsService.normEmail e)
                              && negb (hasId id s)) l = true); [|congruence].
    eapply existsb_elem_true; [exact Hin|]. by rewrite Heq, Hne. }
  simpl.
  match goal with |- context [throwIf ?b _] => destruct b eqn:E2 end; [|done].
  exfalso. apply andb_true_iff in E2 as [Hch Hex].
  apply existsb_true_elem in Hex as (o & Hin & Hp).
  apply andb_true_iff in Hp as [Hp Hr]. apply andb_true_iff in Hp as [Hne Hay].
  simpl in *. rewrite Hid in Hne.
  assert (Hgiven : bool_decide (is_Some (UpdateStudentDto.academicYearId dto))
                   || bool_decide (is_Some (UpdateStudentDto.rollNumber dto)) = true).
  { destruct (UpdateStudentDto.academicYearId dto) as [a|]; [done|].
    destruct (UpdateStudentDto.rollNumber dto) as [r|]; [done|].
    simpl in Hch. unfold eqo in Hch. rewrite bool_decide_eq_true_2 in Hch by done.
    by rewrite eqs_refl in Hch. }
  pose proof (existsb_false_elem _ _ _ (Hroll Hgiven) Hin) as Hp. simpl in Hp.
  by rewrite Hay, Hr, Hne in Hp.
Qed.

(** What a failing [update] did: nothing, and the error is a bad
    request. *)
Lemma update_Err_inv id dto st e st' :
  StudentsService.update id dto st = (Err e, st') ->
  st' = st /\ exists m, e = BadRequestException m.
Proof.
  unfold StudentsService.update.
  match goal with |- context [if ?b then (throw _, st) else _] => destruct b eqn:Eemail end;
    [intros [= <- <-]; eauto|].
  destruct (bool_decide (is_Some (UpdateStudentDto.academicYearId dto))
            || bool_decide (is_Some (UpdateStudentDto.rollNumber dto))) eqn:Egiven.
  - destruct (findStudent id (students st)) as [s0|] eqn:Es0; [|intros [= <- <-]; eauto].
    match goal with |- context [throwIf ?b _] => destruct b eqn:Eroll end;
      [intros [= <- <-]; eauto|].
    simpl.
    assert (Hu : Student_update id (StudentsService.applyUpdate dto)
                   (students st) =
                 Ok (Some (StudentsService.applyUpdate dto s0),
                     updateFirst (hasId id)
                       (fun _ => StudentsService.applyUpdate dto s0) (students st))).
    { unfold Student_update. rewrite Es0.
      rewrite (update_checks_cover_indexes id dto (students st) s0 Es0 Eemail); [done|].
      intros _. exact Eroll. }
    destruct (bool_decide (is_Some (UpdateStudentDto.classId dto))
              || bool_decide (is_Some (UpdateStudentDto.sectionId dto)));
      simpl; rewrite ?Es0; simpl; rewrite Hu; discriminate.
  - simpl.
    destruct (bool_decide (is_Some (UpdateStudentDto.classId dto))
              || bool_decide (is_Some (UpdateStudentDto.sectionId dto))) eqn:Eplace.
    + destruct (findStudent id (students st)) as [s0|] eqn:Es0;
        [|simpl; intros [= <- <-]; eauto].
      simpl. unfold Student_update. rewrite Es0.
      rewrite (update_checks_cover_indexes id dto (students st) s0 Es0 Eemail);
        [discriminate|].
      intros H. congruence.
    + simpl. unfold Student_update.
      destruct (findStudent id (students st)) as [s0|] eqn:Es0; simpl; [|discriminate].
      rewrite (update_checks_cover_indexes id dto (students st) s0 Es0 Eemail);
        [discriminate|].
      intros H. congruence.
Qed.

(** X5. [update] runs without a transaction and edits the ledger before
    it writes the student, yet it never leaves a half-done change: the
    two look-ups it makes first cover every unique index of the student
    collection, so the student write cannot fail after the ledger edit.
    Whenever [update] throws, the error is a bad request and the
    database is exactly as it was. *)
Theorem update_fails_cleanly id dto st :
  match StudentsService.update id dto st with
  | (Err e, st') => st' = st /\ exists m, e = BadRequestException m
  | (Ok _, _) => True
  end.
Proof.
  destruct (StudentsService.update id dto st) as [[r|e] st'] eqn:E; [done|].
  by eapply update_Err_inv.
Qed.

(** X6. Updating a student that does not exist never raises a not-found
    error. If the request carries an e-mail address that another
    student has, it fails with "Email already exists"; otherwise, if it
    names a year, a roll number, a class or a section, it fails with the
    bad request "Student not found"; otherwise it returns [null]. In
    every case nothing is written. *)
Theorem update_of_missing_student id dto st :
  findStudent id (students st) = None ->
  StudentsService.update id dto st =
  (if match UpdateStudentDto.email dto with
      | Some e => existsb (fun s => eqs (Student.email s) (StudentsService.normEmail e))
                    (students st)
      | None => false
      end
   then Err (BadRequestException "Email already exists")
   else if bool_decide (is_Some (UpdateStudentDto.academicYearId dto))
           || bool_decide (is_Some (UpdateStudentDto.rollNumber dto))
           || bool_decide (is_Some (UpdateStudentDto.classId dto))
           || bool_decide (is_Some (UpdateStudentDto.sectionId dto))
        then Err (BadRequestException "Student not found")
        else Ok None,
   st).
Proof.
  intros Hnone. unfold StudentsService.update.
  assert (Hex : forall e,
            existsb (fun s => eqs (Student.email s) (StudentsService.normEmail e)
                              && negb (hasId id s)) (students st)
            = existsb (fun s => eqs (Student.email s) (StudentsService.normEmail e))
                (students st)).
  { intros e. apply existsb_ext_elem. intros s Hs.
    rewrite (findOne_None _ _ s Hnone Hs). by rewrite andb_true_r. }
  destruct (UpdateStudentDto.email dto) as [e|]; rewrite ?Hex;
    [destruct (existsb _ (students st)); [done|]|];
    rewrite Hnone;
    destruct (UpdateStudentDto.academicYearId dto), (UpdateStudentDto.rollNumber dto),
      (UpdateStudentDto.classId dto), (UpdateStudentDto.sectionId dto);
    simpl; try done; unfold Student_update; rewrite Hnone; simpl;
    by destruct st.
Qed.

Lemma update_of_missing_student_witness :
  StudentsService.update "zed"
    (UpdateStudentDto.mk (Some "Zed") None None None None None) Demo.school
  = (Ok None, Demo.school)
  /\ StudentsService.update "zed"
       (UpdateStudentDto.mk None None None (Some "c10") None None) Demo.school
     = (Err (BadRequestException "Student not found"), Demo.school).
Proof.
  split.
  - exact (update_of_missing_student "zed"
             (UpdateStudentDto.mk (Some "Zed") None None None None None) Demo.school
             eq_refl).
  - exact (update_of_missing_student "zed"
             (UpdateStudentDto.mk None None None (Some "c10") None None) Demo.school
             eq_refl).
Defined.


(* ===================================================================== *)
(** ** The unique indexes of the student collection *)
(* ===================================================================== *)

Lemma studentWrites_trans l1 l2 l3 :
  studentWrites l1 l2 -> studentWrites l2 l3 -> studentWrites l1 l3.
Proof.
  intros H12 H23. induction H23; [done | | |].
  - by eapply studentWrites_update.
  - by eapply studentWrites_create.
  - by eapply studentWrites_delete.
Qed.

(** The place of the document that an update replaces. *)
Lemma findStudent_split id l s0 :
  findStudent id l = Some s0 ->
  exists l1 l2, l = l1 ++ s0 :: l2
                /\ (forall x, x ∈ l1 -> hasId id x = false)
                /\ forall s', updateFirst (hasId id) (fun _ => s') l = l1 ++ s' :: l2.
Proof.
  unfold findStudent, findOne. induction l as [|x l IH]; simpl; [discriminate|].
  destruct (hasId id x) eqn:Ex.
  - intros [= ->]. exists [], l. split; [done|]. split; [|done].
    intros y Hy. by apply elem_of_nil in Hy.
  - intros H. destruct (IH H) as (l1 & l2 & -> & Hl1 & Hup).
    exists (x :: l1), l2. split; [done|]. split.
    + intros y Hy. apply elem_of_cons in Hy as [->|Hy]; [done | by apply Hl1].
    + intros s'. simpl. by rewrite Hup.
Qed.

Lemma NoDup_replace {A B} `{EqDecision B} (k : A -> B) (l1 l2 : list A) (s0 s' : A) :
  NoDup (k <$> (l1 ++ s0 :: l2)) ->
  (k s' = k s0 \/ forall x, x ∈ l1 ++ l2 -> k x <> k s') ->
  NoDup (k <$> (l1 ++ s' :: l2)).
Proof.
  rewrite !fmap_app, !fmap_cons. intros Hnd [Heq|Hnew]; [by rewrite Heq|].
  apply NoDup_app in Hnd as (H1 & H12 & H2). apply NoDup_cons in H2 as [_ H2].
  apply NoDup_app. split; [done|]. split.
  - intros y Hy Hy'. apply elem_of_cons in Hy' as [->|Hy'].
    + apply list_elem_of_fmap in Hy as (x & Hx & Hxin).
      apply (Hnew x); [apply elem_of_app; by left | done].
    + apply (H12 y Hy). by right.
  - apply NoDup_cons. split; [|done].
    intros Hy. apply list_elem_of_fmap in Hy as (x & Hx & Hxin).
    apply (Hnew x); [apply elem_of_app; by right | done].
Qed.

(** A successful update keeps the four keys distinct. *)
Lemma Student_update_distinct id f l o l' :
  Student_update id f l = Ok (o, l') ->
  (forall s0, findStudent id l = Some s0 ->
              Student._id (f s0) = id /\ Student.uniqueId (f s0) = Student.uniqueId s0) ->
  studentsDistinct l -> studentsDistinct l'.
Proof.
  intros Hu Hf (Hid & Hem & Huid & Hkey).
  unfold Student_update in Hu.
  destruct (findStudent id l) as [s0|] eqn:Es0; [|by injection Hu as _ <-].
  destruct (Student_checkUnique s0 (f s0) l) as [[]|] eqn:Ech; simpl in Hu; [|discriminate].
  injection Hu as _ <-.
  destruct (Hf s0 eq_refl) as [Hfid Hfuid].
  pose proof (findStudent_id _ _ _ Es0) as Hs0id.
  destruct (findStudent_split _ _ _ Es0) as (l1 & l2 & -> & Hl1 & Hup).
  rewrite Hup.
  assert (Hothers : forall x, x ∈ l1 ++ l2 -> hasId id x = false).
  { intros x Hx. apply elem_of_app in Hx as [Hx|Hx]; [by apply Hl1|].
    apply eqs_false. intros Hxid.
    rewrite fmap_app, fmap_cons in Hid. apply NoDup_app in Hid as (_ & _ & Hid).
    apply NoDup_cons in Hid as [Hid _]. apply Hid.
    apply list_elem_of_fmap. exists x. split; [congruence | done]. }
  assert (Hin : forall x, x ∈ l1 ++ l2 -> x ∈ l1 ++ s0 :: l2).
  { intros x Hx. apply elem_of_app in Hx as [Hx|Hx]; apply elem_of_app;
      [by left | right; by right]. }
  unfold Student_checkUnique in Ech. inv_ok Ech.
  apply throwIf_Ok_inv in Hstep. clear a.
  match type of Ech with throwIf ?b _ = _ => assert (Hstep2 : b = false) end.
  { by destruct (_ && _) eqn:E in Ech. }
  clear Ech.
  split; [|split; [|split]].
  - eapply NoDup_replace; [exact Hid|]. left. congruence.
  - eapply NoDup_replace; [exact Hem|].
    apply andb_false_iff in Hstep as [Hsame|Hex].
    + left. apply negb_false_iff, eqs_true in Hsame. done.
    + right. intros x Hx Heq.
      pose proof (existsb_false_elem _ _ _ Hex (Hin x Hx)) as Hp. simpl in Hp.
      rewrite Hfid, (Hothers x Hx), Heq, eqs_refl in Hp. discriminate.
  - eapply NoDup_replace; [exact Huid|]. by left.
  - eapply NoDup_replace; [exact Hkey|].
    apply andb_false_iff in Hstep2 as [Hsame|Hex].
    + left. apply negb_false_iff, andb_true_iff in Hsame as [Ha Hr].
      apply eqo_true in Ha. apply eqs_true in Hr. unfold snapshotKey. congruence.
    + right. intros x Hx Heq. unfold snapshotKey in Heq. injection Heq as Ha Hr.
      pose proof (existsb_false_elem _ _ _ Hex (Hin x Hx)) as Hp. simpl in Hp.
      rewrite Hfid, (Hothers x Hx), Ha, Hr, eqs_refl in Hp.
      unfold eqo in Hp. rewrite bool_decide_eq_true_2 in Hp by done. discriminate.
Qed.

(** A successful insert keeps the four keys distinct. *)
Lemma Student_create_distinct s l l' :
  Student_create s l = Ok l' -> studentsDistinct l -> studentsDistinct l'.
Proof.
  intros Hc (Hid & Hem & Huid & Hkey).
  pose proof (Student_create_inv _ _ _ Hc) as (-> & Hnid & Hnem & Hnuid).
  assert (Hnkey : snapshotKey s ∉ (snapshotKey <$> l)).
  { unfold Student_create in Hc. inv_ok Hc. apply throwIf_Ok_inv in Hstep2.
    intros Hin. apply list_elem_of_fmap in Hin as (x & Hx & Hxin).
    pose proof (existsb_false_elem _ _ _ Hstep2 Hxin) as Hp. simpl in Hp.
    unfold snapshotKey in Hx. injection Hx as Ha Hr.
    rewrite Ha, Hr, eqs_refl in Hp.
    unfold eqo in Hp. rewrite bool_decide_eq_true_2 in Hp by done. discriminate. }
  assert (Happ : forall {B} (k : Student.t -> B),
             NoDup (k <$> l) -> k s ∉ (k <$> l) -> NoDup (k <$> (l ++ [s]))).
  { intros B k Hnd Hn. rewrite fmap_app. apply NoDup_app. split; [done|]. split.
    - intros y Hy Hy'. apply list_elem_of_singleton in Hy'. by subst.
    - apply NoDup_singleton. }
  repeat split; by apply Happ.
Qed.

Lemma removeFirst_distinct id l : studentsDistinct l -> studentsDistinct (removeFirst (hasId id) l).
Proof.
  intros (Hid & Hem & Huid & Hkey).
  split; [|split; [|split]].
  - eapply sublist_NoDup; [exact Hid|]. apply fmap_sublist, removeFirst_sublist.
  - eapply sublist_NoDup; [exact Hem|]. apply fmap_sublist, removeFirst_sublist.
  - eapply sublist_NoDup; [exact Huid|]. apply fmap_sublist, removeFirst_sublist.
  - eapply sublist_NoDup; [exact Hkey|]. apply fmap_sublist, removeFirst_sublist.
Qed.

Lemma studentWrites_distinct l l' :
  studentWrites l l' -> studentsDistinct l -> studentsDistinct l'.
Proof.
  induction 1 as [|l1 id f o l2 _ IH Hu Hf|l1 s l2 _ IH Hc|l1 id _ IH]; intros Hd; [done|..].
  - eapply Student_update_distinct; eauto.
  - eapply Student_create_distinct; eauto.
  - by apply removeFirst_distinct, IH.
Qed.

(** *** Every operation writes the student collection through the indexes *)

Lemma Student_update_writes id f l o l' :
  Student_update id f l = Ok (o, l') ->
  (forall s0, findStudent id l = Some s0 ->
              Student._id (f s0) = id /\ Student.uniqueId (f s0) = Student.uniqueId s0) ->
  studentWrites l l'.
Proof. intros Hu Hf. eapply studentWrites_update; [apply studentWrites_refl | exact Hu | exact Hf]. Qed.

Lemma create_writes dto newId yr st :
  studentWrites (students st) (students (StudentsService.create dto newId yr st).2).
Proof.
  destruct (StudentsService.create dto newId yr st) as [[created|err] st'] eqn:E; simpl.
  - apply create_Ok_inv in E as (classId & sectionId & classDoc & sectionDoc & H).
    destruct H as (_ & _ & _ & _ & _ & _ & H). simpl in H.
    destruct H as (_ & Hc & -> & _).
    eapply studentWrites_create; [apply studentWrites_refl | exact Hc].
  - apply create_Err_inv in E as [-> _]. apply studentWrites_refl.
Qed.

Lemma update_writes id dto st :
  studentWrites (students st) (students (StudentsService.update id dto st).2).
Proof.
  unfold StudentsService.update.
  match goal with |- context [if ?b then (throw _, st) else _] => destruct b end;
    [apply studentWrites_refl|].
  match goal with |- context [match ?r with Ok _ => _ | Err _ => _ end] =>
    destruct r as [[]|e] end; [|apply studentWrites_refl].
  match goal with |- context [match ?r with Ok _ => _ | Err _ => _ end] =>
    destruct r as [enrs|e] end; [|apply studentWrites_refl].
  simpl.
  destruct (Student_update _ _ _) as [[u studs]|e] eqn:Eu; simpl; [|apply studentWrites_refl].
  eapply Student_update_writes; [exact Eu|].
  intros s0 Hs0. split; [simpl; eapply findStudent_id, Hs0 | done].
Qed.

Lemma promote_writes sid c s y st :
  studentWrites (students st) (students (StudentsService.promote sid c s y st).2).
Proof.
  unfold StudentsService.promote.
  destruct (findStudent sid (students st)) as [student|] eqn:Es; [|apply studentWrites_refl].
  match goal with |- context [match ?r with Ok _ => _ | Err _ => _ end] =>
    destruct r as [[]|e] end; [|apply studentWrites_refl].
  match goal with |- context [withTransaction ?b st] =>
    destruct (withTransaction_cases b st) as [(res & st' & Hb & ->)|(err & _ & ->)] end;
    [|apply studentWrites_refl].
  simpl. inv_ok Hb. simplify_eq/=.
  eapply Student_update_writes; [exact Hstep0|].
  intros s0 Hs0. simpl. rewrite (findStudent_id _ _ _ Es) in Hs0.
  rewrite Es in Hs0. injection Hs0 as <-. done.
Qed.

Lemma reAdmit_writes sid c s y st :
  studentWrites (students st) (students (StudentsService.reAdmit sid c s y st).2).
Proof.
  unfold StudentsService.reAdmit.
  destruct (findStudent sid (students st)) as [student|] eqn:Es; [|apply studentWrites_refl].
  destruct (bool_decide _); [apply studentWrites_refl|].
  destruct (StudentsService.findClass c st); [|apply studentWrites_refl].
  destruct (StudentsService.findSection s st); [|apply studentWrites_refl].
  match goal with |- context [withTransaction ?b st] =>
    destruct (withTransaction_cases b st) as [(res & st' & Hb & ->)|(err & _ & ->)] end;
    [|apply studentWrites_refl].
  simpl. inv_ok Hb. simplify_eq/=.
  eapply Student_update_writes; [exact Hstep0|].
  intros s0 Hs0. simpl. rewrite (findStudent_id _ _ _ Es) in Hs0.
  rewrite Es in Hs0. injection Hs0 as <-. done.
Qed.

Lemma bulkWrite_writes ops l n l' :
  (forall op s0, op ∈ ops ->
                 Student._id (op.2 s0) = Student._id s0
                 /\ Student.uniqueId (op.2 s0) = Student.uniqueId s0) ->
  StudentsService.bulkWrite ops l = Ok (n, l') -> studentWrites l l'.
Proof.
  revert l n l'. induction ops as [|[id f] ops IH]; intros l n l' Hops Hb.
  - simpl in Hb. injection Hb as _ <-. apply studentWrites_refl.
  - simpl in Hb.
    destruct (Student_update id f l) as [[o l1]|] eqn:Hstep; simpl in Hb; [|discriminate].
    destruct (StudentsService.bulkWrite ops l1) as [[n2 l2]|] eqn:Hstep0; simpl in Hb;
      [|discriminate].
    injection Hb as _ <-.
    eapply studentWrites_trans.
    + eapply Student_update_writes; [exact Hstep|]. intros s0 Hs0.
      destruct (Hops (id, f) s0 ltac:(by left)) as [Hid Hu]. simpl in Hid, Hu.
      split; [rewrite Hid; eapply findStudent_id, Hs0 | done].
    + eapply IH; [|exact Hstep0]. intros op s0 Hop. apply Hops. by right.
Qed.

Lemma mapM_bulkOps_keep dto mapping tc xs ops :
  StudentsService.mapM (StudentsService.updateOneOp dto tc mapping) xs = Ok ops ->
  forall op s0, op ∈ ops ->
                Student._id (op.2 s0) = Student._id s0
                /\ Student.uniqueId (op.2 s0) = Student.uniqueId s0.
Proof.
  intros Hm op s0 Hop. apply mapM_Ok_inv in Hm.
  destruct (Forall2_mapM_right _ _ _ _ Hm Hop) as (x & _ & Hx).
  unfold StudentsService.updateOneOp in Hx.
  destruct (StudentsService.getTargetSectionId _ _ _) as [sec|]; simpl in Hx; [|discriminate].
  by injection Hx as <-.
Qed.

Lemma promoteBulk_writes dto h st :
  studentWrites (students st) (students (StudentsService.promoteBulk dto h st).2).
Proof.
  destruct (StudentsService.promoteBulk dto h st) as [[res|e] st'] eqn:E; simpl.
  - apply promoteBulk_Ok_inv in E
      as [[_ ->]|(tc & docs & bulkOps & _ & Hops & [n Hbw] & _)];
      [apply studentWrites_refl|].
    eapply bulkWrite_writes; [|exact Hbw].
    eapply mapM_bulkOps_keep. exact Hops.
  - apply promoteBulk_Err_unchanged in E as ->. apply studentWrites_refl.
Qed.

Lemma reAdmitBulkStep_writes view committed cd sd c s y acc student :
  studentWrites (students acc.1.1)
    (students (StudentsService.reAdmitBulkStep view committed cd sd c s y acc student).1.1).
Proof.
  destruct acc as [[work n] errs]. unfold StudentsService.reAdmitBulkStep.
  destruct (bool_decide _); [apply studentWrites_refl|].
  destruct (Enrollment_create _ _ _ _ _ _) as [[e enrs]|err] eqn:Ec; [|apply studentWrites_refl].
  simpl.
  destruct (Student_update _ _ _) as [[o studs]|err] eqn:Eu; simpl; [|apply studentWrites_refl].
  eapply Student_update_writes; [exact Eu|].
  intros s0 Hs0. simpl. split; [eapply findStudent_id, Hs0 | done].
Qed.

Lemma reAdmitBulk_writes view ids c s y st :
  studentWrites (students st) (students (StudentsService.reAdmitBulk view ids c s y st).2).
Proof.
  unfold StudentsService.reAdmitBulk.
  destruct ids as [|i ids]; [apply studentWrites_refl|].
  destruct (StudentsService.findClass c st) as [cd|]; [|apply studentWrites_refl].
  destruct (StudentsService.findSection s st) as [sd|]; [|apply studentWrites_refl].
  destruct (List.filter _ _) as [|x xs] eqn:Ef; [apply studentWrites_refl|].
  assert (H : forall zs acc,
             studentWrites (students acc.1.1)
               (students (fold_left (StudentsService.reAdmitBulkStep view st cd sd c s y)
                            zs acc).1.1)).
  { induction zs as [|z zs IH]; intros acc; simpl; [apply studentWrites_refl|].
    eapply studentWrites_trans; [apply reAdmitBulkStep_writes | apply IH]. }
  specialize (H (x :: xs) (st, 0, [])).
  destruct (fold_left _ _ _) as [[work n] errs]. exact H.
Qed.

Lemma exec_writes op st : studentWrites (students st) (students (exec op st)).
Proof.
  destruct op; simpl.
  - apply create_writes.
  - apply update_writes.
  - unfold StudentsService.updateDocuments. destruct (findStudent _ _); apply studentWrites_refl.
  - unfold StudentsService.updatePassword. destruct (findStudent _ _); apply studentWrites_refl.
  - apply studentWrites_delete, studentWrites_refl.
  - apply promote_writes.
  - apply promoteBulk_writes.
  - apply reAdmit_writes.
  - apply reAdmitBulk_writes.
  - apply studentWrites_refl.
Qed.

Lemma reachable_studentsDistinct st : reachable st -> studentsDistinct (students st).
Proof.
  induction 1 as [ys cs ss | st op _ IH].
  - repeat split; apply NoDup_nil_2.
  - exact (studentWrites_distinct _ _ (exec_writes op st) IH).
Qed.

Lemma students_distinct_by_id st s1 s2 :
  reachable st -> s1 ∈ students st -> s2 ∈ students st ->
  Student._id s1 = Student._id s2 -> s1 = s2.
Proof.
  intros Hr H1 H2 Hid. destruct (reachable_studentsDistinct st Hr) as (Hnd & _).
  by eapply (NoDup_fmap_elem_inj Student._id).
Qed.

(** X7. In every state the service can bring a fresh database to, the
    unique indexes of the student collection hold: two student
    documents that share an e-mail address, a unique id, or an academic
    year together with a roll number are one and the same document.
    Every write of the service - admission, update, promotion,
    re-admission, single or in bulk, and removal - keeps this, because
    each goes through the indexes of the collection. *)
Theorem students_unique_in_reachable_states st :
  reachable st ->
  forall s1 s2, s1 ∈ students st -> s2 ∈ students st ->
    Student._id s1 = Student._id s2
    \/ Student.email s1 = Student.email s2
    \/ Student.uniqueId s1 = Student.uniqueId s2
    \/ (Student.academicYearId s1 = Student.academicYearId s2
        /\ Student.rollNumber s1 = Student.rollNumber s2) ->
    s1 = s2.
Proof.
  intros Hr s1 s2 H1 H2 Hsame.
  destruct (reachable_studentsDistinct st Hr) as (Hid & Hem & Huid & Hkey).
  destruct Hsame as [H|[H|[H|[Ha Hroll]]]].
  - by eapply (NoDup_fmap_elem_inj Student._id).
  - by eapply (NoDup_fmap_elem_inj Student.email).
  - by eapply (NoDup_fmap_elem_inj Student.uniqueId).
  - eapply (NoDup_fmap_elem_inj snapshotKey); [exact Hkey|done..|].
    unfold snapshotKey. by rewrite Ha, Hroll.
Qed.

Lemma students_unique_in_reachable_states_witness :
  default (Demo.ann "y24") (head (students Demo.enrolledAhead))
  = default (Demo.ann "y24") (findStudent "ann" (students Demo.enrolledAhead)).
Proof.
  apply (students_unique_in_reachable_states Demo.enrolledAhead).
  - unfold Demo.enrolledAhead. apply reachable_step, reachable_step.
    exact (reachable_fresh [Demo.y24; Demo.y25; Demo.y26] [Demo.c9; Demo.c10]
             [Demo.s9a; Demo.s9b; Demo.s10a]).
  - vm_compute. left.
  - vm_compute. left.
  - left. reflexivity.
Defined.


(* ===================================================================== *)
(** ** The byte order of strings and the numbers they spell *)
(* ===================================================================== *)

Lemma Ascii_compare_Lt a b :
  Ascii.compare a b = Lt <-> (N_of_ascii a < N_of_ascii b)%N.
Proof. unfold Ascii.compare. apply N.compare_lt_iff. Qed.

Lemma Ascii_compare_refl a : Ascii.compare a a = Eq.
Proof. unfold Ascii.compare. apply N.compare_refl. Qed.

Lemma String_compare_refl s : String.compare s s = Eq.
Proof. induction s as [|c s IH]; simpl; [done|]. by rewrite Ascii_compare_refl. Qed.

Lemma String_compare_trans s1 s2 s3 :
  String.compare s1 s2 = Lt -> String.compare s2 s3 = Lt -> String.compare s1 s3 = Lt.
Proof.
  revert s2 s3. induction s1 as [|c1 s1 IH]; intros [|c2 s2] [|c3 s3]; simpl; try done.
  destruct (Ascii.compare c1 c2) eqn:E12; [|intros _|done].
  - apply Ascii.compare_eq_iff in E12 as ->.
    destruct (Ascii.compare c2 c3); [apply IH | done | done].
  - destruct (Ascii.compare c2 c3) eqn:E23; [|intros _|done].
    + apply Ascii.compare_eq_iff in E23 as <-. by rewrite E12.
    + unfold Ascii.compare in E12, E23. rewrite N.compare_lt_iff in E12, E23.
      assert (H : Ascii.compare c1 c3 = Lt) by (apply Ascii_compare_Lt; lia).
      by rewrite H.
Qed.

Lemma ltb_Lt s1 s2 : String.ltb s1 s2 = true <-> String.compare s1 s2 = Lt.
Proof. unfold String.ltb. destruct (String.compare s1 s2); split; done. Qed.

Lemma ltb_irrefl s : String.ltb s s = false.
Proof. unfold String.ltb. by rewrite String_compare_refl. Qed.

Lemma ltb_trans s1 s2 s3 :
  String.ltb s1 s2 = true -> String.ltb s2 s3 = true -> String.ltb s1 s3 = true.
Proof. rewrite !ltb_Lt. apply String_compare_trans. Qed.

(** Neither is below the other: the strings are equal. *)
Lemma ltb_neither s1 s2 :
  String.ltb s1 s2 = false -> String.ltb s2 s1 = false -> s1 = s2.
Proof.
  unfold String.ltb. rewrite (String.compare_antisym s2 s1).
  destruct (String.compare s1 s2) eqn:E; simpl; try done.
  intros _ _. by apply String.compare_eq_iff.
Qed.

Lemma compare_append p a b : String.compare (p +:+ a) (p +:+ b) = String.compare a b.
Proof.
  induction p as [|c p IH]; [done|].
  change (String c p +:+ a) with (String c (p +:+ a)).
  change (String c p +:+ b) with (String c (p +:+ b)).
  simpl. by rewrite Ascii_compare_refl.
Qed.

Lemma ltb_append p a b : String.ltb (p +:+ a) (p +:+ b) = String.ltb a b.
Proof. unfold String.ltb. by rewrite compare_append. Qed.

Lemma append_inj_l p a b : p +:+ a = p +:+ b -> a = b.
Proof.
  induction p as [|c p IH]; [done|].
  change (String c p +:+ a) with (String c (p +:+ a)).
  change (String c p +:+ b) with (String c (p +:+ b)).
  intros [= H]. by apply IH.
Qed.

Lemma prefix_append p a : String.prefix p (p +:+ a) = true.
Proof.
  induction p as [|c p IH]; [by destruct a|].
  change (String c p +:+ a) with (String c (p +:+ a)). simpl.
  destruct (ascii_dec c c); [exact IH | done].
Qed.

Lemma prefix_split p s : String.prefix p s = true -> exists a, s = p +:+ a.
Proof.
  revert s. induction p as [|c p IH]; intros s; [exists s; done|].
  destruct s as [|b s]; simpl; [done|].
  destruct (ascii_dec c b) as [->|]; [|done].
  intros H. destruct (IH s H) as [a ->]. by exists a.
Qed.

(** *** The greatest key *)

Lemma greatestBy_spec {A} (key : A -> string) (l : list A) :
  match greatestBy key l with
  | None => l = []
  | Some m => m ∈ l /\ forall x, x ∈ l -> String.ltb (key m) (key x) = false
  end.
Proof.
  unfold greatestBy.
  assert (H : forall l0 best,
             match best with
             | None => l0 = []
             | Some m => m ∈ l0 /\ forall x, x ∈ l0 -> String.ltb (key m) (key x) = false
             end ->
             match fold_left (fun best x =>
                                match best with
                                | None => Some x
                                | Some b => if String.ltb (key b) (key x) then Some x
                                            else Some b
                                end) l best with
             | None => l0 ++ l = []
             | Some m => m ∈ l0 ++ l
                         /\ forall x, x ∈ l0 ++ l -> String.ltb (key m) (key x) = false
             end).
  { induction l as [|y l IH]; intros l0 best Hb; simpl.
    - rewrite app_nil_r. exact Hb.
    - replace (l0 ++ y :: l) with ((l0 ++ [y]) ++ l) by (by rewrite <- app_assoc).
      apply IH. destruct best as [b|].
      + destruct Hb as [Hin Hmax]. destruct (String.ltb (key b) (key y)) eqn:E.
        * split; [apply elem_of_app; right; by left|].
          intros x Hx. apply elem_of_app in Hx as [Hx|Hx].
          -- destruct (String.ltb (key y) (key x)) eqn:E2; [|done].
             rewrite <- (Hmax x Hx). symmetry. by eapply ltb_trans.
          -- apply list_elem_of_singleton in Hx as ->. apply ltb_irrefl.
        * split; [apply elem_of_app; by left|].
          intros x Hx. apply elem_of_app in Hx as [Hx|Hx]; [by apply Hmax|].
          by apply list_elem_of_singleton in Hx as ->.
      + subst l0. split; [by left|]. intros x Hx.
        apply list_elem_of_singleton in Hx as ->. apply ltb_irrefl. }
  apply (H [] None). done.
Qed.

(** *** Decimal digits *)

Lemma parseDigits_acc s acc :
  JS.parseDigits acc s = (acc * 10 ^ N.of_nat (String.length s) + JS.parseDigits 0 s)%N.
Proof.
  revert acc. induction s as [|c s IH]; intros acc; simpl String.length; simpl JS.parseDigits.
  - simpl. lia.
  - rewrite (IH (10 * acc + (N_of_ascii c - 48))%N), (IH (10 * 0 + (N_of_ascii c - 48))%N).
    rewrite Nat2N.inj_succ, N.pow_succ_r'. lia.
Qed.

Lemma isDigit_value c : JS.isDigit c = true -> (48 <= N_of_ascii c <= 57)%N.
Proof.
  unfold JS.isDigit. intros H. apply andb_true_iff in H as [H1 H2].
  apply N.leb_le in H1, H2. lia.
Qed.

Lemma parseInt_bound s :
  JS.allDigits s = true -> (JS.parseInt s < 10 ^ N.of_nat (String.length s))%N.
Proof.
  unfold JS.parseInt. induction s as [|c s IH]; simpl; [lia|].
  intros H. apply andb_true_iff in H as [Hc Hs]. apply isDigit_value in Hc.
  rewrite parseDigits_acc. specialize (IH Hs).
  rewrite Nat2N.inj_succ, N.pow_succ_r'. nia.
Qed.

Lemma parseInt_cons c s :
  JS.parseInt (String c s)
  = ((N_of_ascii c - 48) * 10 ^ N.of_nat (String.length s) + JS.parseInt s)%N.
Proof. unfold JS.parseInt. simpl. rewrite parseDigits_acc. lia. Qed.

(** On digit strings of one length the byte order is the order of the
    numbers. *)
Lemma digits_ltb a b :
  String.length a = String.length b ->
  JS.allDigits a = true -> JS.allDigits b = true ->
  (JS.parseInt a < JS.parseInt b)%N -> String.ltb a b = true.
Proof.
  revert b. induction a as [|c1 a IH]; intros [|c2 b]; simpl String.length; try done.
  - intros [= Hlen] Ha Hb. simpl in Ha, Hb.
    apply andb_true_iff in Ha as [Hc1 Ha], Hb as [Hc2 Hb].
    rewrite !parseInt_cons, Hlen. intros Hlt.
    pose proof (parseInt_bound a Ha) as Hba. pose proof (parseInt_bound b Hb) as Hbb.
    rewrite Hlen in Hba.
    apply isDigit_value in Hc1, Hc2.
    apply ltb_Lt. simpl.
    destruct (N.lt_trichotomy (N_of_ascii c1) (N_of_ascii c2)) as [H|[H|H]].
    + apply Ascii_compare_Lt in H. by rewrite H.
    + assert (Heq : Ascii.compare c1 c2 = Eq).
      { unfold Ascii.compare. by apply N.compare_eq_iff. }
      rewrite Heq. apply ltb_Lt, IH; [done..|]. rewrite H in Hlt. lia.
    + exfalso. nia.
Qed.

Lemma parseDigits_Npos d acc :
  JS.parseDigits (Npos acc) (NilEmpty.string_of_uint d) = Npos (Pos.of_uint_acc d acc).
Proof.
  revert acc. induction d; intros acc; simpl; [done|..];
    match goal with |- JS.parseDigits ?v _ = _ =>
      let p := eval cbv in v in idtac end || idtac;
    (etransitivity; [|apply IHd]); f_equal; cbn; lia.
Qed.

Lemma parseInt_of_uint d : JS.parseInt (NilEmpty.string_of_uint d) = N.of_uint d.
Proof.
  unfold JS.parseInt, N.of_uint.
  induction d; simpl; [done|exact IHd|..];
    (etransitivity; [|apply (parseDigits_Npos d)]); f_equal.
Qed.

Lemma parseInt_ofNumber n : JS.parseInt (JS.ofNumber n) = n.
Proof.
  unfold JS.ofNumber, NilZero.string_of_uint.
  destruct (N.to_uint n) eqn:E; rewrite <- (DecimalN.Unsigned.of_to n), E;
    [reflexivity | apply parseInt_of_uint ..].
Qed.

Lemma parseInt_zeros k s :
  JS.parseInt (JS.repeatChar k "0" +:+ s) = JS.parseInt s.
Proof.
  induction k as [|k IH]; [done|].
  simpl JS.repeatChar.
  change (String "0" (JS.repeatChar k "0") +:+ s)
    with (String "0" (JS.repeatChar k "0" +:+ s)).
  unfold JS.parseInt in *. simpl. exact IH.
Qed.

Lemma parseInt_padStart k n : JS.parseInt (JS.padStart k "0" (JS.ofNumber n)) = n.
Proof. unfold JS.padStart. by rewrite parseInt_zeros, parseInt_ofNumber. Qed.


(* ===================================================================== *)
(** ** The counters of the id generator *)
(* ===================================================================== *)

Lemma append_assoc a b c : (a +:+ b) +:+ c = a +:+ (b +:+ c).
Proof.
  induction a as [|x a IH]; [done|].
  change ((String x a +:+ b) +:+ c) with (String x ((a +:+ b) +:+ c)).
  change (String x a +:+ (b +:+ c)) with (String x (a +:+ (b +:+ c))).
  by rewrite IH.
Qed.

Lemma allDigits_broken q c d :
  JS.isDigit c = false -> JS.allDigits (q +:+ String c d) = false.
Proof.
  intros Hc. induction q as [|x q IH].
  - simpl. by rewrite Hc.
  - change (String x q +:+ String c d) with (String x (q +:+ String c d)).
    simpl. rewrite IH. apply andb_false_r.
Qed.

(** The digits that end a key made of a prefix closed by a dash and a
    run of digits. *)
Lemma trailingDigits_after q d :
  JS.allDigits d = true -> d <> "" -> JS.trailingDigits ((q +:+ "-") +:+ d) = d.
Proof.
  intros Hd Hne. rewrite append_assoc. change ("-" +:+ d) with (String "-" d).
  induction q as [|x q IH].
  - simpl. destruct d as [|c d]; [done|]. simpl in *. by rewrite Hd.
  - change (String x q +:+ String "-" d) with (String x (q +:+ String "-" d)).
    cbn [JS.trailingDigits].
    change (String x (q +:+ String "-" d)) with (String x q +:+ String "-" d).
    rewrite (allDigits_broken (String x q) "-" d) by done.
    exact IH.
Qed.

Lemma nextNumberAfter_key q d :
  JS.allDigits d = true -> d <> "" ->
  nextNumberAfter (Some ((q +:+ "-") +:+ d)) = (JS.parseInt d + 1)%N.
Proof.
  intros Hd Hne. unfold nextNumberAfter.
  destruct ((q +:+ "-") +:+ d) as [|c s] eqn:E.
  { destruct q, d; simpl in E; done. }
  rewrite <- E. unfold JS.matchTrailingDigits. rewrite (trailingDigits_after q d Hd Hne).
  by destruct d.
Qed.

Lemma length_nonempty d w : String.length d = w -> 0 < w -> d <> "".
Proof. intros <- H ->. simpl in H. lia. Qed.

(** The number the generator appends: one more than the greatest number
    in use, when every key in use is the prefix followed by [w] digits. *)
Lemma next_after_greatest {A} (key : A -> string) (l : list A) q w :
  0 < w ->
  (forall x, x ∈ l -> exists d, key x = (q +:+ "-") +:+ d
                                /\ String.length d = w /\ JS.allDigits d = true) ->
  let n := nextNumberAfter (key <$> greatestBy key l) in
  (forall x d, x ∈ l -> key x = (q +:+ "-") +:+ d -> (JS.parseInt d < n)%N)
  /\ ((l = [] /\ n = 1%N)
      \/ exists x d, x ∈ l /\ key x = (q +:+ "-") +:+ d /\ (JS.parseInt d + 1)%N = n).
Proof.
  intros Hw Hform n. subst n.
  pose proof (greatestBy_spec key l) as Hg.
  destruct (greatestBy key l) as [m|].
  2:{ subst l. split; [|left; done]. intros x d Hx. by apply elem_of_nil in Hx. }
  change (key <$> Some m) with (Some (key m)).
  destruct Hg as [Hm Hmax].
  destruct (Hform m Hm) as (dm & Hkm & Hlm & Hdm).
  rewrite Hkm, (nextNumberAfter_key q dm Hdm (length_nonempty _ _ Hlm Hw)).
  split; [|right; by exists m, dm].
  intros x d Hx Hkx.
  destruct (Hform x Hx) as (d' & Hkx' & Hlx & Hdx).
  rewrite Hkx in Hkx'. apply append_inj_l in Hkx' as <-.
  specialize (Hmax x Hx). rewrite Hkm, Hkx, ltb_append in Hmax.
  destruct (N.lt_ge_cases (JS.parseInt dm) (JS.parseInt d)) as [Hlt|Hge]; [|lia].
  rewrite (digits_ltb dm d) in Hmax; [done | congruence | done..].
Qed.

(** The key the generator builds is not in use. *)
Lemma next_key_fresh {A} (key : A -> string) (l : list A) q w :
  0 < w ->
  (forall x, x ∈ l -> exists d, key x = (q +:+ "-") +:+ d
                                /\ String.length d = w /\ JS.allDigits d = true) ->
  forall x, x ∈ l ->
    key x <> (q +:+ "-") +:+ JS.padStart w "0"
                               (JS.ofNumber (nextNumberAfter (key <$> greatestBy key l))).
Proof.
  intros Hw Hform x Hx Heq.
  destruct (next_after_greatest key l q w Hw Hform) as [Hlt _].
  specialize (Hlt x _ Hx Heq). rewrite parseInt_padStart in Hlt. lia.
Qed.

Lemma greatestBy_fmap {A} (key : A -> string) (l : list A) :
  greatestBy id (key <$> l) = key <$> greatestBy key l.
Proof.
  unfold greatestBy.
  assert (H : forall best,
             fold_left (fun best x =>
                          match best with
                          | None => Some x
                          | Some b => if String.ltb (id b) (id x) then Some x else Some b
                          end) (key <$> l) (key <$> best)
             = key <$> fold_left (fun best x =>
                                    match best with
                                    | None => Some x
                                    | Some b => if String.ltb (key b) (key x) then Some x
                                                else Some b
                                    end) l best).
  { induction l as [|y l IH]; intros best; simpl; [done|].
    rewrite <- IH. f_equal. destruct best as [b|]; simpl; [|done].
    unfold id. by destruct (String.ltb (key b) (key y)). }
  exact (H None).
Qed.

(** The prefix of a roll number ends with a dash. *)
Lemma rollPrefix_dash a b : a +:+ "-" +:+ b +:+ "-" = ((a +:+ "-") +:+ b) +:+ "-".
Proof. by rewrite !append_assoc. Qed.

Lemma elem_of_filter_bool' {A} (p : A -> bool) l x :
  x ∈ List.filter p l <-> x ∈ l /\ p x = true.
Proof. rewrite !list_elem_of_In. apply filter_In. Qed.

(** X8. The roll-number generator counts on from the highest number in
    use. Suppose every ledger entry of the year whose roll number starts
    with the prefix "CLASS-SECTION-" of the given class and section is
    that prefix followed by three digits. Then the generated roll number
    is the prefix followed by a number [n], padded to three digits, that
    is greater than the number of every such entry; [n] is 1 when there
    is no such entry and otherwise one more than the number of one of
    them; and no entry of the year holds the generated roll number. *)
Theorem generateRollNumber_counts_on l className sectionName y :
  let rollPrefix := JS.trim (JS.toUpperCase className) +:+ "-"
                    +:+ JS.trim (JS.toUpperCase sectionName) +:+ "-" in
  (forall e, e ∈ l -> Enrollment.academicYearId e = y ->
             String.prefix rollPrefix (Enrollment.rollNumber e) = true ->
             exists d, Enrollment.rollNumber e = rollPrefix +:+ d
                       /\ String.length d = 3 /\ JS.allDigits d = true) ->
  exists n,
    generateRollNumber l className sectionName y
    = rollPrefix +:+ JS.padStart 3 "0" (JS.ofNumber n)
    /\ (forall e d, e ∈ l -> Enrollment.academicYearId e = y ->
                    Enrollment.rollNumber e = rollPrefix +:+ d -> (JS.parseInt d < n)%N)
    /\ ((n = 1%N /\ forall e, e ∈ l -> Enrollment.academicYearId e = y ->
                              String.prefix rollPrefix (Enrollment.rollNumber e) = false)
        \/ exists e d, e ∈ l /\ Enrollment.academicYearId e = y
                       /\ Enrollment.rollNumber e = rollPrefix +:+ d
                       /\ (JS.parseInt d + 1)%N = n)
    /\ (forall e, e ∈ l -> Enrollment.academicYearId e = y ->
                  Enrollment.rollNumber e <> generateRollNumber l className sectionName y).
Proof.
  intros P Hform. unfold generateRollNumber. fold P.
  set (cands := List.filter (fun e => eqs (Enrollment.academicYearId e) y
                                      && String.prefix P (Enrollment.rollNumber e)) l).
  assert (Hc : forall e, e ∈ cands <->
                         e ∈ l /\ Enrollment.academicYearId e = y
                         /\ String.prefix P (Enrollment.rollNumber e) = true).
  { intros e. unfold cands. rewrite elem_of_filter_bool', andb_true_iff, eqs_true. tauto. }
  assert (HP : P = ((JS.trim (JS.toUpperCase className) +:+ "-")
                    +:+ JS.trim (JS.toUpperCase sectionName)) +:+ "-").
  { apply rollPrefix_dash. }
  set (q := (JS.trim (JS.toUpperCase className) +:+ "-")
            +:+ JS.trim (JS.toUpperCase sectionName)) in HP.
  assert (Hcform : forall x, x ∈ cands ->
                     exists d, Enrollment.rollNumber x = (q +:+ "-") +:+ d
                               /\ String.length d = 3 /\ JS.allDigits d = true).
  { intros x Hx. apply Hc in Hx as (Hx & Hy & Hp). rewrite <- HP. by apply Hform. }
  destruct (next_after_greatest Enrollment.rollNumber cands q 3 ltac:(lia) Hcform)
    as [Hlt Hn].
  set (n := nextNumberAfter (Enrollment.rollNumber <$> greatestBy Enrollment.rollNumber cands))
    in *.
  exists n. split; [done|]. rewrite <- HP in Hlt, Hn.
  assert (Hall : forall e d, e ∈ l -> Enrollment.academicYearId e = y ->
                   Enrollment.rollNumber e = P +:+ d -> (JS.parseInt d < n)%N).
  { intros e d He Hy Hr. apply (Hlt e d); [|done].
    apply Hc. split; [done|]. split; [done|]. rewrite Hr. apply prefix_append. }
  split; [exact Hall|]. split.
  - destruct Hn as [[Hnil Hn1]|(x & d & Hx & Hr & Hd)].
    + left. split; [done|]. intros e He Hy.
      destruct (String.prefix P (Enrollment.rollNumber e)) eqn:Ep; [|done].
      assert (He' : e ∈ cands) by (by apply Hc). rewrite Hnil in He'.
      by apply elem_of_nil in He'.
    + right. apply Hc in Hx as (Hx & Hy & _). by exists x, d.
  - intros e He Hy Hr. specialize (Hall e _ He Hy Hr).
    rewrite parseInt_padStart in Hall. lia.
Qed.

Lemma generateRollNumber_counts_on_witness :
  generateRollNumber (enrollments Demo.school) "9" "a" "y24" = "9-A-003"
  /\ forall e, e ∈ enrollments Demo.school -> Enrollment.academicYearId e = "y24" ->
                Enrollment.rollNumber e
                <> generateRollNumber (enrollments Demo.school) "9" "a" "y24".
Proof.
  destruct (generateRollNumber_counts_on (enrollments Demo.school) "9" "a" "y24")
    as (n & Hn & _ & _ & Hfresh).
  - intros e He _ Hp.
    apply elem_of_cons in He as [->|He]; [exists "001"; by vm_compute|].
    apply elem_of_cons in He as [->|He]; [exists "002"; by vm_compute|].
    apply elem_of_cons in He as [->|He]; [by vm_compute in Hp|].
    by apply elem_of_nil in He.
  - split; [reflexivity | exact Hfresh].
Defined.

(** X9. The roll-number counter of a class and section in a year ends
    at 1000. Once the ledger of the year holds the numbers 999 and 1000
    for the prefix, and no roll number with that prefix is above
    "PREFIX-999" in the byte order the query sorts by, the generator
    returns "PREFIX-1000" again, a number that is taken: a re-admission
    into that class and section for that year fails with the ledger's
    duplicate-key error and writes nothing, however often it is
    tried. *)
Theorem reAdmit_fails_once_counter_passes_999 st sid c s y student cd sd e999 e1000 :
  let rollPrefix := JS.trim (JS.toUpperCase (Class.name cd)) +:+ "-"
                    +:+ JS.trim (JS.toUpperCase (Section.name sd)) +:+ "-" in
  findStudent sid (students st) = Some student ->
  findEnrollment sid y (enrollments st) = None ->
  StudentsService.findClass c st = Some cd ->
  StudentsService.findSection s st = Some sd ->
  e999 ∈ enrollments st -> Enrollment.academicYearId e999 = y ->
  Enrollment.rollNumber e999 = rollPrefix +:+ "999" ->
  e1000 ∈ enrollments st -> Enrollment.academicYearId e1000 = y ->
  Enrollment.rollNumber e1000 = rollPrefix +:+ "1000" ->
  (forall e, e ∈ enrollments st -> Enrollment.academicYearId e = y ->
             String.prefix rollPrefix (Enrollment.rollNumber e) = true ->
             String.ltb (rollPrefix +:+ "999") (Enrollment.rollNumber e) = false) ->
  generateRollNumber (enrollments st) (Class.name cd) (Section.name sd) y
  = rollPrefix +:+ "1000"
  /\ exists err,
       StudentsService.reAdmit sid c s y st = (Err err, st)
       /\ (err = MongoServerError 11000 ["academicYearId"; "rollNumber"]
           \/ exists p, err = MongooseValidationError p).
Proof.
  intros P Hs Hnone Hcl Hse H999 Hy999 Hr999 H1000 Hy1000 Hr1000 Htop.
  assert (Hgen : generateRollNumber (enrollments st) (Class.name cd) (Section.name sd) y
                 = P +:+ "1000").
  { unfold generateRollNumber. fold P.
    set (cands := List.filter (fun e => eqs (Enrollment.academicYearId e) y
                                        && String.prefix P (Enrollment.rollNumber e))
                    (enrollments st)).
    assert (Hc : forall e, e ∈ cands <->
                           e ∈ enrollments st /\ Enrollment.academicYearId e = y
                           /\ String.prefix P (Enrollment.rollNumber e) = true).
    { intros e. unfold cands. rewrite elem_of_filter_bool', andb_true_iff, eqs_true. tauto. }
    assert (Hin : e999 ∈ cands).
    { apply Hc. split; [done|]. split; [done|]. rewrite Hr999. apply prefix_append. }
    pose proof (greatestBy_spec Enrollment.rollNumber cands) as Hg.
    destruct (greatestBy Enrollment.rollNumber cands) as [m|];
      [|rewrite Hg in Hin; by apply elem_of_nil in Hin].
    destruct Hg as [Hm Hmax]. apply Hc in Hm as (Hm & Hym & Hpm).
    assert (Hrm : Enrollment.rollNumber m = P +:+ "999").
    { apply ltb_neither; [|by apply Htop]. rewrite <- Hr999. by apply Hmax. }
    change (Enrollment.rollNumber <$> Some m) with (Some (Enrollment.rollNumber m)).
    rewrite Hrm. unfold P at 2. rewrite rollPrefix_dash.
    rewrite nextNumberAfter_key by done. reflexivity. }
  split; [exact Hgen|].
  unfold StudentsService.reAdmit. rewrite Hs, Hnone, Hcl, Hse. simpl.
  unfold withTransaction.
  destruct (Enrollment_create_roll_taken (Some sid) (Some y) (Some c) (Some s)
              (generateRollNumber (enrollments st) (Class.name cd) (Section.name sd) y)
              (enrollments st) e1000 y) as (err & -> & Herr); try done.
  { by rewrite generateRollNumber_trimmed, Hgen. }
  simpl. eauto.
Qed.

Lemma reAdmit_fails_once_counter_passes_999_witness :
  generateRollNumber (enrollments Sample.schoolFull) "10" "a" "y25" = "10-A-1000"
  /\ exists err,
       StudentsService.reAdmit "ann" "c10" "s10a" "y25" Sample.schoolFull
       = (Err err, Sample.schoolFull)
       /\ (err = MongoServerError 11000 ["academicYearId"; "rollNumber"]
           \/ exists p, err = MongooseValidationError p).
Proof.
  apply (reAdmit_fails_once_counter_passes_999 Sample.schoolFull "ann" "c10" "s10a" "y25"
           (Demo.ann "y24") Demo.c10 Demo.s10a
           (Enrollment.mk "pia" "y25" "c10" "s10a" "10-A-999")
           (Enrollment.mk "quy" "y25" "c10" "s10a" "10-A-1000"));
    try reflexivity.
  - apply list_elem_of_In. simpl. tauto.
  - apply list_elem_of_In. simpl. tauto.
  - intros e He _ Hp.
    apply elem_of_cons in He as [->|He]; [by vm_compute in Hp|].
    apply elem_of_cons in He as [->|He]; [by vm_compute|].
    apply elem_of_cons in He as [->|He]; [by vm_compute|].
    by apply elem_of_nil in He.
Defined.

(** X10. The unique-id generator counts on within a calendar year.
    Suppose every unique id of the collection that starts with
    "PREFIX-YEAR-" is that pattern followed by four digits. Then the
    generated id is the pattern followed by a number, padded to four
    digits, that is greater than the number of every such id, and no
    document of the collection holds the generated id; the ids of other
    years and other prefixes play no part. *)
Theorem generateUniqueId_counts_on model prefix currentYear :
  let yearPattern := prefix +:+ "-" +:+ JS.ofNumber currentYear +:+ "-" in
  (forall s u, s ∈ model -> Student.uniqueId s = Some u ->
               String.prefix yearPattern u = true ->
               exists d, u = yearPattern +:+ d
                         /\ String.length d = 4 /\ JS.allDigits d = true) ->
  exists n,
    generateUniqueId model prefix currentYear
    = yearPattern +:+ JS.padStart 4 "0" (JS.ofNumber n)
    /\ (forall s d, s ∈ model -> Student.uniqueId s = Some (yearPattern +:+ d) ->
                    (JS.parseInt d < n)%N)
    /\ (forall s, s ∈ model ->
                  Student.uniqueId s <> Some (generateUniqueId model prefix currentYear)).
Proof.
  intros P Hform. unfold generateUniqueId. fold P.
  set (ids := omap (fun s => match Student.uniqueId s with
                             | Some u => if String.prefix P u then Some u else None
                             | None => None
                             end) model).
  assert (Hids : forall u, u ∈ ids <->
                           exists s, s ∈ model /\ Student.uniqueId s = Some u
                                     /\ String.prefix P u = true).
  { intros u. unfold ids. rewrite list_elem_of_omap. split.
    - intros (s & Hs & Hu). exists s. split; [done|].
      destruct (Student.uniqueId s) as [u'|]; [|done].
      destruct (String.prefix P u') eqn:Ep; [|done]. by injection Hu as <-.
    - intros (s & Hs & Hu & Hp). exists s. split; [done|]. by rewrite Hu, Hp. }
  assert (HP : P = ((prefix +:+ "-") +:+ JS.ofNumber currentYear) +:+ "-").
  { apply rollPrefix_dash. }
  set (q := (prefix +:+ "-") +:+ JS.ofNumber currentYear) in HP.
  assert (Hcform : forall u, u ∈ ids ->
                     exists d, id u = (q +:+ "-") +:+ d
                               /\ String.length d = 4 /\ JS.allDigits d = true).
  { intros u Hu. apply Hids in Hu as (s & Hs & Hu & Hp). rewrite <- HP. by eapply Hform. }
  destruct (next_after_greatest id ids q 4 ltac:(lia) Hcform) as [Hlt _].
  rewrite option_fmap_id in Hlt.
  set (n := nextNumberAfter (greatestBy id ids)) in *.
  exists n. split; [done|]. rewrite <- HP in Hlt.
  assert (Hall : forall s d, s ∈ model -> Student.uniqueId s = Some (P +:+ d) ->
                   (JS.parseInt d < n)%N).
  { intros s d Hs Hu. apply (Hlt (P +:+ d) d); [|done].
    apply Hids. exists s. split; [done|]. split; [done|]. apply prefix_append. }
  split; [exact Hall|].
  intros s Hs Hu. specialize (Hall s _ Hs Hu). rewrite parseInt_padStart in Hall. lia.
Qed.

Lemma generateUniqueId_counts_on_witness :
  generateUniqueId Sample.admitted2025 "STU" 2025 = "STU-2025-0003"
  /\ forall s, s ∈ Sample.admitted2025 ->
               Student.uniqueId s <> Some (generateUniqueId Sample.admitted2025 "STU" 2025).
Proof.
  destruct (generateUniqueId_counts_on Sample.admitted2025 "STU" 2025)
    as (n & Hn & _ & Hfresh).
  - intros s u Hs Hu Hp.
    apply elem_of_cons in Hs as [->|Hs];
      [injection Hu as <-; exists "0001"; by vm_compute|].
    apply elem_of_cons in Hs as [->|Hs];
      [injection Hu as <-; exists "0002"; by vm_compute|].
    apply elem_of_cons in Hs as [->|Hs];
      [injection Hu as <-; by vm_compute in Hp|].
    by apply elem_of_nil in Hs.
  - split; [reflexivity | exact Hfresh].
Defined.


(* ===================================================================== *)
(** ** The label of an academic year *)
(* ===================================================================== *)









(* ===================================================================== *)
(** ** Bulk promotion: target class, sections and report *)
(* ===================================================================== *)

(** [nextClassAfter] finds the class of least order above [order]. *)
Lemma nextClassAfter_spec order l :
  match StudentsService.nextClassAfter order l with
  | None => forall c o, c ∈ l -> Class.order c = Some o -> (o <= order)%Z
  | Some next =>
      next ∈ l
      /\ exists on, Class.order next = Some on /\ (order < on)%Z
                    /\ forall c o, c ∈ l -> Class.order c = Some o -> (order < o)%Z ->
                                   (on <= o)%Z
  end.
Proof.
  unfold StudentsService.nextClassAfter.
  set (step := fun (best : option Class.t) (c : Class.t) =>
                 match Class.order c with
                 | Some o =>
                     if (order <? o)%Z then
                       match best with
                       | Some b => if (o <? default o (Class.order b))%Z then Some c else best
                       | None => Some c
                       end
                     else best
                 | None => best
                 end).
  assert (H : forall l0 best,
             match best with
             | None => forall c o, c ∈ l0 -> Class.order c = Some o -> (o <= order)%Z
             | Some next =>
                 next ∈ l0
                 /\ exists on, Class.order next = Some on /\ (order < on)%Z
                               /\ forall c o, c ∈ l0 -> Class.order c = Some o ->
                                              (order < o)%Z -> (on <= o)%Z
             end ->
             match fold_left step l best with
             | None => forall c o, c ∈ l0 ++ l -> Class.order c = Some o -> (o <= order)%Z
             | Some next =>
                 next ∈ l0 ++ l
                 /\ exists on, Class.order next = Some on /\ (order < on)%Z
                               /\ forall c o, c ∈ l0 ++ l -> Class.order c = Some o ->
                                              (order < o)%Z -> (on <= o)%Z
             end).
  { induction l as [|y l IH]; intros l0 best Hb; simpl.
    - rewrite app_nil_r. exact Hb.
    - replace (l0 ++ y :: l) with ((l0 ++ [y]) ++ l) by (by rewrite <- app_assoc).
      apply IH. unfold step at 1.
      destruct (Class.order y) as [oy|] eqn:Ey.
      2:{ destruct best as [b|].
          - destruct Hb as (Hin & on & Hon & Hlt & Hmin). split; [apply elem_of_app; by left|].
            exists on. split; [done|]. split; [done|].
            intros c o Hc Ho. apply elem_of_app in Hc as [Hc|Hc]; [by eapply Hmin|].
            apply list_elem_of_singleton in Hc as ->. congruence.
          - intros c o Hc Ho. apply elem_of_app in Hc as [Hc|Hc]; [by eapply Hb|].
            apply list_elem_of_singleton in Hc as ->. congruence. }
      destruct (order <? oy)%Z eqn:Elt.
      + apply Z.ltb_lt in Elt. destruct best as [b|].
        * destruct Hb as (Hin & on & Hon & Hlt & Hmin). rewrite Hon. simpl.
          destruct (oy <? on)%Z eqn:E2.
          -- apply Z.ltb_lt in E2. split; [apply elem_of_app; right; by left|].
             exists oy. split; [done|]. split; [done|].
             intros c o Hc Ho Hgt. apply elem_of_app in Hc as [Hc|Hc].
             ++ specialize (Hmin c o Hc Ho Hgt). lia.
             ++ apply list_elem_of_singleton in Hc as ->. rewrite Ey in Ho.
                injection Ho as <-. lia.
          -- apply Z.ltb_ge in E2. split; [apply elem_of_app; by left|].
             exists on. split; [done|]. split; [done|].
             intros c o Hc Ho Hgt. apply elem_of_app in Hc as [Hc|Hc]; [by eapply Hmin|].
             apply list_elem_of_singleton in Hc as ->. rewrite Ey in Ho.
             injection Ho as <-. lia.
        * split; [apply elem_of_app; right; by left|].
          exists oy. split; [done|]. split; [done|].
          intros c o Hc Ho Hgt. apply elem_of_app in Hc as [Hc|Hc].
          -- specialize (Hb c o Hc Ho). lia.
          -- apply list_elem_of_singleton in Hc as ->. rewrite Ey in Ho.
             injection Ho as <-. lia.
      + apply Z.ltb_ge in Elt. destruct best as [b|].
        * destruct Hb as (Hin & on & Hon & Hlt & Hmin). split; [apply elem_of_app; by left|].
          exists on. split; [done|]. split; [done|].
          intros c o Hc Ho Hgt. apply elem_of_app in Hc as [Hc|Hc]; [by eapply Hmin|].
          apply list_elem_of_singleton in Hc as ->. rewrite Ey in Ho.
          injection Ho as <-. lia.
        * intros c o Hc Ho. apply elem_of_app in Hc as [Hc|Hc]; [by eapply Hb|].
          apply list_elem_of_singleton in Hc as ->. rewrite Ey in Ho.
          injection Ho as <-. lia. }
  apply (H [] None). intros c o Hc. by apply elem_of_nil in Hc.
Qed.

(** X12. When a bulk promotion names no target class, the class it
    infers is the immediate successor of the source class in the order
    of classes: a class whose [order] is above that of the source class,
    with no class in between. The inference fails with a bad request
    exactly when the source class does not exist or has no [order]
    ("cannot infer") or when no class has a greater [order] ("no next
    class configured"). *)
Theorem resolveTargetClass_immediate_successor dto st :
  JS.truthy (PromoteBulkDto.targetClassId dto) = false ->
  match StudentsService.resolveTargetClass dto st with
  | Ok targetClassId =>
      exists cur o next on,
        StudentsService.findClass (PromoteBulkDto.fromClassId dto) st = Some cur
        /\ Class.order cur = Some o
        /\ next ∈ classes st /\ Class._id next = targetClassId
        /\ Class.order next = Some on /\ (o < on)%Z
        /\ forall c oc, c ∈ classes st -> Class.order c = Some oc -> (o < oc)%Z ->
                        (on <= oc)%Z
  | Err e =>
      (e = BadRequestException
             "Cannot infer next class: current class not found or has no order"
       /\ forall cur, StudentsService.findClass (PromoteBulkDto.fromClassId dto) st = Some cur ->
                      Class.order cur = None)
      \/ (e = BadRequestException "No next class configured after current class"
          /\ exists cur o,
               StudentsService.findClass (PromoteBulkDto.fromClassId dto) st = Some cur
               /\ Class.order cur = Some o
               /\ forall c oc, c ∈ classes st -> Class.order c = Some oc -> (oc <= o)%Z)
  end.
Proof.
  intros Ht. unfold StudentsService.resolveTargetClass. rewrite Ht.
  destruct (StudentsService.findClass _ st) as [cur|] eqn:Ec; [|left; split; [done|]; done].
  destruct (Class.order cur) as [o|] eqn:Eo.
  2:{ left. split; [done|]. by intros ? [= <-]. }
  pose proof (nextClassAfter_spec o (classes st)) as Hn.
  destruct (StudentsService.nextClassAfter o (classes st)) as [next|].
  - destruct Hn as (Hin & on & Hon & Hlt & Hmin). by exists cur, o, next, on.
  - right. split; [done|]. by exists cur, o.
Qed.

Lemma resolveTargetClass_immediate_successor_witness :
  exists cur o next on,
    StudentsService.findClass "c9" Demo.school = Some cur
    /\ Class.order cur = Some o
    /\ next ∈ classes Demo.school /\ Class._id next = "c10"
    /\ Class.order next = Some on /\ (o < on)%Z
    /\ forall c oc, c ∈ classes Demo.school -> Class.order c = Some oc -> (o < oc)%Z ->
                    (on <= oc)%Z.
Proof.
  exact (resolveTargetClass_immediate_successor Demo.promoteNine Demo.school eq_refl).
Defined.

(** What a bulk promotion with candidates did when it returned. *)
Lemma promoteBulk_Ok_full dto headerAY st res st' :
  StudentsService.promoteBulk dto headerAY st = (Ok res, st') ->
  candidatesOf dto headerAY st <> [] ->
  exists tc docs bulkOps n,
    let cands := candidatesOf dto headerAY st in
    let fromAY := JS.String_ (JS.orElse (PromoteBulkDto.fromAcademicYearId dto) headerAY) in
    let mapping := StudentsService.buildSectionMapping dto tc cands st in
    StudentsService.assertNextAcademicYear fromAY (PromoteBulkDto.toAcademicYearId dto) st
    = Ok tt
    /\ StudentsService.resolveTargetClass dto st = Ok tc
    /\ StudentsService.mapM (StudentsService.enrollmentDoc dto tc mapping) cands = Ok docs
    /\ StudentsService.mapM (StudentsService.updateOneOp dto tc mapping) cands = Ok bulkOps
    /\ StudentsService.bulkWrite bulkOps (students st) = Ok (n, students st')
    /\ enrollments st' = Enrollment_insertMany_unordered docs (enrollments st)
    /\ years st' = years st /\ classes st' = classes st /\ sections st' = sections st
    /\ res = PromoteBulkResult.mk (List.length cands) (List.length cands) n
               (Some (PromoteBulkDto.toAcademicYearId dto)) (Some tc)
               (PromoteBulkDto.targetSectionId dto).
Proof.
  unfold StudentsService.promoteBulk.
  destruct (negb _); [discriminate|].
  destruct (StudentsService.assertIsCurrentAcademicYear _ st); [|discriminate].
  fold (candidatesOf dto headerAY st). intros H Hne. revert H.
  assert (Hshape : forall {A} (u v : A),
             match candidatesOf dto headerAY st with [] => u | _ :: _ => v end = v).
  { intros A u v. by destruct (candidatesOf dto headerAY st). }
  rewrite Hshape. clear Hshape.
  destruct (StudentsService.assertNextAcademicYear _ _ st) as [[]|] eqn:En;
    simpl; [|discriminate].
  destruct (StudentsService.resolveTargetClass dto st) as [tc|] eqn:Et; [|discriminate].
  unfold withTransaction.
  match goal with |- context [StudentsService.mapM ?f ?cs ≫= _] =>
    destruct (StudentsService.mapM f cs) as [docs|] eqn:Ed end;
    simpl; [|discriminate].
  match goal with |- context [StudentsService.mapM ?f ?cs ≫= _] =>
    destruct (StudentsService.mapM f cs) as [bulkOps|] eqn:Eo end;
    simpl; [|discriminate].
  destruct (StudentsService.bulkWrite bulkOps (students st)) as [[n studs]|] eqn:Eb;
    simpl; [|discriminate].
  intros [= <- <-]. exists tc, docs, bulkOps, n. simpl. by repeat split.
Qed.

Lemma isCandidate_year dto fromAY x :
  StudentsService.isCandidate dto fromAY x = true -> Student.academicYearId x = Some fromAY.
Proof.
  unfold StudentsService.isCandidate. intros H.
  apply andb_true_iff in H as [H _]. apply andb_true_iff in H as [H _].
  apply andb_true_iff in H as [_ H]. by apply eqo_true in H.
Qed.

Lemma assertNext_distinct a b st :
  StudentsService.assertNextAcademicYear a b st = Ok tt -> a <> b.
Proof.
  unfold StudentsService.assertNextAcademicYear. intros H Heq.
  rewrite (proj2 (eqs_true a b) Heq) in H. discriminate.
Qed.

(** An ordered bulk write in which every operation changes the document
    it finds reports one modification for each operation. *)
Lemma bulkWrite_count ops l n l' :
  (forall op s, op ∈ ops -> Student._id (op.2 s) = Student._id s) ->
  NoDup (fst <$> ops) ->
  (forall op, op ∈ ops -> exists s0, findStudent op.1 l = Some s0 /\ op.2 s0 <> s0) ->
  StudentsService.bulkWrite ops l = Ok (n, l') -> n = List.length ops.
Proof.
  intros Hid. revert l n l'. induction ops as [|[id f] ops IH]; intros l n l' Hnd Hch Hb.
  - simpl in Hb. by injection Hb as <- _.
  - simpl in Hb.
    destruct (Student_update id f l) as [[o l1]|] eqn:Hstep; simpl in Hb; [|discriminate].
    destruct (StudentsService.bulkWrite ops l1) as [[n2 l2]|] eqn:Hstep0; simpl in Hb;
      [|discriminate].
    rewrite fmap_cons in Hnd. apply NoDup_cons in Hnd as [Hnot Hnd]. simpl in Hnot.
    assert (Hid' : forall op s, op ∈ ops -> Student._id (op.2 s) = Student._id s).
    { intros op s1 Hop. apply Hid. by right. }
    destruct (Hch (id, f) ltac:(by left)) as (s0 & Hs0 & Hne). simpl in Hs0, Hne.
    rewrite Hs0 in Hb. rewrite bool_decide_eq_false_2 in Hb by done. simpl in Hb.
    injection Hb as <- _. simpl. f_equal.
    apply (IH Hid' l1 n2 l2 Hnd); [|exact Hstep0].
    intros op Hop. destruct (Hch op ltac:(by right)) as (s1 & Hs1 & Hne1).
    exists s1. split; [|done].
    assert (Hne2 : op.1 <> id).
    { intros Heq. apply Hnot. rewrite <- Heq. apply list_elem_of_fmap. by exists op. }
    apply Student_update_inv in Hstep as [(_ & _ & ->)|(s2 & Hs2 & _ & ->)]; [done|].
    rewrite findStudent_updateFirst_other; [done | done |].
    pose proof (Hid (id, f) s2 ltac:(by left)) as Hf. simpl in Hf. rewrite Hf.
    eapply findStudent_id, Hs2.
Qed.

(** Where the section mapping sends a section. *)
Lemma mapSection_fold_sound targets srcs (m0 : gmap string string) sid v :
  fold_left (StudentsService.mapSection targets) srcs m0 !! sid = Some v ->
  m0 !! sid = Some v
  \/ exists src tgt,
       src ∈ srcs /\ Section._id src = sid /\ tgt ∈ targets
       /\ JS.toLowerCase (Section.name tgt) = JS.toLowerCase (Section.name src)
       /\ v = Section._id tgt.
Proof.
  revert m0. induction srcs as [|src srcs IH]; intros m0; simpl; [by left|].
  intros H. destruct (IH _ H) as [H0|(src' & tgt & Hs & Hid & Ht & Hn & Hv)].
  - unfold StudentsService.mapSection in H0.
    destruct (findOne _ targets) as [t|] eqn:Ef; [|by left].
    destruct (decide (Section._id src = sid)) as [Heq|Hne].
    + rewrite Heq, lookup_insert_eq in H0. injection H0 as <-.
      apply findOne_Some in Ef as [Ht Hn]. apply eqs_true in Hn.
      right. exists src, t. split; [by left | done].
    + rewrite lookup_insert_ne in H0 by done. by left.
  - right. exists src', tgt. split; [by right | done].
Qed.

Lemma buildSectionMapping_sound dto tc candidates st m sid v :
  StudentsService.buildSectionMapping dto tc candidates st = Some m ->
  m !! sid = Some v ->
  exists src tgt,
    src ∈ sections st /\ Section._id src = sid
    /\ tgt ∈ sections st /\ Section.classId tgt = tc
    /\ JS.toLowerCase (Section.name tgt) = JS.toLowerCase (Section.name src)
    /\ v = Section._id tgt.
Proof.
  unfold StudentsService.buildSectionMapping.
  destruct (JS.truthy _); [discriminate|].
  case_bool_decide as Hnil; [discriminate|]. intros [= <-] Hv.
  apply mapSection_fold_sound in Hv as [Hv|(src & tgt & Hs & Hid & Ht & Hn & ->)].
  { by rewrite lookup_empty in Hv. }
  apply elem_of_filter_bool in Hs as [Hs _].
  apply elem_of_filter_bool in Ht as [Ht Hc]. apply eqs_true in Hc.
  by exists src, tgt.
Qed.

Lemma candidatesOf_students dto headerAY st x :
  x ∈ candidatesOf dto headerAY st -> x ∈ students st.
Proof. unfold candidatesOf. intros H. by apply elem_of_filter_bool in H as [H _]. Qed.

(** The update of one candidate in the bulk write of a promotion. *)
Lemma promoteBulk_candidate_update dto headerAY st tc bulkOps n l' x :
  uniqueStudentIds st ->
  StudentsService.mapM
    (StudentsService.updateOneOp dto tc
       (StudentsService.buildSectionMapping dto tc (candidatesOf dto headerAY st) st))
    (candidatesOf dto headerAY st) = Ok bulkOps ->
  StudentsService.bulkWrite bulkOps (students st) = Ok (n, l') ->
  x ∈ candidatesOf dto headerAY st ->
  exists sec,
    StudentsService.getTargetSectionId dto
      (StudentsService.buildSectionMapping dto tc (candidatesOf dto headerAY st) st)
      (Student.sectionId x) = Ok sec
    /\ findStudent (Student._id x) l'
       = Some (StudentsService.bulkSet tc (PromoteBulkDto.toAcademicYearId dto) sec x).
Proof.
  intros Hu Hops Hbw Hx. apply mapM_Ok_inv in Hops.
  destruct (Forall2_mapM_left _ _ _ _ Hops Hx) as (op & Hop & Hf).
  unfold StudentsService.updateOneOp in Hf.
  destruct (StudentsService.getTargetSectionId dto _ (Student.sectionId x))
    as [sec|] eqn:Eg; simpl in Hf; [|discriminate].
  injection Hf as <-. exists sec. split; [done|].
  destruct (updateOneOp_ids _ _ _ _ _ Hops) as [Hids Hpres].
  assert (Hnd : NoDup bulkOps.*1).
  { rewrite Hids. eapply sublist_NoDup; [exact Hu|].
    apply fmap_sublist. unfold candidatesOf. apply filter_sublist. }
  exact (bulkWrite_find bulkOps (students st) n l' _ _ x Hpres Hnd Hbw Hop
           (findStudent_unique st x Hu (candidatesOf_students _ _ _ _ Hx))).
Qed.

(** X13. A bulk promotion that returns has moved every candidate into
    the target class and the target year, with the roll number, name,
    e-mail address and unique id it had. Its section is the target
    section when the request names one; otherwise, for a candidate that
    has a section, it is a section of the target class whose name equals
    the name of the candidate's section when case is ignored; a
    candidate without a section stays without one. (Student ids are
    unique, as in every reachable state.) *)
Theorem promoteBulk_places_candidates dto headerAY st res st' x :
  uniqueStudentIds st ->
  StudentsService.promoteBulk dto headerAY st = (Ok res, st') ->
  x ∈ candidatesOf dto headerAY st ->
  exists tc x',
    PromoteBulkResult.targetClassId res = Some tc
    /\ findStudent (Student._id x) (students st') = Some x'
    /\ Student.classId x' = Some tc
    /\ Student.academicYearId x' = Some (PromoteBulkDto.toAcademicYearId dto)
    /\ Student.rollNumber x' = Student.rollNumber x
    /\ Student.name x' = Student.name x
    /\ Student.email x' = Student.email x
    /\ Student.uniqueId x' = Student.uniqueId x
    /\ if JS.truthy (PromoteBulkDto.targetSectionId dto)
       then Student.sectionId x' = PromoteBulkDto.targetSectionId dto
       else if JS.truthy (Student.sectionId x)
            then exists src tgt,
                   src ∈ sections st /\ Student.sectionId x = Some (Section._id src)
                   /\ tgt ∈ sections st /\ Section.classId tgt = tc
                   /\ JS.toLowerCase (Section.name tgt) = JS.toLowerCase (Section.name src)
                   /\ Student.sectionId x' = Some (Section._id tgt)
            else Student.sectionId x' = Student.sectionId x.
Proof.
  intros Hu Hp Hx.
  assert (Hne : candidatesOf dto headerAY st <> []).
  { intros Hnil. rewrite Hnil in Hx. by apply elem_of_nil in Hx. }
  destruct (promoteBulk_Ok_full _ _ _ _ _ Hp Hne)
    as (tc & docs & bulkOps & n & _ & _ & _ & Hops & Hbw & _ & _ & _ & Hsec & ->).
  destruct (promoteBulk_candidate_update _ _ _ _ _ _ _ _ Hu Hops Hbw Hx)
    as (sec & Hg & Hfind).
  exists tc, (StudentsService.bulkSet tc (PromoteBulkDto.toAcademicYearId dto) sec x).
  split; [done|]. split; [exact Hfind|]. simpl. repeat (split; [done|]).
  unfold StudentsService.getTargetSectionId in Hg.
  destruct (JS.truthy (PromoteBulkDto.targetSectionId dto)) eqn:Et.
  { injection Hg as <-. apply truthy_Some in Et as (t & -> & _). done. }
  destruct (StudentsService.buildSectionMapping dto tc (candidatesOf dto headerAY st) st)
    as [m|] eqn:Em.
  - destruct (JS.truthy (Student.sectionId x)) eqn:Ex.
    + destruct (JS.truthy (m !! JS.String_ (Student.sectionId x))) eqn:Emapped;
        [|discriminate].
      injection Hg as <-. apply truthy_Some in Emapped as (v & Hv & _). rewrite Hv. simpl.
      apply truthy_Some in Ex as (cur & Hcur & _). rewrite Hcur in Hv. simpl in Hv.
      destruct (buildSectionMapping_sound _ _ _ _ _ _ _ Em Hv)
        as (src & tgt & Hs & Hid & Ht & Hc & Hn & ->).
      exists src, tgt. rewrite Hcur, Hid. done.
    + injection Hg as <-. by destruct (Student.sectionId x).
  - injection Hg as <-.
    destruct (JS.truthy (Student.sectionId x)) eqn:Ex.
    + destruct (mapping_exists dto st (candidatesOf dto headerAY st) tc Et x Hx Ex) as [m Hm].
      congruence.
    + by destruct (Student.sectionId x).
Qed.

Lemma promoteBulk_places_candidates_witness :
  exists tc x',
    PromoteBulkResult.targetClassId
      (PromoteBulkResult.mk 3 3 3 (Some "y25") (Some "c10") (Some "s10a")) = Some tc
    /\ findStudent "cid"
         (students (StudentsService.promoteBulk
                      (PromoteBulkDto.mk (Some "y24") "c9" None None "y25" None (Some "s10a"))
                      None Demo.school).2) = Some x'
    /\ Student.classId x' = Some tc
    /\ Student.academicYearId x' = Some "y25"
    /\ Student.rollNumber x' = "9-B-001"
    /\ Student.name x' = "Cid"
    /\ Student.email x' = "cid@school.example"
    /\ Student.uniqueId x' = Some "STU-2024-cid"
    /\ Student.sectionId x' = Some "s10a".
Proof.
  apply (promoteBulk_places_candidates
           (PromoteBulkDto.mk (Some "y24") "c9" None None "y25" None (Some "s10a"))
           None Demo.school _ _ (Demo.cid "y24")).
  - unfold uniqueStudentIds. apply (bool_decide_unpack _). vm_compute. exact I.
  - reflexivity.
  - vm_compute. do 2 right. left.
Defined.

(** X14. A bulk promotion that returns has modified exactly its
    candidates: the [matched] and [modified] counts of its report both
    equal the number of students that passed the candidate filter (each
    of them changes, because the target year differs from the source
    year), every student that is not a candidate has the document it
    had, and years, classes and sections are untouched. (Student ids are
    unique, as in every reachable state.) *)
Theorem promoteBulk_modifies_exactly_candidates dto headerAY st res st' :
  uniqueStudentIds st ->
  StudentsService.promoteBulk dto headerAY st = (Ok res, st') ->
  PromoteBulkResult.matched res = List.length (candidatesOf dto headerAY st)
  /\ PromoteBulkResult.modified res = List.length (candidatesOf dto headerAY st)
  /\ (forall id, id ∉ (Student._id <$> candidatesOf dto headerAY st) ->
                 findStudent id (students st') = findStudent id (students st))
  /\ years st' = years st /\ classes st' = classes st /\ sections st' = sections st.
Proof.
  intros Hu Hp.
  destruct (decide (candidatesOf dto headerAY st = [])) as [Hnil|Hne].
  { rewrite Hnil. unfold StudentsService.promoteBulk in Hp.
    destruct (negb _); [discriminate|].
    destruct (StudentsService.assertIsCurrentAcademicYear _ st); [|discriminate].
    fold (candidatesOf dto headerAY st) in Hp. rewrite Hnil in Hp.
    injection Hp as <- <-. simpl.
    split; [done|]. split; [done|]. split; [by intros|]. auto. }
  destruct (promoteBulk_Ok_full _ _ _ _ _ Hp Hne)
    as (tc & docs & bulkOps & n & Hnext & _ & _ & Hops & Hbw & _ & Hy & Hc & Hs & ->).
  simpl. split; [done|].
  pose proof Hops as Hops'. apply mapM_Ok_inv in Hops'.
  destruct (updateOneOp_ids _ _ _ _ _ Hops') as [Hids Hpres].
  assert (Hnd : NoDup bulkOps.*1).
  { rewrite Hids. eapply sublist_NoDup; [exact Hu|].
    apply fmap_sublist. unfold candidatesOf. apply filter_sublist. }
  split; [|split; [|done]].
  - rewrite (bulkWrite_count bulkOps (students st) n (students st') Hpres Hnd);
      [| |exact Hbw].
    + symmetry. eapply Forall2_length, Hops'.
    + intros op Hop.
      destruct (Forall2_mapM_right _ _ _ _ Hops' Hop) as (x & Hx & Hf).
      unfold StudentsService.updateOneOp in Hf.
      destruct (StudentsService.getTargetSectionId dto _ (Student.sectionId x))
        as [sec|]; simpl in Hf; [|discriminate].
      injection Hf as <-. simpl. exists x.
      split; [exact (findStudent_unique st x Hu (candidatesOf_students _ _ _ _ Hx))|].
      intros Heq. apply (f_equal Student.academicYearId) in Heq. simpl in Heq.
      unfold candidatesOf in Hx. apply elem_of_filter_bool in Hx as [_ Hx].
      apply isCandidate_year in Hx. rewrite Hx in Heq. injection Heq as Heq.
      exact (assertNext_distinct _ _ _ Hnext (eq_sym Heq)).
  - intros id Hid. eapply bulkWrite_other; [exact Hpres | exact Hbw |]. by rewrite Hids.
Qed.

Lemma promoteBulk_modifies_exactly_candidates_witness :
  PromoteBulkResult.matched
    (PromoteBulkResult.mk 3 3 3 (Some "y25") (Some "c10") (Some "s10a")) = 3
  /\ PromoteBulkResult.modified
       (PromoteBulkResult.mk 3 3 3 (Some "y25") (Some "c10") (Some "s10a")) = 3
  /\ (forall id,
        id ∉ (Student._id <$> candidatesOf
                (PromoteBulkDto.mk (Some "y24") "c9" None None "y25" None (Some "s10a"))
                None Demo.school) ->
        findStudent id
          (students (StudentsService.promoteBulk
                       (PromoteBulkDto.mk (Some "y24") "c9" None None "y25" None
                          (Some "s10a")) None Demo.school).2)
        = findStudent id (students Demo.school))
  /\ years (StudentsService.promoteBulk
              (PromoteBulkDto.mk (Some "y24") "c9" None None "y25" None (Some "s10a"))
              None Demo.school).2 = years Demo.school
  /\ classes (StudentsService.promoteBulk
                (PromoteBulkDto.mk (Some "y24") "c9" None None "y25" None (Some "s10a"))
                None Demo.school).2 = classes Demo.school
  /\ sections (StudentsService.promoteBulk
                 (PromoteBulkDto.mk (Some "y24") "c9" None None "y25" None (Some "s10a"))
                 None Demo.school).2 = sections Demo.school.
Proof.
  apply (promoteBulk_modifies_exactly_candidates
           (PromoteBulkDto.mk (Some "y24") "c9" None None "y25" None (Some "s10a"))
           None Demo.school).
  - unfold uniqueStudentIds. apply (bool_decide_unpack _). vm_compute. exact I.
  - reflexivity.
Defined.


(* ===================================================================== *)
(** ** One ledger entry per student and year *)
(* ===================================================================== *)

Lemma Enrollment_create_seat osid oay ocid osec oroll l e l' :
  Enrollment_create osid oay ocid osec oroll l = Ok (e, l') ->
  NoDup (seatKey <$> l) -> NoDup (seatKey <$> l').
Proof.
  intros H Hu. apply Enrollment_create_inv in H as (_ & _ & _ & _ & _ & -> & Hnone & _).
  rewrite fmap_app. simpl. apply NoDup_app. split; [done|]. split; [|apply NoDup_singleton].
  intros k Hk Hk'. apply list_elem_of_singleton in Hk' as ->.
  apply list_elem_of_fmap in Hk as (x & Hx & Hxin).
  unfold seatKey in Hx. injection Hx as H1 H2.
  exact (findEnrollment_None _ _ _ x Hnone Hxin (conj (eq_sym H1) (eq_sym H2))).
Qed.

Lemma appended_seat l l' : appended l l' -> NoDup (seatKey <$> l) -> NoDup (seatKey <$> l').
Proof. induction 1; [done | eauto using Enrollment_create_seat]. Qed.

Lemma setPlacement_seats id ay c s l :
  seatKey <$> StudentsService.Enrollment_setPlacement id ay c s l = seatKey <$> l.
Proof. apply updateFirst_fmap. done. Qed.

Lemma exec_seat op st :
  NoDup (seatKey <$> enrollments st) -> NoDup (seatKey <$> enrollments (exec op st)).
Proof.
  intros Hu.
  assert (Hcases : (exists id dto, op = OpUpdate id dto)
                   \/ (forall id dto, op <> OpUpdate id dto)).
  { destruct op; try (right; intros; discriminate). left. eauto. }
  destruct Hcases as [(id & dto & ->)|Hn].
  - simpl. destruct (update_ledger id dto st) as [->|(s & _ & _ & ->)]; [done|].
    by rewrite setPlacement_seats.
  - eapply appended_seat; [|exact Hu]. by apply exec_appended.
Qed.

Lemma reachable_seat st : reachable st -> NoDup (seatKey <$> enrollments st).
Proof.
  induction 1 as [ys cs ss | st op _ IH]; [apply NoDup_nil_2 | by apply exec_seat].
Qed.

(** X15. In every state the service can bring a fresh database to, the
    ledger holds at most one entry for a student and an academic year:
    two entries with the same [studentId] and [academicYearId] are one
    and the same entry. No operation - not even the general update,
    which rewrites the placement of an entry - adds a second entry for a
    pair or changes the pair of an entry. *)
Theorem one_entry_per_student_and_year st :
  reachable st ->
  forall e1 e2, e1 ∈ enrollments st -> e2 ∈ enrollments st ->
    Enrollment.studentId e1 = Enrollment.studentId e2 ->
    Enrollment.academicYearId e1 = Enrollment.academicYearId e2 ->
    e1 = e2.
Proof.
  intros Hr e1 e2 H1 H2 Hs Hy.
  eapply (NoDup_fmap_elem_inj seatKey); [exact (reachable_seat st Hr)|done..|].
  unfold seatKey. by rewrite Hs, Hy.
Qed.

Lemma one_entry_per_student_and_year_witness :
  default (Demo.seat (Demo.ann "y24")) (head (enrollments Demo.enrolledAhead))
  = default (Demo.seat (Demo.ann "y24"))
      (findEnrollment "ann" "y25" (enrollments Demo.enrolledAhead)).
Proof.
  apply (one_entry_per_student_and_year Demo.enrolledAhead).
  - unfold Demo.enrolledAhead. apply reachable_step, reachable_step.
    exact (reachable_fresh [Demo.y24; Demo.y25; Demo.y26] [Demo.c9; Demo.c10]
             [Demo.s9a; Demo.s9b; Demo.s10a]).
  - vm_compute. left.
  - vm_compute. left.
  - reflexivity.
  - reflexivity.
Defined.

(* ===================================================================== *)
(** ** Year-scoped views *)
(* ===================================================================== *)

Lemma head_fmap_filter {A B} (f : A -> B) (p : A -> bool) l :
  head (f <$> List.filter p l) = f <$> findOne p l.
Proof.
  unfold findOne. induction l as [|x l IH]; simpl; [done|].
  destruct (p x); simpl; [done | exact IH].
Qed.

Lemma filter_head_find {A} (p : A -> bool) l x :
  findOne p l = Some x -> exists rest, List.filter p l = x :: rest.
Proof.
  unfold findOne. induction l as [|y l IH]; simpl; [done|].
  destruct (p y); [intros [= ->]; eauto | exact IH].
Qed.

Lemma Enrollment_create_fields osid oay ocid osec oroll l e l' :
  Enrollment_create osid oay ocid osec oroll l = Ok (e, l') ->
  Enrollment.studentId e <> "" /\ Enrollment.academicYearId e <> ""
  /\ Enrollment.classId e <> "" /\ Enrollment.sectionId e <> ""
  /\ Enrollment.rollNumber e <> "".
Proof.
  unfold Enrollment_create. intros H. inv_ok H.
  apply required_Ok in Hstep as [_ ?], Hstep0 as [_ ?], Hstep1 as [_ ?],
    Hstep2 as [_ ?], Hstep3 as [_ ?].
  by subst e.
Qed.

Lemma promote_Ok_year sid c s y st r st' :
  StudentsService.promote sid c s y st = (Ok r, st') -> y <> "".
Proof.
  unfold StudentsService.promote.
  destruct (findStudent sid (students st)) as [student|] eqn:Es; [|discriminate].
  match goal with |- context [match ?r with Ok _ => _ | Err _ => _ end] =>
    destruct r as [[]|e] end; [|discriminate].
  unfold withTransaction.
  destruct (Enrollment_create _ _ _ _ _ _) as [[e enrs]|] eqn:Ec; simpl; [|discriminate].
  intros _. pose proof (Enrollment_create_fields _ _ _ _ _ _ _ _ Ec) as (_ & Hy & _).
  apply Enrollment_create_inv in Ec as (_ & Hs2 & _). injection Hs2 as ->. done.
Qed.

Lemma truthy_nonempty y : y <> "" -> JS.truthy (Some y) = true.
Proof. by destruct y. Qed.

Lemma elem_of_rev {A} (l : list A) x : x ∈ rev l <-> x ∈ l.
Proof. rewrite !list_elem_of_In. symmetry. apply in_rev. Qed.

Lemma elem_of_mjoin_rev {A B} (g : A -> list B) (l : list A) v :
  v ∈ mjoin (rev (g <$> l)) <-> exists x, x ∈ l /\ v ∈ g x.
Proof.
  rewrite list_elem_of_join. split.
  - intros (ys & Hv & Hys). rewrite elem_of_rev in Hys.
    apply list_elem_of_fmap in Hys as (x & -> & Hx). eauto.
  - intros (x & Hx & Hv). exists (g x). split; [done|].
    rewrite elem_of_rev. apply list_elem_of_fmap. eauto.
Qed.

(** The students listed for a year are those the ledger joins to an
    entry of that year. *)
Lemma filterStudents_year_elem filters st v :
  JS.truthy (StudentFilters.academicYearId filters) = true ->
  v ∈ StudentsQueries.filterStudents filters st
  <-> exists s e, s ∈ students st /\ e ∈ enrollments st
                  /\ Enrollment.studentId e = Student._id s
                  /\ StudentsQueries.matchEnrollment filters e = true
                  /\ v = StudentsQueries.rowForEntry s e.
Proof.
  intros Ht. unfold StudentsQueries.filterStudents. rewrite Ht.
  rewrite elem_of_mjoin_rev. split.
  - intros (s & Hs & Hv). apply list_elem_of_fmap in Hv as (e & -> & He).
    apply elem_of_filter_bool' in He as [He Hp]. apply andb_true_iff in Hp as [Hp Hm].
    apply eqs_true in Hp. by exists s, e.
  - intros (s & e & Hs & He & Hid & Hm & ->). exists s. split; [done|].
    apply list_elem_of_fmap. exists e. split; [done|].
    apply elem_of_filter_bool'. split; [done|]. rewrite Hm, andb_true_r. by apply eqs_true.
Qed.

(** X16. A promotion keeps history. After [promote] has moved a student
    from the year [y1], for which the ledger holds the entry [e1], to
    the year [y2], a look-up of the student for [y1] still shows the
    class, section and roll number of [e1], marked "deactivated", and a
    look-up for [y2] shows the new class and section with the roll
    number carried over, marked "active"; the lists of students of the
    two years contain the same two views. *)
Theorem promotion_keeps_history sid c s y2 st r st' student y1 e1 :
  StudentsService.promote sid c s y2 st = (Ok r, st') ->
  findStudent sid (students st) = Some student ->
  Student.academicYearId student = Some y1 -> y1 <> "" ->
  findEnrollment sid y1 (enrollments st) = Some e1 ->
  let before :=
    StudentView.mk sid (Student.name student) (Student.uniqueId student)
      (Student.email student) (Enrollment.rollNumber e1) (Some (Enrollment.classId e1))
      (Some (Enrollment.sectionId e1)) (Some y1) (Some false) (Some "deactivated") in
  let after :=
    StudentView.mk sid (Student.name student) (Student.uniqueId student)
      (Student.email student) (JS.trim (Student.rollNumber student)) (Some c) (Some s)
      (Some y2) (Some true) (Some "active") in
  StudentsQueries.findOne sid (Some y1) st' = Some before
  /\ StudentsQueries.findOne sid (Some y2) st' = Some after
  /\ before ∈ StudentsQueries.filterStudents (StudentFilters.mk None None (Some y1)) st'
  /\ after ∈ StudentsQueries.filterStudents (StudentFilters.mk None None (Some y2)) st'.
Proof.
  intros Hp Hs Hy1 Hne1 He1 before after.
  pose proof (promote_Ok_year _ _ _ _ _ _ _ Hp) as Hne2.
  apply promote_Ok_inv in Hp
    as (student' & Hs' & _ & Hnext & Hnone & _ & -> & Henr & Hst & _).
  rewrite Hs in Hs'. injection Hs' as <-.
  rewrite Hy1 in Hnext. simpl in Hnext.
  pose proof (assertNext_distinct _ _ _ Hnext) as Hdiff.
  pose proof (findStudent_id _ _ _ Hs) as Hid.
  set (r := StudentsService.moveSnapshot c s y2 student) in *.
  assert (Hr : findStudent sid (students st') = Some r).
  { rewrite Hst. apply findStudent_updateFirst_same; [eauto | done]. }
  pose proof (findEnrollment_Some _ _ _ _ He1) as (He1in & He1s & He1y).
  set (new := Enrollment.mk sid y2 c s (JS.trim (Student.rollNumber student))) in *.
  assert (Hl1 : exists rest, StudentsQueries.lookupEnrollments y1 r st' = e1 :: rest).
  { unfold StudentsQueries.lookupEnrollments. rewrite Henr, List.filter_app. simpl.
    rewrite (proj2 (eqs_false y2 y1)) by done. rewrite andb_false_r, app_nil_r.
    apply filter_head_find. unfold findEnrollment in He1. by rewrite Hid. }
  assert (Hl2 : StudentsQueries.lookupEnrollments y2 r st' = [new]).
  { unfold StudentsQueries.lookupEnrollments. rewrite Henr, List.filter_app. simpl.
    rewrite Hid, !eqs_refl. simpl.
    rewrite filter_none; [done|]. intros e He.
    destruct (eqs (Enrollment.studentId e) sid) eqn:E1; [|done].
    destruct (eqs (Enrollment.academicYearId e) y2) eqn:E2; [|done].
    apply eqs_true in E1, E2. exfalso.
    exact (findEnrollment_None _ _ _ e Hnone He (conj E1 E2)). }
  assert (Hv1 : StudentsQueries.projectForYear y1 r (e1 :: []) = before).
  { unfold StudentsQueries.projectForYear, before. simpl. rewrite Hid, He1y.
    unfold eqo. rewrite bool_decide_eq_false_2; [done|]. intros [= ?]. by apply Hdiff. }
  assert (Hv2 : StudentsQueries.projectForYear y2 r [new] = after).
  { unfold StudentsQueries.projectForYear, after. simpl. rewrite Hid.
    unfold eqo. by rewrite bool_decide_eq_true_2. }
  split; [|split; [|split]].
  - unfold StudentsQueries.findOne. rewrite (truthy_nonempty y1 Hne1). simpl JS.String_.
    rewrite head_fmap_filter. fold (findStudent sid (students st')). rewrite Hr. simpl.
    destruct Hl1 as [rest ->]. f_equal. exact Hv1.
  - unfold StudentsQueries.findOne. rewrite (truthy_nonempty y2 Hne2). simpl JS.String_.
    rewrite head_fmap_filter. fold (findStudent sid (students st')). rewrite Hr. simpl.
    rewrite Hl2. f_equal. exact Hv2.
  - apply filterStudents_year_elem; [by apply truthy_nonempty|].
    exists r, e1. split; [eapply findStudent_elem, Hr|].
    split; [rewrite Henr; apply elem_of_app; by left|].
    split; [by rewrite He1s|]. split.
    + unfold StudentsQueries.matchEnrollment. simpl. rewrite He1y.
      unfold eqo. by rewrite bool_decide_eq_true_2.
    + rewrite <- Hv1. unfold StudentsQueries.rowForEntry, StudentsQueries.projectForYear.
      simpl. by rewrite He1y.
  - apply filterStudents_year_elem; [by apply truthy_nonempty|].
    exists r, new. split; [eapply findStudent_elem, Hr|].
    split; [rewrite Henr; apply elem_of_app; right; by left|].
    split; [done|]. split.
    + unfold StudentsQueries.matchEnrollment. simpl.
      unfold eqo. by rewrite bool_decide_eq_true_2.
    + by rewrite <- Hv2.
Qed.

Lemma promotion_keeps_history_witness :
  let st' := (StudentsService.promote "ann" "c10" "s10a" "y25" Demo.school).2 in
  let before :=
    StudentView.mk "ann" "Ann" (Some "STU-2024-ann") "ann@school.example" "9-A-001"
      (Some "c9") (Some "s9a") (Some "y24") (Some false) (Some "deactivated") in
  let after :=
    StudentView.mk "ann" "Ann" (Some "STU-2024-ann") "ann@school.example" "9-A-001"
      (Some "c10") (Some "s10a") (Some "y25") (Some true) (Some "active") in
  StudentsQueries.findOne "ann" (Some "y24") st' = Some before
  /\ StudentsQueries.findOne "ann" (Some "y25") st' = Some after
  /\ before ∈ StudentsQueries.filterStudents (StudentFilters.mk None None (Some "y24")) st'
  /\ after ∈ StudentsQueries.filterStudents (StudentFilters.mk None None (Some "y25")) st'.
Proof.
  eapply (promotion_keeps_history "ann" "c10" "s10a" "y25" Demo.school _ _
            (Demo.ann "y24") "y24" (Demo.seat (Demo.ann "y24")));
    [reflexivity | reflexivity | reflexivity | discriminate | reflexivity].
Defined.

(** X17. The list of students of an academic year is the join of the
    student collection with the ledger: in every state the service can
    reach, a row is listed for the year exactly when it is the view of a
    student together with a ledger entry of that student for that year
    (placement and roll number are those of the entry, whatever the
    snapshot says), and the list has no two different rows for one
    student. *)
Theorem year_list_is_the_ledger_join st ay :
  reachable st -> ay <> "" ->
  let rows := StudentsQueries.filterStudents (StudentFilters.mk None None (Some ay)) st in
  (forall v, v ∈ rows
             <-> exists s e, s ∈ students st /\ e ∈ enrollments st
                             /\ Enrollment.studentId e = Student._id s
                             /\ Enrollment.academicYearId e = ay
                             /\ v = StudentsQueries.rowForEntry s e)
  /\ (forall v1 v2, v1 ∈ rows -> v2 ∈ rows ->
                    StudentView._id v1 = StudentView._id v2 -> v1 = v2).
Proof.
  intros Hr Hne rows.
  assert (Hrows : forall v, v ∈ rows
             <-> exists s e, s ∈ students st /\ e ∈ enrollments st
                             /\ Enrollment.studentId e = Student._id s
                             /\ Enrollment.academicYearId e = ay
                             /\ v = StudentsQueries.rowForEntry s e).
  { intros v. unfold rows. rewrite filterStudents_year_elem by (by apply truthy_nonempty).
    split; intros (s & e & Hs & He & Hid & Hm & Hv); exists s, e;
      (split; [done|]); (split; [done|]); (split; [done|]); (split; [|done]).
    - unfold StudentsQueries.matchEnrollment in Hm. simpl in Hm.
      rewrite !andb_true_r in Hm. apply eqo_true in Hm. by injection Hm.
    - unfold StudentsQueries.matchEnrollment. simpl. rewrite !andb_true_r.
      apply eqo_true. by rewrite Hm. }
  split; [exact Hrows|].
  intros v1 v2 H1 H2 Hid.
  apply Hrows in H1 as (s1 & e1 & Hs1 & He1 & Hi1 & Hy1 & ->).
  apply Hrows in H2 as (s2 & e2 & Hs2 & He2 & Hi2 & Hy2 & ->).
  simpl in Hid.
  assert (s1 = s2) as ->.
  { eapply students_distinct_by_id; eauto. }
  assert (e1 = e2) as ->; [|done].
  eapply (NoDup_fmap_elem_inj seatKey); [exact (reachable_seat st Hr)|done..|].
  unfold seatKey. by rewrite Hi1, Hi2, Hy1, Hy2.
Qed.

Lemma year_list_is_the_ledger_join_witness :
  (forall v,
      v ∈ StudentsQueries.filterStudents (StudentFilters.mk None None (Some "y25"))
            Demo.enrolledAhead
      <-> exists s e, s ∈ students Demo.enrolledAhead /\ e ∈ enrollments Demo.enrolledAhead
                      /\ Enrollment.studentId e = Student._id s
                      /\ Enrollment.academicYearId e = "y25"
                      /\ v = StudentsQueries.rowForEntry s e)
  /\ (forall v1 v2,
        v1 ∈ StudentsQueries.filterStudents (StudentFilters.mk None None (Some "y25"))
               Demo.enrolledAhead ->
        v2 ∈ StudentsQueries.filterStudents (StudentFilters.mk None None (Some "y25"))
               Demo.enrolledAhead ->
        StudentView._id v1 = StudentView._id v2 -> v1 = v2).
Proof.
  apply (year_list_is_the_ledger_join Demo.enrolledAhead "y25"); [|discriminate].
  unfold Demo.enrolledAhead. apply reachable_step, reachable_step.
  exact (reachable_fresh [Demo.y24; Demo.y25; Demo.y26] [Demo.c9; Demo.c10]
           [Demo.s9a; Demo.s9b; Demo.s10a]).
Defined.

(* ===================================================================== *)
(** ** Look-up by e-mail address *)
(* ===================================================================== *)

Lemma isSpace_lowerChar c : JS.isSpace (JS.lowerChar c) = JS.isSpace c.
Proof. by destruct c as [[] [] [] [] [] [] [] []]. Qed.

Lemma lowerChar_idem c : JS.lowerChar (JS.lowerChar c) = JS.lowerChar c.
Proof. by destruct c as [[] [] [] [] [] [] [] []]. Qed.

Lemma toLowerCase_idem s : JS.toLowerCase (JS.toLowerCase s) = JS.toLowerCase s.
Proof.
  unfold JS.toLowerCase. induction s as [|c s IH]; simpl; [done|].
  by rewrite lowerChar_idem, IH.
Qed.

Lemma trimStart_toLowerCase s :
  JS.trimStart (JS.toLowerCase s) = JS.toLowerCase (JS.trimStart s).
Proof.
  unfold JS.toLowerCase. induction s as [|c s IH]; simpl; [done|].
  rewrite isSpace_lowerChar. by destruct (JS.isSpace c).
Qed.

Lemma trimEnd_toLowerCase s :
  JS.trimEnd (JS.toLowerCase s) = JS.toLowerCase (JS.trimEnd s).
Proof.
  unfold JS.toLowerCase. induction s as [|c s IH]; simpl; [done|].
  rewrite IH. destruct (JS.trimEnd s); simpl.
  - rewrite isSpace_lowerChar. by destruct (JS.isSpace c).
  - done.
Qed.

Lemma trim_toLowerCase s : JS.trim (JS.toLowerCase s) = JS.toLowerCase (JS.trim s).
Proof. unfold JS.trim. by rewrite trimStart_toLowerCase, trimEnd_toLowerCase. Qed.

(** Normalising an e-mail address twice is normalising it once. *)
Lemma normEmail_idem e :
  StudentsService.normEmail (StudentsService.normEmail e) = StudentsService.normEmail e.
Proof.
  unfold StudentsService.normEmail.
  by rewrite trim_toLowerCase, trim_idem, toLowerCase_idem.
Qed.

(** X18. Admission and look-up by e-mail address agree. After [create]
    has returned a student, every address that is the student's address
    up to case and surrounding white space - in particular the address of
    the request itself, and an address that a caller has already
    normalised - finds exactly that student through
    [findByEmailForAuth]. *)
Theorem create_then_findByEmail dto newId yr st s st' email :
  StudentsService.create dto newId yr st = (Ok (Some s), st') ->
  StudentsService.normEmail email = StudentsService.normEmail (CreateStudentDto.email dto) ->
  StudentsQueries.findByEmailForAuth email st' = Some s
  /\ StudentsQueries.findByEmailForAuth (StudentsService.normEmail email) st' = Some s
  /\ StudentsQueries.findByEmailForAuth (CreateStudentDto.email dto) st' = Some s.
Proof.
  intros Hc He.
  assert (Hfind : forall a,
            StudentsService.normEmail a
            = StudentsService.normEmail (CreateStudentDto.email dto) ->
            StudentsQueries.findByEmailForAuth a st' = Some s).
  { intros a Ha. unfold StudentsQueries.findByEmailForAuth. rewrite Ha.
    apply create_Ok_inv in Hc
      as (classId & sectionId & classDoc & sectionDoc & _ & _ & _ & _ & _ & _ & H).
    simpl in H. destruct H as (Hs & Hsc & -> & _). injection Hs as ->.
    rewrite findOne_app.
    apply Student_create_inv in Hsc as (_ & _ & Hem & _). simpl in Hem.
    destruct (findOne _ (students st)) as [x|] eqn:Ex.
    - exfalso. apply findOne_Some in Ex as [Hx Hp]. apply eqs_true in Hp.
      apply Hem. apply list_elem_of_fmap. by exists x.
    - unfold findOne. simpl. by rewrite eqs_refl. }
  split; [by apply Hfind|]. split; [|by apply Hfind].
  apply Hfind. by rewrite normEmail_idem.
Qed.

Lemma create_then_findByEmail_witness :
  StudentsQueries.findByEmailForAuth "  ANN@School.Example "
    (StudentsService.create Demo.annDto "ann" 2024 Demo.fresh).2
  = Some (Student.mk "ann" "Ann" "ann@school.example" (Some "STU-2024-0001") "9-B-001"
            (Some "c9") (Some "s9b") (Some "y25"))
  /\ StudentsQueries.findByEmailForAuth (StudentsService.normEmail "  ANN@School.Example ")
       (StudentsService.create Demo.annDto "ann" 2024 Demo.fresh).2
     = Some (Student.mk "ann" "Ann" "ann@school.example" (Some "STU-2024-0001") "9-B-001"
               (Some "c9") (Some "s9b") (Some "y25"))
  /\ StudentsQueries.findByEmailForAuth (CreateStudentDto.email Demo.annDto)
       (StudentsService.create Demo.annDto "ann" 2024 Demo.fresh).2
     = Some (Student.mk "ann" "Ann" "ann@school.example" (Some "STU-2024-0001") "9-B-001"
               (Some "c9") (Some "s9b") (Some "y25")).
Proof.
  apply (create_then_findByEmail Demo.annDto "ann" 2024 Demo.fresh); reflexivity.
Defined.


(* ===================================================================== *)
(** ** Addresses of uploaded files *)
(* ===================================================================== *)

Lemma prefix_append_more p s t : String.prefix p s = true -> String.prefix p (s +:+ t) = true.
Proof.
  intros H. apply prefix_split in H as [a ->]. rewrite append_assoc. apply prefix_append.
Qed.

Lemma absoluteUrl_append u t : absoluteUrl u = true -> absoluteUrl (u +:+ t) = true.
Proof.
  unfold absoluteUrl, UrlHelper.startsWith. intros H. apply orb_true_iff in H as [H|H].
  - by rewrite (prefix_append_more _ _ t H).
  - rewrite (prefix_append_more _ _ t H). apply orb_true_r.
Qed.

Lemma absoluteUrl_nonempty u : absoluteUrl u = true -> u <> "".
Proof. by intros H ->. Qed.

(** The address [toFullUrl] returns is absolute when the base is. *)
Lemma toFullUrl_Some env p u :
  absoluteUrl (UrlHelper.getBaseUrl env) = true ->
  UrlHelper.toFullUrl env p = Some u -> absoluteUrl u = true.
Proof.
  intros Hb. unfold UrlHelper.toFullUrl.
  destruct (JS.truthy p); simpl; [|done].
  fold (absoluteUrl (JS.String_ p)).
  destruct (absoluteUrl (JS.String_ p)) eqn:Ea; [by intros [= <-]|].
  intros [= <-]. by apply absoluteUrl_append.
Qed.

Lemma toFullUrl_absolute env u :
  absoluteUrl u = true -> UrlHelper.toFullUrl env (Some u) = Some u.
Proof.
  intros Ha. unfold UrlHelper.toFullUrl.
  rewrite (truthy_nonempty u (absoluteUrl_nonempty u Ha)). simpl.
  fold (absoluteUrl u). by rewrite Ha.
Qed.

Lemma toFullUrl_idem env p :
  absoluteUrl (UrlHelper.getBaseUrl env) = true ->
  UrlHelper.toFullUrl env (UrlHelper.toFullUrl env p) = UrlHelper.toFullUrl env p.
Proof.
  intros Hb. destruct (UrlHelper.toFullUrl env p) as [u|] eqn:E; [|done].
  apply toFullUrl_absolute. by eapply toFullUrl_Some.
Qed.

Lemma convertUrl_idem env x :
  absoluteUrl (UrlHelper.getBaseUrl env) = true ->
  StudentsQueries.convertUrl env (StudentsQueries.convertUrl env x)
  = StudentsQueries.convertUrl env x.
Proof.
  intros Hb.
  assert (Hc : StudentsQueries.convertUrl env x
               = if JS.truthy x then UrlHelper.toFullUrl env x else x) by done.
  destruct (JS.truthy x) eqn:Et.
  - rewrite Hc. destruct (UrlHelper.toFullUrl env x) as [u|] eqn:E; [|done].
    pose proof (toFullUrl_Some env x u Hb E) as Ha.
    unfold StudentsQueries.convertUrl.
    rewrite (truthy_nonempty u (absoluteUrl_nonempty u Ha)).
    by apply toFullUrl_absolute.
  - rewrite Hc. unfold StudentsQueries.convertUrl. by rewrite Et.
Qed.

(** X19. Converting the addresses of uploaded files is idempotent when
    the base address of the application is absolute, as the default base
    is: an address that [toFullUrl] has produced is returned unchanged
    by [toFullUrl], and a student whose document, custom-document and
    image addresses have been converted by [convertDocumentUrls] is
    returned unchanged by a second conversion. So the full addresses
    that the photo upload stores are not prefixed again when a student
    is read. A missing or empty address is never turned into one. *)
Theorem url_conversion_is_idempotent env :
  absoluteUrl (UrlHelper.getBaseUrl env) = true ->
  (forall p, UrlHelper.toFullUrl env (UrlHelper.toFullUrl env p) = UrlHelper.toFullUrl env p)
  /\ (forall student,
        StudentsQueries.convertDocumentUrls env
          (StudentsQueries.convertDocumentUrls env student)
        = StudentsQueries.convertDocumentUrls env student)
  /\ (forall x, JS.truthy x = false ->
                UrlHelper.toFullUrl env x = None /\ StudentsQueries.convertUrl env x = x).
Proof.
  intros Hb. split; [|split].
  - intros p. by apply toFullUrl_idem.
  - intros [[docs cdocs imgs]|]; [|done]. simpl. f_equal. f_equal.
    + destruct docs as [d|]; [|done]. simpl. f_equal. destruct d. simpl.
      by rewrite !convertUrl_idem.
    + destruct cdocs as [l|]; [|done]. simpl. f_equal.
      rewrite <- list_fmap_compose. apply list_fmap_ext. intros i d _. simpl.
      by rewrite convertUrl_idem.
    + destruct imgs as [l|]; [|done]. simpl. f_equal.
      rewrite <- list_fmap_compose. apply list_fmap_ext. intros i d _. simpl.
      by rewrite convertUrl_idem.
  - intros x Hx. unfold UrlHelper.toFullUrl, StudentsQueries.convertUrl. by rewrite Hx.
Qed.

Lemma url_conversion_is_idempotent_witness :
  (forall p, UrlHelper.toFullUrl None (UrlHelper.toFullUrl None p)
             = UrlHelper.toFullUrl None p)
  /\ (forall student,
        StudentsQueries.convertDocumentUrls None
          (StudentsQueries.convertDocumentUrls None student)
        = StudentsQueries.convertDocumentUrls None student)
  /\ (forall x, JS.truthy x = false ->
                UrlHelper.toFullUrl None x = None /\ StudentsQueries.convertUrl None x = x).
Proof. exact (url_conversion_is_idempotent None eq_refl). Defined.


(* ===================================================================== *)
(** ** The controller: headers and query parameters *)
(* ===================================================================== *)










(* ===================================================================== *)
(** ** The academic-year service: which year is current *)
(* ===================================================================== *)

Lemma withCurrent_unset y :
  withCurrent false (if AcademicYear.isCurrent y then withCurrent false y else y)
  = withCurrent false y.
Proof. by destruct (AcademicYear.isCurrent y). Qed.

Lemma unsetAllCurrent_erase l :
  withCurrent false <$> AcademicYearRepository.unsetAllCurrent l = withCurrent false <$> l.
Proof.
  unfold AcademicYearRepository.unsetAllCurrent. rewrite <- list_fmap_compose.
  apply list_fmap_ext. intros i y _. apply withCurrent_unset.
Qed.

Lemma unsetAllCurrent_none l y :
  y ∈ AcademicYearRepository.unsetAllCurrent l -> AcademicYear.isCurrent y = false.
Proof.
  unfold AcademicYearRepository.unsetAllCurrent. intros H.
  apply list_elem_of_fmap in H as (x & -> & _).
  by destruct (AcademicYear.isCurrent x) eqn:E.
Qed.

Lemma unsetAllCurrent_find id l :
  AcademicYearRepository.findById id (AcademicYearRepository.unsetAllCurrent l)
  = (fun y => if AcademicYear.isCurrent y then withCurrent false y else y)
      <$> AcademicYearRepository.findById id l.
Proof.
  unfold AcademicYearRepository.findById, findOne, AcademicYearRepository.unsetAllCurrent.
  induction l as [|x l IH]; simpl; [done|].
  assert (Hid : AcademicYearRepository.hasYearId id
                  (if AcademicYear.isCurrent x then withCurrent false x else x)
                = AcademicYearRepository.hasYearId id x).
  { by destruct (AcademicYear.isCurrent x). }
  rewrite Hid. destruct (AcademicYearRepository.hasYearId id x); [done | exact IH].
Qed.

Lemma unsetAllCurrent_sound l y :
  y ∈ AcademicYearRepository.unsetAllCurrent l ->
  exists x, x ∈ l /\ AcademicYear.isActive y = AcademicYear.isActive x.
Proof.
  unfold AcademicYearRepository.unsetAllCurrent. intros H.
  apply list_elem_of_fmap in H as (x & -> & Hx). exists x. split; [done|].
  by destruct (AcademicYear.isCurrent x).
Qed.

Lemma no_current_exists (p : AcademicYear.t -> bool) l :
  (forall y, y ∈ l -> AcademicYear.isCurrent y = false) ->
  existsb (fun o => p o && AcademicYear.isCurrent o) l = false.
Proof.
  intros H. induction l as [|x l IH]; simpl; [done|].
  rewrite (H x) by by left. rewrite andb_false_r. simpl.
  apply IH. intros y Hy. apply H. by right.
Qed.

Lemma filter_current_none l :
  (forall y, y ∈ l -> AcademicYear.isCurrent y = false) ->
  List.filter AcademicYear.isCurrent l = [].
Proof.
  intros H. induction l as [|x l IH]; simpl; [done|].
  rewrite (H x) by by left. apply IH. intros y Hy. apply H. by right.
Qed.

Lemma updateFirst_current (p : AcademicYear.t -> bool) d' l d :
  (forall y, y ∈ l -> AcademicYear.isCurrent y = false) ->
  findOne p l = Some d -> AcademicYear.isCurrent d' = true ->
  List.filter AcademicYear.isCurrent (updateFirst p (fun _ => d') l) = [d'].
Proof.
  unfold findOne. intros H Hf Hd'. induction l as [|x l IH]; simpl in *; [done|].
  destruct (p x) eqn:Ep.
  - simpl. rewrite Hd'. f_equal. apply filter_current_none.
    intros y Hy. apply H. by right.
  - simpl. rewrite (H x) by by left. apply IH; [|done].
    intros y Hy. apply H. by right.
Qed.

Lemma updateFirst_erase (p : AcademicYear.t -> bool) l d :
  findOne p l = Some d ->
  withCurrent false <$> updateFirst p (fun _ => withCurrent true d) l
  = withCurrent false <$> l.
Proof.
  unfold findOne. induction l as [|x l IH]; simpl; [done|].
  destruct (p x) eqn:Ep.
  - intros [= ->]. done.
  - intros H. simpl. f_equal. by apply IH.
Qed.

Lemma updateFirst_const_elem {A} (p : A -> bool) (d' : A) l y :
  y ∈ updateFirst p (fun _ => d') l -> y = d' \/ y ∈ l.
Proof.
  induction l as [|x l IH]; simpl; [by right|].
  destruct (p x).
  - rewrite !elem_of_cons. tauto.
  - rewrite !elem_of_cons. intros [->|H]; [by right; left|].
    destruct (IH H); [by left | by right; right].
Qed.

Lemma findById_id id l y :
  AcademicYearRepository.findById id l = Some y -> AcademicYear._id y = id /\ y ∈ l.
Proof.
  unfold AcademicYearRepository.findById. intros H.
  pose proof (findOne_Some _ _ _ H) as [Hin Hp]. split; [|done].
  by apply eqs_true.
Qed.

(** What the last three steps of the flag operations do. *)
Lemma patchAndLog_spec id patch action before ctx st logs :
  match AcademicYearRepository.findById id (years st) with
  | None =>
      AcademicYearService.patchAndLog id patch action before ctx st logs
      = (Err (NotFoundException "Resource not found"), (st, logs))
  | Some doc =>
      if AcademicYear.isCurrent (patch doc)
         && existsb (fun o => negb (AcademicYearRepository.hasYearId id o)
                              && AcademicYear.isCurrent o) (years st)
      then AcademicYearService.patchAndLog id patch action before ctx st logs
           = (Err (MongoServerError 11000 ["isCurrent"]), (st, logs))
      else
        let st' := setYears (updateFirst (AcademicYearRepository.hasYearId id)
                               (fun _ => patch doc) (years st)) st in
        if eqs id ""
        then AcademicYearService.patchAndLog id patch action before ctx st logs
             = (Err (MongooseValidationError "entityId"), (st', logs))
        else AcademicYearService.patchAndLog id patch action before ctx st logs
             = (Ok (patch doc),
                (st', logs ++ [ChangeLog.mk "AcademicYear" id action (Some before)
                                 (Some (patch doc)) (RequestContext.academicYearId ctx)
                                 (RequestContext.userId ctx)]))
  end.
Proof.
  unfold AcademicYearService.patchAndLog, AcademicYearRepository.updateById.
  destruct (AcademicYearRepository.findById id (years st)) as [doc|] eqn:Ef; simpl.
  - destruct (AcademicYear.isCurrent (patch doc) && _) eqn:Ec; simpl; [done|].
    unfold AuditService.log. simpl.
    destruct (eqs id "") eqn:Ei; simpl; done.
  - by destruct st.
Qed.

Lemma withCurrent_true_unset y :
  withCurrent true (if AcademicYear.isCurrent y then withCurrent false y else y)
  = withCurrent true y.
Proof. by destruct (AcademicYear.isCurrent y). Qed.

(** [setCurrent] in closed form: the conflict of its [catch] does not
    arise, because the flags have been cleared before the update. *)
Lemma setCurrent_spec id ctx st logs :
  match AcademicYearRepository.findById id (years st) with
  | None =>
      AcademicYearService.setCurrent id ctx st logs
      = (Err (NotFoundException "Academic year not found"), (st, logs))
  | Some before =>
      if AcademicYear.isActive before then
        let after := withCurrent true before in
        let st' := setYears (updateFirst (AcademicYearRepository.hasYearId id)
                               (fun _ => after)
                               (AcademicYearRepository.unsetAllCurrent (years st))) st in
        if eqs id ""
        then AcademicYearService.setCurrent id ctx st logs
             = (Err (MongooseValidationError "entityId"), (st', logs))
        else AcademicYearService.setCurrent id ctx st logs
             = (Ok after,
                (st', logs ++ [ChangeLog.mk "AcademicYear" id ChangeLog.ActSetCurrent
                                 (Some before) (Some after)
                                 (RequestContext.academicYearId ctx)
                                 (RequestContext.userId ctx)]))
      else AcademicYearService.setCurrent id ctx st logs
           = (Err (BadRequestException "Cannot set current on an inactive year"), (st, logs))
  end.
Proof.
  unfold AcademicYearService.setCurrent, AcademicYearService.findOne,
    AcademicYearService.assertFound.
  destruct (AcademicYearRepository.findById id (years st)) as [before|] eqn:Ef; simpl; [|done].
  destruct (AcademicYear.isActive before) eqn:Ea; simpl; [|done].
  pose proof (patchAndLog_spec id (withCurrent true) ChangeLog.ActSetCurrent before ctx
                (setYears (AcademicYearRepository.unsetAllCurrent (years st)) st) logs) as Hp.
  simpl in Hp. rewrite unsetAllCurrent_find, Ef in Hp. simpl in Hp.
  rewrite withCurrent_true_unset in Hp.
  rewrite (no_current_exists _ _ (unsetAllCurrent_none (years st))) in Hp. simpl in Hp.
  destruct (eqs id "") eqn:Ei; rewrite Hp; done.
Qed.

Lemma filter_singleton_find {A} (p : A -> bool) l x :
  List.filter p l = [x] -> findOne p l = Some x.
Proof.
  unfold findOne. induction l as [|y l IH]; simpl; [done|].
  destruct (p y); [by intros [= -> _] | exact IH].
Qed.

(** X21. When [setCurrent] returns a year, that year is the one with the
    given id, it was active, and it is now the only year flagged
    current; no year was added or removed and no other field of any year
    changed. The students service then resolves it as the current year,
    so its promotion gate accepts this year's id and no other. Students,
    ledger, classes and sections are untouched, and the change log has
    grown by one [set-current] entry with the year before and after. *)
Theorem setCurrent_moves_the_gate id ctx st logs after st' logs' :
  AcademicYearService.setCurrent id ctx st logs = (Ok after, (st', logs')) ->
  exists before,
    AcademicYearRepository.findById id (years st) = Some before
    /\ AcademicYear.isActive before = true
    /\ after = withCurrent true before
    /\ AcademicYear._id after = id
    /\ List.filter AcademicYear.isCurrent (years st') = [after]
    /\ withCurrent false <$> years st' = withCurrent false <$> years st
    /\ StudentsService.resolveCurrentYear st' = Ok after
    /\ (forall y, StudentsService.assertIsCurrentAcademicYear y st' = Ok tt <-> y = id)
    /\ (classes st', sections st', students st', enrollments st')
       = (classes st, sections st, students st, enrollments st)
    /\ logs' = logs ++ [ChangeLog.mk "AcademicYear" id ChangeLog.ActSetCurrent
                          (Some before) (Some after)
                          (RequestContext.academicYearId ctx)
                          (RequestContext.userId ctx)].
Proof.
  intros Hs. pose proof (setCurrent_spec id ctx st logs) as Hspec.
  destruct (AcademicYearRepository.findById id (years st)) as [before|] eqn:Ef;
    [|rewrite Hspec in Hs; discriminate].
  destruct (AcademicYear.isActive before) eqn:Ea;
    [|rewrite Hspec in Hs; discriminate].
  cbv zeta in Hspec.
  destruct (eqs id "") eqn:Ei; rewrite Hspec in Hs; [discriminate|].
  injection Hs as <- <- <-.
  destruct (findById_id _ _ _ Ef) as [Hid _].
  assert (Hfu : AcademicYearRepository.findById id
                  (AcademicYearRepository.unsetAllCurrent (years st))
                = Some (if AcademicYear.isCurrent before
                        then withCurrent false before else before)).
  { by rewrite unsetAllCurrent_find, Ef. }
  assert (Hfilter : List.filter AcademicYear.isCurrent
                      (updateFirst (AcademicYearRepository.hasYearId id)
                         (fun _ => withCurrent true before)
                         (AcademicYearRepository.unsetAllCurrent (years st)))
                    = [withCurrent true before]).
  { eapply updateFirst_current; [apply unsetAllCurrent_none | exact Hfu | done]. }
  assert (Hres : StudentsService.resolveCurrentYear
                   (setYears (updateFirst (AcademicYearRepository.hasYearId id)
                                (fun _ => withCurrent true before)
                                (AcademicYearRepository.unsetAllCurrent (years st))) st)
                 = Ok (withCurrent true before)).
  { apply resolveCurrentYear_flagged. simpl. by apply filter_singleton_find. }
  exists before. repeat split; try done.
  - simpl. rewrite <- (withCurrent_true_unset before).
    rewrite (updateFirst_erase _ _ _ Hfu). apply unsetAllCurrent_erase.
  - unfold StudentsService.assertIsCurrentAcademicYear. rewrite Hres. simpl.
    destruct (eqs (AcademicYear._id before) y) eqn:Ey; simpl; [|discriminate].
    intros _. apply eqs_true in Ey. congruence.
  - intros ->. unfold StudentsService.assertIsCurrentAcademicYear. rewrite Hres. simpl.
    by rewrite Hid, eqs_refl.
Qed.

Lemma setCurrent_moves_the_gate_witness :
  StudentsService.resolveCurrentYear
    (AcademicYearService.setCurrent "y25" (RequestContext.mk (Some "admin") None)
       Demo.school []).2.1
  = Ok (withCurrent true Demo.y25).
Proof.
  destruct (setCurrent_moves_the_gate "y25" (RequestContext.mk (Some "admin") None)
              Demo.school [] _ _ _ eq_refl) as (b & _ & _ & _ & _ & _ & _ & H & _).
  exact H.
Defined.



Lemma updateFirst_same_flag (p : AcademicYear.t -> bool) d' l d :
  findOne p l = Some d -> AcademicYear.isCurrent d' = AcademicYear.isCurrent d ->
  List.length (List.filter AcademicYear.isCurrent (updateFirst p (fun _ => d') l))
  = List.length (List.filter AcademicYear.isCurrent l).
Proof.
  unfold findOne. intros Hf Hd. induction l as [|x l IH]; simpl in *; [done|].
  destruct (p x) eqn:Ep.
  - injection Hf as ->. simpl. rewrite Hd. by destruct (AcademicYear.isCurrent d).
  - simpl. destruct (AcademicYear.isCurrent x); simpl; rewrite IH; done.
Qed.

Lemma updateFirst_sound id b doc l :
  AcademicYearRepository.findById id l = Some doc ->
  (b = false -> AcademicYear.isCurrent doc = false) ->
  currentYearSound l ->
  currentYearSound (updateFirst (AcademicYearRepository.hasYearId id)
                      (fun _ => withActive b doc) l).
Proof.
  intros Hf Hb [Hact Hone]. split.
  - intros y Hy Hc. apply updateFirst_const_elem in Hy as [->|Hy]; [|by apply Hact].
    simpl in *. destruct b; [done|]. rewrite Hb in Hc; done.
  - by rewrite (updateFirst_same_flag _ _ _ doc Hf).
Qed.

Lemma patchActive_sound id b action doc ctx st logs :
  AcademicYearRepository.findById id (years st) = Some doc ->
  (b = false -> AcademicYear.isCurrent doc = false) ->
  currentYearSound (years st) ->
  currentYearSound
    (years (AcademicYearService.patchAndLog id (withActive b) action doc ctx st logs).2.1).
Proof.
  intros Hf Hb Hs.
  pose proof (patchAndLog_spec id (withActive b) action doc ctx st logs) as Hp.
  rewrite Hf in Hp. cbv zeta in Hp.
  destruct (AcademicYear.isCurrent (withActive b doc) && _); [by rewrite Hp|].
  destruct (eqs id ""); rewrite Hp; simpl; by apply updateFirst_sound.
Qed.

(** X23. [setCurrent], [setActive] and [remove] keep the flags of the
    years sound, whether they return or throw: a year flagged current is
    active, and at most one year is flagged. (The [update] of the
    service, which can also write [isActive], is not among them.) While
    the flags are sound,
    the year that the students service resolves as the current one is an
    active year, and the current year can be neither deactivated nor
    removed: both calls throw a bad request and write nothing. *)
Theorem year_flags_stay_sound id active ctx st logs :
  currentYearSound (years st) ->
  currentYearSound (years (AcademicYearService.setCurrent id ctx st logs).2.1)
  /\ currentYearSound (years (AcademicYearService.setActive id active ctx st logs).2.1)
  /\ currentYearSound (years (AcademicYearService.remove id ctx st logs).2.1)
  /\ (forall cur, StudentsService.resolveCurrentYear st = Ok cur ->
                  AcademicYear.isActive cur = true)
  /\ (forall y, AcademicYearRepository.findById id (years st) = Some y ->
                AcademicYear.isCurrent y = true ->
                AcademicYearService.setActive id false ctx st logs
                = (Err (BadRequestException "Cannot deactivate the current year"), (st, logs))
                /\ AcademicYearService.remove id ctx st logs
                   = (Err (BadRequestException "Cannot delete the current year"), (st, logs))).
Proof.
  intros Hs. split; [|split; [|split; [|split]]].
  - pose proof (setCurrent_spec id ctx st logs) as Hspec.
    destruct (AcademicYearRepository.findById id (years st)) as [before|] eqn:Ef;
      [|by rewrite Hspec].
    destruct (AcademicYear.isActive before) eqn:Ea; [|by rewrite Hspec].
    cbv zeta in Hspec.
    assert (Hfilter : List.filter AcademicYear.isCurrent
                        (updateFirst (AcademicYearRepository.hasYearId id)
                           (fun _ => withCurrent true before)
                           (AcademicYearRepository.unsetAllCurrent (years st)))
                      = [withCurrent true before]).
    { assert (Hfu : AcademicYearRepository.findById id
                      (AcademicYearRepository.unsetAllCurrent (years st))
                    = Some (if AcademicYear.isCurrent before
                            then withCurrent false before else before))
        by by rewrite unsetAllCurrent_find, Ef.
      eapply updateFirst_current; [apply unsetAllCurrent_none | exact Hfu | done]. }
    assert (Hsound : currentYearSound
                       (updateFirst (AcademicYearRepository.hasYearId id)
                          (fun _ => withCurrent true before)
                          (AcademicYearRepository.unsetAllCurrent (years st)))).
    { split; [|by rewrite Hfilter].
      intros y Hy Hc.
      assert (Hin : y ∈ List.filter AcademicYear.isCurrent
                      (updateFirst (AcademicYearRepository.hasYearId id)
                         (fun _ => withCurrent true before)
                         (AcademicYearRepository.unsetAllCurrent (years st))))
        by by apply elem_of_filter_bool.
      rewrite Hfilter in Hin. apply list_elem_of_singleton in Hin as ->. done. }
    destruct (eqs id ""); rewrite Hspec; exact Hsound.
  - unfold AcademicYearService.setActive, AcademicYearService.findOne,
      AcademicYearService.assertFound.
    destruct (AcademicYearRepository.findById id (years st)) as [before|] eqn:Ef; simpl;
      [|done].
    destruct (negb active && AcademicYear.isCurrent before) eqn:Ec; [done|].
    apply patchActive_sound; [done| |done].
    intros ->. by destruct (AcademicYear.isCurrent before).
  - unfold AcademicYearService.remove, AcademicYearService.findOne,
      AcademicYearService.assertFound.
    destruct (AcademicYearRepository.findById id (years st)) as [before|] eqn:Ef; simpl;
      [|done].
    destruct (AcademicYear.isCurrent before) eqn:Ec; [done|].
    by apply patchActive_sound.
  - intros cur Hr. destruct (findOne AcademicYear.isCurrent (years st)) as [c|] eqn:Ec.
    + rewrite (resolveCurrentYear_flagged st c Ec) in Hr. injection Hr as <-.
      destruct (findOne_Some _ _ _ Ec) as [Hin Hc]. by apply Hs.
    + pose proof (resolveCurrentYear_fallback st Ec) as Hfb. rewrite Hr in Hfb.
      by destruct Hfb as (_ & Ha & _).
  - intros y Hf Hc. unfold AcademicYearService.setActive, AcademicYearService.remove,
      AcademicYearService.findOne, AcademicYearService.assertFound.
    rewrite Hf. simpl. by rewrite Hc.
Qed.

Lemma year_flags_stay_sound_witness :
  currentYearSound
    (years (AcademicYearService.setCurrent "y25" (RequestContext.mk (Some "admin") None)
              Demo.school []).2.1)
  /\ AcademicYearService.remove "y24" (RequestContext.mk (Some "admin") None) Demo.school []
     = (Err (BadRequestException "Cannot delete the current year"), (Demo.school, [])).
Proof.
  assert (Hs : currentYearSound (years Demo.school)).
  { split; [|simpl; lia].
    intros y Hy Hc. simpl in Hy. rewrite !elem_of_cons in Hy.
    destruct Hy as [->|[->|[->|Hy]]]; try done. by apply elem_of_nil in Hy. }
  split.
  - exact (proj1 (year_flags_stay_sound "y25" true (RequestContext.mk (Some "admin") None)
                    Demo.school [] Hs)).
  - exact (proj2 (proj2 (proj2 (proj2 (proj2
             (year_flags_stay_sound "y24" true (RequestContext.mk (Some "admin") None)
                Demo.school [] Hs)))) Demo.y24 eq_refl eq_refl)).
Defined.


(* ===================================================================== *)
(** ** Deleting a student *)
(* ===================================================================== *)

Lemma removeFirst_filter id l :
  NoDup (Student._id <$> l) ->
  removeFirst (hasId id) l = List.filter (fun s => negb (hasId id s)) l.
Proof.
  induction l as [|x l IH]; simpl; [done|]. intros Hnd.
  apply NoDup_cons in Hnd as [Hx Hnd].
  destruct (hasId id x) eqn:Ex; simpl; [|by rewrite IH].
  symmetry. apply filter_all. intros y Hy.
  destruct (hasId id y) eqn:Ey; [|done].
  exfalso. apply Hx. apply eqs_true in Ex, Ey. rewrite Ex, <- Ey.
  apply list_elem_of_fmap. by exists y.
Qed.

Lemma findStudent_filter_out id l :
  findStudent id (List.filter (fun s => negb (hasId id s)) l) = None.
Proof.
  unfold findStudent, findOne. induction l as [|x l IH]; simpl; [done|].
  destruct (hasId id x) eqn:Ex; simpl; [exact IH|]. by rewrite Ex.
Qed.

Lemma findStudent_filter_other id id' l :
  id' <> id ->
  findStudent id' (List.filter (fun s => negb (hasId id s)) l) = findStudent id' l.
Proof.
  intros Hne. unfold findStudent, findOne. induction l as [|x l IH]; simpl; [done|].
  destruct (hasId id x) eqn:Ex; simpl.
  - assert (hasId id' x = false) as ->; [|exact IH].
    apply eqs_true in Ex. apply eqs_false. congruence.
  - destruct (hasId id' x); [done | exact IH].
Qed.

Lemma rows_without (g : Student.t -> list StudentView.t) id l :
  (forall s v, v ∈ g s -> StudentView._id v = Student._id s) ->
  mjoin (rev (g <$> List.filter (fun s => negb (hasId id s)) l))
  = List.filter (fun v => negb (eqs (StudentView._id v) id)) (mjoin (rev (g <$> l))).
Proof.
  intros Hg. induction l as [|x l IH]; simpl; [done|].
  rewrite join_app, List.filter_app. simpl. rewrite app_nil_r.
  assert (Hx : List.filter (fun v => negb (eqs (StudentView._id v) id)) (g x)
               = if hasId id x then [] else g x).
  { destruct (hasId id x) eqn:Ex.
    - assert (Hnone : forall l0, (forall v, v ∈ l0 -> eqs (StudentView._id v) id = true) ->
                List.filter (fun v => negb (eqs (StudentView._id v) id)) l0 = []).
      { induction l0 as [|v l0 IH0]; simpl; [done|]. intros H.
        rewrite (H v) by by left. simpl. apply IH0. intros w Hw. apply H. by right. }
      apply Hnone. intros v Hv. rewrite (Hg x v Hv). exact Ex.
    - apply filter_all. intros v Hv. rewrite (Hg x v Hv). unfold hasId in Ex. by rewrite Ex. }
  rewrite Hx. change (list_fmap Student.t (list StudentView.t) g l) with (g <$> l).
  rewrite <- IH. destruct (hasId id x) eqn:Ex; simpl.
  - by rewrite app_nil_r.
  - by rewrite join_app; simpl; rewrite app_nil_r.
Qed.

Lemma rows_of_filter {A B} (m : A -> bool) (f : A -> B) l :
  mjoin (rev ((fun s => if m s then [f s] else []) <$> l)) = rev (f <$> List.filter m l).
Proof.
  induction l as [|x l IH]; simpl; [done|].
  rewrite join_app. simpl. rewrite app_nil_r.
  change (list_fmap A (list B) (fun s => if m s then [f s] else []) l)
    with ((fun s => if m s then [f s] else []) <$> l).
  rewrite IH. destruct (m x); simpl; [done | by rewrite app_nil_r].
Qed.

Lemma filter_out_found id l :
  List.filter (hasId id) (List.filter (fun s => negb (hasId id s)) l) = [].
Proof.
  induction l as [|x l IH]; simpl; [done|].
  destruct (hasId id x) eqn:Ex; simpl; [exact IH|]. by rewrite Ex.
Qed.

(** X24. Deleting a student removes the student document and nothing
    else: the ledger keeps every entry, also those of the deleted
    student, so the roll numbers they hold stay taken. Where ids are
    unique, the student can no longer be found by id (with or without a
    year), every other student is found as before, and each list of
    [filterStudents] is the list before the deletion without the rows of
    that student. *)
Theorem delete_removes_only_the_student id st :
  uniqueStudentIds st ->
  (StudentsService.delete id st).1 = Ok (findStudent id (students st))
  /\ enrollments (StudentsService.delete id st).2 = enrollments st
  /\ (years (StudentsService.delete id st).2, classes (StudentsService.delete id st).2,
      sections (StudentsService.delete id st).2)
     = (years st, classes st, sections st)
  /\ findStudent id (students (StudentsService.delete id st).2) = None
  /\ (forall ay, StudentsQueries.findOne id ay (StudentsService.delete id st).2 = None)
  /\ (forall id', id' <> id ->
        findStudent id' (students (StudentsService.delete id st).2)
        = findStudent id' (students st))
  /\ (forall filters,
        StudentsQueries.filterStudents filters (StudentsService.delete id st).2
        = List.filter (fun v => negb (eqs (StudentView._id v) id))
            (StudentsQueries.filterStudents filters st)).
Proof.
  intros Hu. unfold StudentsService.delete. simpl.
  rewrite (removeFirst_filter id _ Hu).
  split; [done|]. split; [done|]. split; [done|].
  split; [apply findStudent_filter_out|].
  split; [|split].
  - intros ay. unfold StudentsQueries.findOne. simpl.
    rewrite filter_out_found, findStudent_filter_out. by destruct (JS.truthy ay).
  - intros id' Hne. by apply findStudent_filter_other.
  - intros filters. unfold StudentsQueries.filterStudents. simpl.
    destruct (JS.truthy (StudentFilters.academicYearId filters)).
    + apply rows_without. intros s v Hv.
      apply list_elem_of_fmap in Hv as (e & -> & _). done.
    + rewrite <- (rows_of_filter (StudentsQueries.matchSnapshot filters)
                    StudentsQueries.rawView (students st)).
      rewrite <- (rows_of_filter (StudentsQueries.matchSnapshot filters)
                    StudentsQueries.rawView
                    (List.filter (fun s => negb (hasId id s)) (students st))).
      apply (rows_without
               (fun s => if StudentsQueries.matchSnapshot filters s
                         then [StudentsQueries.rawView s] else [])).
      intros s v Hv. destruct (StudentsQueries.matchSnapshot filters s).
      * apply list_elem_of_singleton in Hv as ->. done.
      * by apply elem_of_nil in Hv.
Qed.

Lemma delete_removes_only_the_student_witness :
  enrollments (StudentsService.delete "bob" Demo.school).2 = enrollments Demo.school
  /\ (forall ay, StudentsQueries.findOne "bob" ay (StudentsService.delete "bob" Demo.school).2
                 = None).
Proof.
  assert (Hu : uniqueStudentIds Demo.school).
  { unfold uniqueStudentIds. apply (bool_decide_unpack _). vm_compute. exact I. }
  pose proof (delete_removes_only_the_student "bob" Demo.school Hu)
    as (_ & He & _ & _ & Hf & _).
  split; [exact He | exact Hf].
Defined.

